(** * ORCA: the scheduler registry, port striping and the document store

  A shallow embedding of the Go packages [orca/pkg/container],
  [orca/pkg/scheduler] and [orca/pkg/storage], with the handlers of
  [cmd/orchestrator/handlers.go] that validate requests, delete from the
  registry, resolve container names and read logs; the properties of the
  design document proved, or refuted, on it; and further properties that
  the code has.

  The sources hold two revisions of [scheduler.go]. They differ in one
  place: in the later one [CreateService] calls [validatePortConflicts]
  before it registers the service. That revision is the one embedded
  here.

  What is not ORCA's own code is a parameter of the development: the
  Docker daemon and the clock ([Outside], and [Inspector] for the
  queries), the order in which Go ranges over a map ([MapRange]),
  [encoding/json] ([JSON], [ServiceJSON]) and the file system
  ([FileSystem]). The library functions whose results the properties
  depend on ([fmt.Sscanf] with [%d], [strconv.Atoi], [strconv.Itoa],
  [strings.Split], [strings.SplitN], [strings.HasPrefix],
  [filepath.Ext], [utf8.ValidString]) and the capacity check of [make]
  are written out. The lines the manager and the
  scheduler send to their logger are left out; those of the store about
  deployments are kept. The package [config], which is a configuration
  of the [viper] library, and the command line client are not embedded.

  Layout: Go's [int] and the library functions; the data types of
  [container/types.go]; errors; the outside world and the monad that
  threads it; the container manager; the scheduler; the handlers; the
  store; the predicates the statements use; the concrete worlds of the
  examples. Then the lemmas and theorems: those of the design document
  first ([C1] to [C10], with their examples), then the further ones
  ([X1] to [X30], with theirs). *)

From Stdlib Require Import ZArith String Ascii List Lia DecimalString DecimalPos.
From stdpp Require Import gmap strings list fin_maps.

Local Open Scope Z_scope.

(* ===================================================================== *)
(** ** Go's [int] and the library functions used by the code             *)
(* ===================================================================== *)

(** Go's [int] on the 64-bit targets the project builds for: a signed
  two's-complement word. Values are kept in [Z]; arithmetic wraps. *)
Module goint.

Definition MaxInt : Z := 2 ^ 63 - 1.
Definition MinInt : Z := - 2 ^ 63.

Definition wrap (z : Z) : Z := (z + 2 ^ 63) mod 2 ^ 64 - 2 ^ 63.

Definition add (a b : Z) : Z := wrap (a + b).

Definition in_range (z : Z) : bool := (MinInt <=? z) && (z <=? MaxInt).

End goint.

(** Byte-level helpers on [string] (a Go string is a byte sequence). *)
Module bytes.

Definition code (c : ascii) : Z := Z.of_N (N_of_ascii c).

Definition is_digit (c : ascii) : bool := (48 <=? code c) && (code c <=? 57).

Definition digit_val (c : ascii) : Z := code c - 48.

(** Value of a run of decimal digits, most significant first, starting
    from the accumulator [acc] ([n = n*10 + d] in the library loops). *)
Fixpoint decimal (acc : Z) (s : string) : Z :=
  match s with
  | EmptyString => acc
  | String c r => decimal (acc * 10 + digit_val c) r
  end.

Fixpoint all_digits (s : string) : bool :=
  match s with
  | EmptyString => true
  | String c r => is_digit c && all_digits r
  end.

(** Longest prefix whose bytes satisfy [p], and what follows it. *)
Fixpoint span (p : ascii -> bool) (s : string) : string * string :=
  match s with
  | EmptyString => (EmptyString, EmptyString)
  | String c r =>
      if p c then let '(a, b) := span p r in (String c a, b)
      else (EmptyString, s)
  end.

Definition is_sign (c : ascii) : bool := (code c =? 43) || (code c =? 45).

End bytes.

(** [runtime.makeslice], which [make([]T, 0, cap)] calls when [cap] is
    not a constant. It panics ("makeslice: cap out of range") when [cap]
    is negative, and when [cap] elements of [elemSize] bytes are more than
    [maxAlloc], the size of the address space of the heap: 2^48 bytes on
    the 64-bit targets. A capacity within the bound is taken to be
    allocated, like everything else the program allocates: a process that
    the runtime ends for want of memory returns nothing to anyone. *)
Module runtime.

Definition maxAlloc : Z := 2 ^ 48.

(** The size of a pointer, the element of a [[]*container.Container]. *)
Definition PtrSize : Z := 8.

Definition makeslice_panics (elemSize cap : Z) : bool :=
  (cap <? 0) || (maxAlloc <? elemSize * cap).

End runtime.

(** [unicode/utf8]: which byte strings are UTF-8. *)
Module utf8.
Import bytes.

(** The table [first] with its [acceptRanges]: for the first byte of an
    encoding of more than one byte, the length of the encoding and the
    range of its second byte. The bytes [x80] to [xC1] and [xF5] to [xFF]
    start no encoding; the ranges of [xE0], [xED], [xF0] and [xF4]
    exclude the overlong forms, the surrogates and what is beyond
    U+10FFFF. *)
Definition first (b : Z) : option (Z * Z * Z) :=
  if (194 <=? b) && (b <=? 223) then Some (2, 128, 191)
  else if b =? 224 then Some (3, 160, 191)
  else if (225 <=? b) && (b <=? 236) then Some (3, 128, 191)
  else if b =? 237 then Some (3, 128, 159)
  else if (238 <=? b) && (b <=? 239) then Some (3, 128, 191)
  else if b =? 240 then Some (4, 144, 191)
  else if (241 <=? b) && (b <=? 243) then Some (4, 128, 191)
  else if b =? 244 then Some (4, 128, 143)
  else None.

Definition is_continuation (b : Z) : bool := (128 <=? b) && (b <=? 191).

(** What follows the encoding of one code point at the head of a
    string. [None]: the string is empty, or its head is no encoding
    ([DecodeRuneInString] then returns [RuneError] with the width 1). *)
Definition after_rune (s : string) : option string :=
  match s with
  | EmptyString => None
  | String c1 r1 =>
      if code c1 <? 128 then Some r1
      else
        match first (code c1), r1 with
        | Some (size, lo, hi), String c2 r2 =>
            if (lo <=? code c2) && (code c2 <=? hi) then
              if size =? 2 then Some r2
              else
                match r2 with
                | String c3 r3 =>
                    if is_continuation (code c3) then
                      if size =? 3 then Some r3
                      else
                        match r3 with
                        | String c4 r4 =>
                            if is_continuation (code c4) then Some r4 else None
                        | EmptyString => None
                        end
                    else None
                | EmptyString => None
                end
            else None
        | _, _ => None
        end
  end.

(** [ValidString] on a string of at most [fuel] bytes: one encoding
    after the other, to the end. *)
Fixpoint valid_from (fuel : nat) (s : string) : bool :=
  match s, fuel with
  | EmptyString, _ => true
  | String _ _, O => false
  | String _ _, S fuel' =>
      match after_rune s with
      | Some rest => valid_from fuel' rest
      | None => false
      end
  end.

(** [utf8.ValidString]. *)
Definition ValidString (s : string) : bool := valid_from (String.length s) s.

End utf8.

(** [strconv]: [Atoi] and the base-10, 64-bit [ParseInt] behind it. *)
Module strconv.
Import bytes.

(** [strconv.ParseInt(s, 10, 64)]: an optional sign, then one or more
    decimal digits and nothing else (an underscore is a syntax error in
    base 10); a value outside the 64-bit range is a range error. Both
    errors are [None]. *)
Definition ParseInt (s : string) : option Z :=
  let '(neg, body) :=
    match s with
    | String c r => if is_sign c then (code c =? 45, r) else (false, s)
    | EmptyString => (false, s)
    end in
  match body with
  | EmptyString => None
  | _ =>
      if all_digits body then
        let v := if neg then - decimal 0 body else decimal 0 body in
        if goint.in_range v then Some v else None
      else None
  end.

(** [strconv.Atoi]: its fast path and its fallback to [ParseInt(s, 10, 0)]
    accept the same strings and return the same values. *)
Definition Atoi (s : string) : option Z := ParseInt s.

(** [strconv.Itoa] / the [%d] verb of [fmt.Sprintf]: the decimal
    rendering, with a leading minus sign for negative numbers. *)
Definition Itoa (z : Z) : string := NilZero.string_of_int (Z.to_int z).

End strconv.

(** [fmt]: the one scanning call and the formatting calls of the code. *)
Module fmt.
Import bytes.

(** Three-byte UTF-8 encodings of the Unicode white space that
    [fmt]'s [isSpace] table lists: U+1680, U+2000..U+200A, U+2028,
    U+2029, U+202F, U+205F, U+3000. *)
Definition space3 (b1 b2 b3 : Z) : bool :=
  ((b1 =? 225) && (b2 =? 154) && (b3 =? 128))
  || ((b1 =? 226) && (b2 =? 128)
      && (((128 <=? b3) && (b3 <=? 138)) || (b3 =? 168) || (b3 =? 169) || (b3 =? 175)))
  || ((b1 =? 226) && (b2 =? 129) && (b3 =? 159))
  || ((b1 =? 227) && (b2 =? 128) && (b3 =? 128)).

(** [ss.SkipSpace] as [Sscanf] runs it ([nlIsSpace] is false): white
    space is dropped, a newline is the error "unexpected newline"
    ([None]). U+0085 and U+00A0 are the two-byte spaces. *)
Fixpoint SkipSpace (s : string) : option string :=
  match s with
  | EmptyString => Some s
  | String c1 r1 =>
      let b1 := code c1 in
      if b1 =? 10 then None
      else if ((9 <=? b1) && (b1 <=? 13)) || (b1 =? 32) then SkipSpace r1
      else
        match r1 with
        | String c2 r2 =>
            let b2 := code c2 in
            if (b1 =? 194) && ((b2 =? 133) || (b2 =? 160)) then SkipSpace r2
            else
              match r2 with
              | String c3 r3 =>
                  if space3 b1 b2 (code c3) then SkipSpace r3 else Some s
              | EmptyString => Some s
              end
        | EmptyString => Some s
        end
  end.

(** The digit set of the [%d] verb, [decimalDigits = "0123456789"] (the
  underscore is added to it for [%v] only). *)
Definition is_decimalDigit (c : ascii) : bool := is_digit c.

(** [ss.scanInt] for the verb [d] into an [int]: skip space, fail at
  end of input, accept one sign, read the longest run of
  [decimalDigits] (at least one), convert the token with
  [strconv.ParseInt(tok, 10, 64)], which fails when the value does not
  fit. What follows the token is left unread. [None] is any of the scan
  errors. (The field-width cap of 2^30 runes that [doScanf] sets for a
  verb without a width is not modelled.) *)
Definition scanInt (s : string) : option Z :=
  match SkipSpace s with
  | None => None
  | Some s1 =>
      let '(sign, s2) :=
        match s1 with
        | String c r => if is_sign c then (String c EmptyString, r) else (EmptyString, s1)
        | EmptyString => (EmptyString, s1)
        end in
      let '(digits, _) := span is_decimalDigit s2 in
      match digits with
      | EmptyString => None
      | _ => strconv.ParseInt (sign +:+ digits)
      end
  end.

(** [fmt.Sscanf(s, "%d", &result)] with [result] holding [old] before the
    call: on success the scanned integer is stored, on any scan error the
    variable is left as it was. The error value is discarded by the only
    caller, and the call never panics: scan errors are recovered inside
    [Sscanf] by its [errorHandler]. *)
Definition Sscanf_d (s : string) (old : Z) : Z :=
  match scanInt s with
  | Some n => n
  | None => old
  end.

(** [fmt.Sprintf("%d", n)]. *)
Definition Sprintf_d (n : Z) : string := strconv.Itoa n.

(** [fmt.Sprintf("%s-%d", name, i)]. *)
Definition Sprintf_s_dash_d (name : string) (i : Z) : string :=
  name +:+ "-" +:+ strconv.Itoa i.

End fmt.

(** [strings.Split(s, "/")]: the pieces between the slashes, one more
  than there are slashes. *)
Module strings.

Fixpoint Split_slash (s : string) : list string :=
  match s with
  | EmptyString => [EmptyString]
  | String c r =>
      if bytes.code c =? 47 then EmptyString :: Split_slash r
      else
        match Split_slash r with
        | p :: ps => String c p :: ps
        | [] => [String c EmptyString]
        end
  end.

(** What is before the first equals sign of a string and what is after
    it, when it has one. *)
Fixpoint cut_equals (s : string) : option (string * string) :=
  match s with
  | EmptyString => None
  | String c r =>
      if bytes.code c =? 61 then Some (EmptyString, r)
      else
        match cut_equals r with
        | Some (before, after) => Some (String c before, after)
        | None => None
        end
  end.

(** [strings.SplitN(s, "=", 2)]: the string itself when it has no equals
    sign, otherwise the two pieces around the first one. *)
Definition SplitN_equals_2 (s : string) : list string :=
  match cut_equals s with
  | Some (before, after) => [before; after]
  | None => [s]
  end.

(** [strings.TrimPrefix(s, "/")]. *)
Definition TrimPrefix_slash (s : string) : string :=
  match s with
  | String c r => if bytes.code c =? 47 then r else s
  | EmptyString => s
  end.

(** [strings.HasPrefix(s, prefix)]. *)
Definition HasPrefix (s prefix : string) : bool := String.prefix prefix s.

End strings.

(** Iteration over a Go map. The language leaves the order of a [range]
  over a map unspecified; the development is parametric in it: any
  function that lists the entries of the map, each exactly once. *)
Class MapRange := {
  range : forall {A : Type}, gmap string A -> list (string * A);
  range_perm : forall (A : Type) (m : gmap string A), range m ≡ₚ map_to_list m
}.

(** A Go [map[string]string] is [nil] ([None]) or a map; ranging over the
  nil map runs no iteration. *)
Abbreviation gomap := (option (gmap string string)).

Definition items `{MapRange} (m : gomap) : list (string * string) :=
match m with
| None => []
| Some m => range m
end.

(** A [time.Time] is modelled by the instant it denotes, in nanoseconds
  since the Unix epoch. *)
Abbreviation Time := Z.

(* ===================================================================== *)
(** ** [pkg/container/types.go]                                          *)
(* ===================================================================== *)

Module VolumeMount.
Record t := mk {
  Source : string;
  Destination : string;
  ReadOnly : bool
}.
End VolumeMount.

Module ContainerSpec.
Record t := mk {
  Name : string;
  Image : string;
  Ports : gomap;
  Environment : gomap;
  Labels : gomap;
  Command : option (list string);
  Args : option (list string);
  WorkingDir : string;
  Volumes : option (list VolumeMount.t)
}.
End ContainerSpec.

Module Container.
Record t := mk {
  ID : string;
  Name : string;
  Image : string;
  Status : string;
  Ports : gomap;
  Environment : gomap;
  Labels : gomap;
  Created : Time;
  Started : option Time
}.

(** [c.Status = status] on the pointed-to container. *)
Definition set_Status (status : string) (c : t) : t :=
  mk (ID c) (Name c) (Image c) status (Ports c) (Environment c) (Labels c)
     (Created c) (Started c).
End Container.

Module DeploymentSpec.
Record t := mk {
  Name : string;
  Replicas : Z;
  Container : ContainerSpec.t;
  Strategy : string
}.
End DeploymentSpec.

Module ServicePort.
Record t := mk {
  Port : Z;
  TargetPort : Z
}.
End ServicePort.

Module ServiceSpec.
Record t := mk {
  Name : string;
  Type_ : string;
  Selector : gomap;
  Ports : list ServicePort.t
}.
End ServiceSpec.

(* ===================================================================== *)
(** ** Errors                                                            *)
(* ===================================================================== *)

(** The code builds every error with [fmt.Errorf]; each constructor is one
  of its format strings, with the arguments it is given. [%w] wraps a
  cause. *)
Inductive Error : Type :=
(* scheduler.go *)
| ErrDeploymentExists (name : string)
| ErrReplicaCreate (replica : Z) (cause : Error)
| ErrReplicaStart (replica : Z) (cause : Error)
| ErrDeploymentNotFound (name : string)
| ErrDeploymentCleanup (cause : Error)
| ErrServiceExists (name : string)
| ErrServiceNotFound (name : string)
| ErrPortConflict (cause : Error)
(* validatePortConflicts *)
| ErrPortNumber (port : Z)
| ErrTargetPortNumber (port : Z)
| ErrPortInUseSameService (port : Z)
| ErrPortInUseByService (port : Z) (service : string)
| ErrPortInUseByDeployment (port : Z) (deployment : string) (containerPort : string)
(* container/manager.go *)
| ErrInvalidPort (containerPort : string)
| ErrDockerCreate (cause : string)
| ErrDockerStart (cause : string)
| ErrDockerStop (cause : string)
| ErrDockerRemove (cause : string)
(* storage.go *)
| ErrDeploymentSerialize
| ErrDeploymentWrite (cause : string)
| ErrDeploymentRead (cause : string)
| ErrDeploymentParse
| ErrDeploymentsDir (cause : string)
| ErrDeploymentRemove (cause : string).

(** The errors of the queries of the manager ([List], [Get],
    [LogsWithTail]) and of [resolveContainerID] in [handlers.go]. *)
Inductive QueryError : Type :=
| ErrContainerList (cause : string)
| ErrContainerInspect (cause : string)
| ErrContainerLogs (cause : string)
| ErrLogsRead (cause : string)
| ErrContainerUnresolved (nameOrID : string).

(** A run-time panic. The one the code can raise is that of [make] for a
    slice whose capacity is out of range. *)
Inductive PanicValue := MakesliceCapOutOfRange.

(** How a call that returns [(value, error)] ends: with a value and a nil
    error, with an error, or in a panic that unwinds through the caller. *)
Inductive result (A : Type) : Type :=
| Ok (a : A)
| Err (e : Error)
| Panic (p : PanicValue).
Arguments Ok {A} a.
Arguments Err {A} e.
Arguments Panic {A} p.

(** The error kinds of the design document (its section 7). The code has
  no such type: the kind of an error is the kind the document gives to
  the place that returns it. *)
Inductive ErrorKind :=
  NotFound | AlreadyExists | ValidationError | RuntimeError | PersistenceError.

Definition kind_of (e : Error) : ErrorKind :=
match e with
| ErrDeploymentExists _ | ErrServiceExists _ => AlreadyExists
| ErrDeploymentNotFound _ | ErrServiceNotFound _ => NotFound
| ErrPortConflict _ | ErrPortNumber _ | ErrTargetPortNumber _
| ErrPortInUseSameService _ | ErrPortInUseByService _ _
| ErrPortInUseByDeployment _ _ _ => ValidationError
| ErrDeploymentSerialize | ErrDeploymentWrite _ | ErrDeploymentRead _
| ErrDeploymentParse | ErrDeploymentsDir _ | ErrDeploymentRemove _ => PersistenceError
| _ => RuntimeError
end.

(* ===================================================================== *)
(** ** What lies outside the program                                     *)
(* ===================================================================== *)

(** The Docker daemon behind [client.Client], the wall clock and
  [nat.NewPort] of [github.com/docker/go-connections]. [W] is the state
  of the outside world; a daemon call returns an answer and the next
  state. The daemon's answer to [ContainerCreate] may depend on anything
  in the [ContainerSpec] the request is built from. *)
Class Outside (W : Type) := {
  (** [resp.ID] on success ([inl]), the daemon's error message otherwise. *)
  ContainerCreate : ContainerSpec.t -> W -> (string + string) * W;
  ContainerStart : string -> W -> option string * W;
  ContainerStop : string -> W -> option string * W;
  ContainerRemove : string -> W -> option string * W;
  (** [time.Now()], as nanoseconds since the epoch. *)
  time_Now : W -> Time * W;
  (** Does [nat.NewPort(protocol, port)] accept its arguments? *)
  nat_NewPort : string -> string -> bool
}.

(** The parts of the Docker API types that the queries of the manager
  read: an entry of the answer to [ContainerList] with its published
  ports (the port numbers are [uint16]), and the answer to
  [ContainerInspect]. The code reads the [State] and the [Config] of an
  inspected container without a test for nil; the answer of a daemon has
  both. [NetworkSettings_Ports] is [None] when [NetworkSettings] or its
  [Ports] is nil. *)
Module docker.

Module Port.
Record t := mk {
  PrivatePort : Z;
  PublicPort : Z
}.
End Port.

Module Summary.
Record t := mk {
  ID : string;
  Names : list string;
  Image : string;
  Status : string;
  Ports : list Port.t;
  Labels : gomap;
  Created : Z
}.
End Summary.

Module PortBinding.
Record t := mk {
  HostIP : string;
  HostPort : string
}.
End PortBinding.

Module Inspect.
Record t := mk {
  ID : string;
  Name : string;
  Created : string;
  State_Status : string;
  State_StartedAt : string;
  Config_Image : string;
  Config_Env : list string;
  Config_Labels : gomap;
  NetworkSettings_Ports : option (gmap string (list PortBinding.t))
}.
End Inspect.

End docker.

(** The queries the manager sends to the daemon, and two library
  functions it applies to the answers. *)
Class Inspector (W : Type) := {
  (** The containers, or the daemon's error message. *)
  ContainerList : W -> (list docker.Summary.t + string) * W;
  ContainerInspect : string -> W -> (docker.Inspect.t + string) * W;
  (** [ContainerLogs] for a container and the [Tail] option: the bytes of
      the log stream with the error the stream ends in, if it does not end
      at its end; or the error of the call. *)
  ContainerLogs : string -> string -> W -> (string * option string + string) * W;
  (** [time.Parse(time.RFC3339Nano, s)]. *)
  time_Parse : string -> option Time;
  (** [nat.Port.Port]: the port of a [nat.Port], without its protocol. *)
  nat_Port_Port : string -> string
}.

(** A call on the container manager, and a record of one with its
  outcome ([None]: it returned a nil error). *)
Inductive Call :=
| CallCreate (spec : ContainerSpec.t)
| CallStart (id : string)
| CallStop (id : string)
| CallRemove (id : string).

Record Event := mkEvent { ev_call : Call; ev_err : option Error }.

(** The state threaded through the manager: the outside world and the
  calls made so far, oldest first. *)
Record Host (W : Type) := mkHost { world : W; trace : list Event }.
Arguments mkHost {W} world trace.
Arguments world {W} h.
Arguments trace {W} h.

Definition M (W A : Type) : Type := Host W -> A * Host W.

Definition ret {W A} (a : A) : M W A := fun h => (a, h).

Definition bind {W A B} (m : M W A) (k : A -> M W B) : M W B :=
fun h => let '(a, h') := m h in k a h'.

Declare Scope go_scope.
Delimit Scope go_scope with go.
Notation "x <- m ;; k" := (bind m (fun x => k))
  (at level 100, m at next level, k at level 200, right associativity) : go_scope.

(** Ask the outside world. *)
Definition ask {W A} (f : W -> A * W) : M W A :=
fun h => let '(a, w) := f (world h) in (a, mkHost w (trace h)).

(** Append a call to the trace. *)
Definition record {W} (c : Call) (e : option Error) : M W unit :=
fun h => (tt, mkHost (world h) (trace h ++ [mkEvent c e])).

(** First error of a loop that returns from inside its body: [f] is the
    body, [None] when the iteration falls through to the next one. *)
Fixpoint first_error {A : Type} (f : A -> option Error) (l : list A) : option Error :=
match l with
| [] => None
| x :: r =>
    match f x with
    | Some e => Some e
    | None => first_error f r
    end
end.

(* ===================================================================== *)
(** ** [pkg/container/manager.go]                                        *)
(* ===================================================================== *)

Module container.
Section Manager.
Context {MR : MapRange} {W : Type} {OW : Outside W}.
Local Open Scope go_scope.

(** The protocol and port that [Create] passes to [nat.NewPort] for a key
    of [spec.Ports]: [tcp] and the whole key, unless the key has exactly
    one slash. *)
Definition protocol_port (containerPort : string) : string * string :=
match strings.Split_slash containerPort with
| [portStr; protocol] => (protocol, portStr)
| _ => ("tcp"%string, containerPort)
end.

Definition port_rejected (containerPort : string) : bool :=
let '(protocol, portStr) := protocol_port containerPort in
negb (nat_NewPort protocol portStr).

(** [Manager.Create]: the port loop returns at the first key that
    [nat.NewPort] rejects; otherwise the daemon is asked, and on success
    the handle is built from the spec and the daemon's ID. *)
Definition Create (spec : ContainerSpec.t) : M W (result Container.t) :=
match find (fun kv => port_rejected kv.1) (items (ContainerSpec.Ports spec)) with
| Some (containerPort, _) =>
    let e := ErrInvalidPort containerPort in
    _ <- record (CallCreate spec) (Some e) ;; ret (Err e)
| None =>
    resp <- ask (ContainerCreate spec) ;;
    match resp with
    | inr msg =>
        let e := ErrDockerCreate msg in
        _ <- record (CallCreate spec) (Some e) ;; ret (Err e)
    | inl id =>
        now <- ask time_Now ;;
        _ <- record (CallCreate spec) None ;;
        ret (Ok (Container.mk id (ContainerSpec.Name spec) (ContainerSpec.Image spec)
                   "created" (ContainerSpec.Ports spec)
                   (ContainerSpec.Environment spec) (ContainerSpec.Labels spec)
                   now None))
    end
end.

Definition Start (containerID : string) : M W (option Error) :=
r <- ask (ContainerStart containerID) ;;
let e := ErrDockerStart <$> r in
_ <- record (CallStart containerID) e ;; ret e.

Definition Stop (containerID : string) : M W (option Error) :=
r <- ask (ContainerStop containerID) ;;
let e := ErrDockerStop <$> r in
_ <- record (CallStop containerID) e ;; ret e.

Definition Remove (containerID : string) : M W (option Error) :=
r <- ask (ContainerRemove containerID) ;;
let e := ErrDockerRemove <$> r in
_ <- record (CallRemove containerID) e ;; ret e.

End Manager.

Section Queries.
Context {MR : MapRange} {W : Type} {IW : Inspector W}.
Local Open Scope go_scope.

(** The [Env] that [Create] puts in the container config:
    [key=value] for every entry of [spec.Environment]. *)
Definition Create_env (environment : gomap) : list string :=
(fun kv => kv.1 +:+ "=" +:+ kv.2) <$> items environment.

(** [parseEnvVars]: the entries without an equals sign are dropped. *)
Definition parseEnvVars (env : list string) : gmap string string :=
foldl (fun result e =>
         match strings.SplitN_equals_2 e with
         | [key; value] => <[key := value]> result
         | _ => result
         end) ∅ env.

(** The port map [List] builds from the published ports of a
    container. *)
Definition listed_ports (ports : list docker.Port.t) : gmap string string :=
foldl (fun acc port =>
         if 0 <? docker.Port.PublicPort port
         then <[strconv.Itoa (docker.Port.PrivatePort port)
                 := strconv.Itoa (docker.Port.PublicPort port)]> acc
         else acc) ∅ ports.

(** The handle [List] builds for one container; [time.Unix(c.Created, 0)]
    is [c.Created] seconds after the epoch. *)
Definition listed (c : docker.Summary.t) : Container.t :=
Container.mk (docker.Summary.ID c)
  (match docker.Summary.Names c with
   | name :: _ => strings.TrimPrefix_slash name
   | [] => EmptyString
   end)
  (docker.Summary.Image c) (docker.Summary.Status c)
  (Some (listed_ports (docker.Summary.Ports c))) None (docker.Summary.Labels c)
  (docker.Summary.Created c * 1000000000) None.

Definition List : M W (list Container.t + QueryError) :=
r <- ask ContainerList ;;
match r with
| inr cause => ret (inr (ErrContainerList cause))
| inl containers => ret (inl (listed <$> containers))
end.

(** The zero [time.Time], midnight of the first of January of the year
    one, which [time.Parse] returns with an error. *)
Definition time_zero : Time := -62135596800000000000.

(** The port map [Get] builds from the port bindings of a container. *)
Definition inspected_ports (ports : option (gmap string (list docker.PortBinding.t)))
  : gmap string string :=
match ports with
| None => ∅
| Some m =>
    foldl (fun acc kv =>
             match kv.2 with
             | binding :: _ => <[nat_Port_Port kv.1 := docker.PortBinding.HostPort binding]> acc
             | [] => acc
             end) ∅ (range m)
end.

Definition Get (containerID : string) : M W (Container.t + QueryError) :=
r <- ask (ContainerInspect containerID) ;;
match r with
| inr cause => ret (inr (ErrContainerInspect cause))
| inl inspect =>
    let name := strings.TrimPrefix_slash (docker.Inspect.Name inspect) in
    let ports := inspected_ports (docker.Inspect.NetworkSettings_Ports inspect) in
    let created :=
      match time_Parse (docker.Inspect.Created inspect) with
      | Some t => t
      | None => time_zero
      end in
    let started :=
      if bool_decide (docker.Inspect.State_StartedAt inspect = EmptyString) then None
      else time_Parse (docker.Inspect.State_StartedAt inspect) in
    ret (inl (Container.mk (docker.Inspect.ID inspect) name
                (docker.Inspect.Config_Image inspect) (docker.Inspect.State_Status inspect)
                (Some ports) (Some (parseEnvVars (docker.Inspect.Config_Env inspect)))
                (docker.Inspect.Config_Labels inspect) created started))
end.

(** The number of lines [LogsWithTail] asks the daemon for. *)
Definition maxTail : Z := 10000.

Definition clamp_tail (tail : Z) : Z :=
let tail := if tail <=? 0 then 100 else tail in
if maxTail <? tail then maxTail else tail.

Definition maxBufferSize : Z := 10 * 1024 * 1024.

(** The first [n] bytes of a string. *)
Fixpoint take_bytes (n : Z) (s : string) : string :=
match s with
| EmptyString => EmptyString
| String c r => if n <=? 0 then EmptyString else String c (take_bytes (n - 1) r)
end.

(** [io.ReadAll(io.LimitReader(reader, maxBufferSize))] on a stream with
    the bytes [content] that ends in [ending], an error that the stream
    returns from the read after its last byte: at the limit the reading
    stops without error and without that read; below it, the error of the
    stream is the error of the reading. *)
Definition read_limited (content : string) (ending : option string) : string + QueryError :=
if maxBufferSize <=? Z.of_nat (String.length content)
then inl (take_bytes maxBufferSize content)
else
  match ending with
  | Some cause => inr (ErrLogsRead cause)
  | None => inl content
  end.

Definition LogsWithTail (containerID : string) (tail : Z) : M W (string + QueryError) :=
r <- ask (ContainerLogs containerID (fmt.Sprintf_d (clamp_tail tail))) ;;
match r with
| inr cause => ret (inr (ErrContainerLogs cause))
| inl (content, ending) => ret (read_limited content ending)
end.

Definition Logs (containerID : string) : M W (string + QueryError) :=
LogsWithTail containerID 100.

End Queries.
End container.

(* ===================================================================== *)
(** ** [pkg/scheduler/scheduler.go]                                      *)
(* ===================================================================== *)

Module Deployment.
Record t := mk {
  ID : string;
  Name : string;
  Spec : DeploymentSpec.t;
  Status : string;
  Replicas : list Container.t;
  Created : Time
}.
End Deployment.

Module Service.
Record t := mk {
  ID : string;
  Name : string;
  Spec : ServiceSpec.t;
  Endpoints : list string;
  Status : string;
  Created : Time
}.
End Service.

(** The registry of [Scheduler]: its two maps, keyed by ID. The mutex is
    held for the whole of every method, so a method is one atomic step;
    the manager and the logger are outside the registry. *)
Module Scheduler.
Record t := mk {
  deployments : gmap string Deployment.t;
  services : gmap string Service.t
}.
End Scheduler.

Module scheduler.
Section Scheduler.
Context {MR : MapRange} {W : Type} {OW : Outside W}.
Local Open Scope go_scope.

Definition NewScheduler : Scheduler.t := Scheduler.mk ∅ ∅.

(** [mustParseInt]: [result] starts at zero and is what [Sscanf] leaves
    in it. *)
Definition mustParseInt (s : string) : Z := fmt.Sscanf_d s 0.

(** [generateID]. *)
Definition generateID : M W string :=
now <- ask time_Now ;; ret (fmt.Sprintf_d now).

(** The loop [for _, d := range s.deployments] that looks for a name. *)
Definition deployment_named (name : string) (s : Scheduler.t) : option (string * Deployment.t) :=
find (fun kv => bool_decide (Deployment.Name kv.2 = name)) (range (Scheduler.deployments s)).

Definition service_named (name : string) (s : Scheduler.t) : option (string * Service.t) :=
find (fun kv => bool_decide (Service.Name kv.2 = name)) (range (Scheduler.services s)).

(** [cleanupDeployment]: stop, then remove, every replica in order; the
    errors are logged and dropped, the result is always nil. *)
Fixpoint cleanup_replicas (replicas : list Container.t) : M W unit :=
match replicas with
| [] => ret tt
| c :: rest =>
    _ <- container.Stop (Container.ID c) ;;
    _ <- container.Remove (Container.ID c) ;;
    cleanup_replicas rest
end.

Definition cleanupDeployment (replicas : list Container.t) : M W (option Error) :=
_ <- cleanup_replicas replicas ;; ret None.

(** The inner loop of [CreateDeployment] over the declared ports: a new
    map that gives every container port the base host port plus [i]. *)
Definition stripe (ports : gmap string string) (i : Z) : gmap string string :=
foldl (fun acc kv => <[kv.1 := fmt.Sprintf_d (goint.add (mustParseInt kv.2) i)]> acc)
      ∅ (range ports).

(** The container spec of replica [i]: a copy of the template with its
    own name and, when the template has a port map, its own ports. *)
Definition replica_spec (spec : DeploymentSpec.t) (i : Z) : ContainerSpec.t :=
let c := DeploymentSpec.Container spec in
ContainerSpec.mk
  (fmt.Sprintf_s_dash_d (DeploymentSpec.Name spec) i)
  (ContainerSpec.Image c)
  (match ContainerSpec.Ports c with
   | Some ports => Some (stripe ports i)
   | None => None
   end)
  (ContainerSpec.Environment c) (ContainerSpec.Labels c)
  (ContainerSpec.Command c) (ContainerSpec.Args c)
  (ContainerSpec.WorkingDir c) (ContainerSpec.Volumes c).

(** The replica loop [for i := 0; i < spec.Replicas; i++], entered at
    index [i] with [fuel] iterations left and [replicas] appended so far.
    A failed [Create] or [Start] cleans up the appended replicas and
    returns. *)
Fixpoint create_replicas (spec : DeploymentSpec.t) (fuel : nat) (i : Z)
    (replicas : list Container.t) : M W (result (list Container.t)) :=
match fuel with
| O => ret (Ok replicas)
| S fuel' =>
    r <- container.Create (replica_spec spec i) ;;
    match r with
    | Err err =>
        _ <- cleanupDeployment replicas ;;
        ret (Err (ErrReplicaCreate i err))
    | Ok c =>
        e <- container.Start (Container.ID c) ;;
        match e with
        | Some err =>
            _ <- cleanupDeployment replicas ;;
            ret (Err (ErrReplicaStart i err))
        | None =>
            create_replicas spec fuel' (i + 1)
              (replicas ++ [Container.set_Status "running" c])
        end
    | Panic p => ret (Panic p)
    end
end.

(** [CreateDeployment]. The fields of the [Deployment] literal are
    evaluated in order: [generateID()], then
    [make([]*container.Container, 0, spec.Replicas)], which panics when
    the capacity is negative or more than the allocator accepts
    ([runtime.makeslice_panics]), then [time.Now()]. The loop then runs
    [spec.Replicas] times. The deferred [Unlock] is all that runs when
    the method panics. *)
Definition CreateDeployment (s : Scheduler.t) (spec : DeploymentSpec.t)
  : M W (result Deployment.t * Scheduler.t) :=
match deployment_named (DeploymentSpec.Name spec) s with
| Some _ => ret (Err (ErrDeploymentExists (DeploymentSpec.Name spec)), s)
| None =>
    id <- generateID ;;
    if runtime.makeslice_panics runtime.PtrSize (DeploymentSpec.Replicas spec)
    then ret (Panic MakesliceCapOutOfRange, s)
    else
      created <- ask time_Now ;;
      r <- create_replicas spec (Z.to_nat (DeploymentSpec.Replicas spec)) 0 [] ;;
      match r with
      | Err e => ret (Err e, s)
      | Panic p => ret (Panic p, s)
      | Ok replicas =>
          let deployment :=
            Deployment.mk id (DeploymentSpec.Name spec) spec "running" replicas created in
          ret (Ok deployment,
               Scheduler.mk (<[id := deployment]> (Scheduler.deployments s))
                            (Scheduler.services s))
      end
end.

Definition GetDeployment (s : Scheduler.t) (name : string) : result Deployment.t :=
match deployment_named name s with
| Some (_, d) => Ok d
| None => Err (ErrDeploymentNotFound name)
end.

Definition ListDeployments (s : Scheduler.t) : list Deployment.t :=
(range (Scheduler.deployments s)).*2.

(** [DeleteDeployment]. *)
Definition DeleteDeployment (s : Scheduler.t) (name : string)
  : M W (option Error * Scheduler.t) :=
match deployment_named name s with
| None => ret (Some (ErrDeploymentNotFound name), s)
| Some (deploymentID, deployment) =>
    err <- cleanupDeployment (Deployment.Replicas deployment) ;;
    match err with
    | Some e => ret (Some (ErrDeploymentCleanup e), s)
    | None =>
        ret (None, Scheduler.mk (delete deploymentID (Scheduler.deployments s))
                                (Scheduler.services s))
    end
end.

(** The first loop of [validatePortConflicts], with [usedPorts] the
    external ports seen so far. *)
Fixpoint check_own_ports (usedPorts : gset Z) (ports : list ServicePort.t) : option Error :=
match ports with
| [] => None
| port :: rest =>
    if (ServicePort.Port port <=? 0) || (65535 <? ServicePort.Port port)
    then Some (ErrPortNumber (ServicePort.Port port))
    else if (ServicePort.TargetPort port <=? 0) || (65535 <? ServicePort.TargetPort port)
    then Some (ErrTargetPortNumber (ServicePort.TargetPort port))
    else if bool_decide (ServicePort.Port port ∈ usedPorts)
    then Some (ErrPortInUseSameService (ServicePort.Port port))
    else check_own_ports ({[ServicePort.Port port]} ∪ usedPorts) rest
end.

(** Its second loop: existing services, their ports, the new ports. *)
Definition check_service_ports (s : Scheduler.t) (ports : list ServicePort.t) : option Error :=
first_error (fun kv : string * Service.t =>
  first_error (fun existingPort =>
    first_error (fun newPort =>
      if ServicePort.Port existingPort =? ServicePort.Port newPort
      then Some (ErrPortInUseByService (ServicePort.Port newPort) (Service.Name kv.2))
      else None) ports)
    (ServiceSpec.Ports (Service.Spec kv.2)))
  (range (Scheduler.services s)).

(** Its third loop: deployments whose template has a port map, their
    replicas, the replica's port pairs, the new ports. A host port that
    [strconv.Atoi] rejects is skipped. *)
Definition check_deployment_ports (s : Scheduler.t) (ports : list ServicePort.t) : option Error :=
first_error (fun kv : string * Deployment.t =>
  match ContainerSpec.Ports (DeploymentSpec.Container (Deployment.Spec kv.2)) with
  | None => None
  | Some _ =>
      first_error (fun replica =>
        first_error (fun pair : string * string =>
          match strconv.Atoi pair.2 with
          | None => None
          | Some hostPort =>
              first_error (fun newPort =>
                if hostPort =? ServicePort.Port newPort
                then Some (ErrPortInUseByDeployment (ServicePort.Port newPort)
                             (Deployment.Name kv.2) pair.1)
                else None) ports
          end) (items (Container.Ports replica)))
        (Deployment.Replicas kv.2)
  end)
  (range (Scheduler.deployments s)).

Definition validatePortConflicts (s : Scheduler.t) (ports : list ServicePort.t) : option Error :=
match check_own_ports ∅ ports with
| Some e => Some e
| None =>
    match check_service_ports s ports with
    | Some e => Some e
    | None => check_deployment_ports s ports
    end
end.

(** [CreateService]. *)
Definition CreateService (s : Scheduler.t) (spec : ServiceSpec.t)
  : M W (result Service.t * Scheduler.t) :=
match service_named (ServiceSpec.Name spec) s with
| Some _ => ret (Err (ErrServiceExists (ServiceSpec.Name spec)), s)
| None =>
    match validatePortConflicts s (ServiceSpec.Ports spec) with
    | Some e => ret (Err (ErrPortConflict e), s)
    | None =>
        id <- generateID ;;
        created <- ask time_Now ;;
        let service := Service.mk id (ServiceSpec.Name spec) spec [] "active" created in
        ret (Ok service,
             Scheduler.mk (Scheduler.deployments s)
                          (<[id := service]> (Scheduler.services s)))
    end
end.

Definition GetService (s : Scheduler.t) (name : string) : result Service.t :=
match service_named name s with
| Some (_, svc) => Ok svc
| None => Err (ErrServiceNotFound name)
end.

Definition ListServices (s : Scheduler.t) : list Service.t :=
(range (Scheduler.services s)).*2.

(** [DeleteService]: the ID found is the empty string when no service has
    the name, and also when the service found is registered under the
    empty ID. *)
Definition DeleteService (s : Scheduler.t) (name : string) : option Error * Scheduler.t :=
let serviceID :=
  match service_named name s with
  | Some (id, _) => id
  | None => EmptyString
  end in
if bool_decide (serviceID = EmptyString) then (Some (ErrServiceNotFound name), s)
else (None, Scheduler.mk (Scheduler.deployments s) (delete serviceID (Scheduler.services s))).

End Scheduler.
End scheduler.

(* ===================================================================== *)
(** ** [cmd/orchestrator/handlers.go]: the checks before the scheduler   *)
(* ===================================================================== *)

Module handlers.
Section Handlers.
Context {MR : MapRange} {W : Type} {OW : Outside W}.
Local Open Scope go_scope.

Inductive HttpStatus := StatusOK | StatusBadRequest | StatusInternalServerError.

(** The input validation of [createDeploymentHandler], on the decoded
    request body: [true] when the handler goes on to call the scheduler. *)
Definition deployment_input_ok (spec : DeploymentSpec.t) : bool :=
if bool_decide (DeploymentSpec.Name spec = EmptyString) then false
else if DeploymentSpec.Replicas spec <? 1 then false
else if 100 <? DeploymentSpec.Replicas spec then false
else if bool_decide (ContainerSpec.Name (DeploymentSpec.Container spec) = EmptyString) then false
else if bool_decide (ContainerSpec.Image (DeploymentSpec.Container spec) = EmptyString) then false
else true.

(** The status is [None] when the scheduler panics: the handler writes
    no response and the server recovers the panic. *)
Definition createDeploymentHandler (s : Scheduler.t) (spec : DeploymentSpec.t)
  : M W (option HttpStatus * option Deployment.t * Scheduler.t) :=
if deployment_input_ok spec then
  r <- scheduler.CreateDeployment s spec ;;
  match r with
  | (Ok d, s') => ret (Some StatusOK, Some d, s')
  | (Err _, s') => ret (Some StatusInternalServerError, None, s')
  | (Panic _, s') => ret (None, None, s')
  end
else ret (Some StatusBadRequest, None, s).

(** The input validation of [createServiceHandler]. *)
Definition service_input_ok (spec : ServiceSpec.t) : bool :=
if bool_decide (ServiceSpec.Name spec = EmptyString) then false
else if bool_decide (ServiceSpec.Type_ spec = EmptyString) then false
else if negb (bool_decide (ServiceSpec.Type_ spec = "ClusterIP"%string)
              || bool_decide (ServiceSpec.Type_ spec = "NodePort"%string)
              || bool_decide (ServiceSpec.Type_ spec = "LoadBalancer"%string)) then false
else if bool_decide (ServiceSpec.Ports spec = []) then false
else forallb (fun port =>
       negb ((ServicePort.Port port <? 1) || (65535 <? ServicePort.Port port))
       && negb ((ServicePort.TargetPort port <? 1) || (65535 <? ServicePort.TargetPort port)))
     (ServiceSpec.Ports spec).


End Handlers.

(** The status codes of [net/http] that the other handlers answer
    with. *)
Definition StatusNotFound_code : Z := 404.
Definition StatusBadRequest_code : Z := 400.
Definition StatusInternalServerError_code : Z := 500.

(** What a handler answers: the value it writes to the response with
    the status [200], or [http.Error] with a status code. *)
Inductive Answer (A : Type) : Type :=
| Body (a : A)
| HttpError (code : Z).
Arguments Body {A} a.
Arguments HttpError {A} code.

Section RegistryHandlers.
Context {MR : MapRange} {W : Type} {OW : Outside W}.
Local Open Scope go_scope.

Definition getDeploymentHandler (s : Scheduler.t) (name : string) : Answer Deployment.t :=
match scheduler.GetDeployment s name with
| Ok deployment => Body deployment
| _ => HttpError StatusNotFound_code
end.

(** [deleteDeploymentHandler]: the scheduler is asked twice, for the
    deployment and then to delete it. The handlers are taken one at a
    time here; the lock is released between the two calls. *)
Definition deleteDeploymentHandler (s : Scheduler.t) (name : string)
  : M W (Answer Deployment.t * Scheduler.t) :=
match scheduler.GetDeployment s name with
| Ok deployment =>
    r <- scheduler.DeleteDeployment s name ;;
    match r with
    | (Some _, s') => ret (HttpError StatusInternalServerError_code, s')
    | (None, s') => ret (Body deployment, s')
    end
| _ => ret (HttpError StatusNotFound_code, s)
end.

Definition getServiceHandler (s : Scheduler.t) (name : string) : Answer Service.t :=
match scheduler.GetService s name with
| Ok service => Body service
| _ => HttpError StatusNotFound_code
end.

Definition deleteServiceHandler (s : Scheduler.t) (name : string)
  : Answer Service.t * Scheduler.t :=
match scheduler.GetService s name with
| Ok service =>
    match scheduler.DeleteService s name with
    | (Some _, s') => (HttpError StatusInternalServerError_code, s')
    | (None, s') => (Body service, s')
    end
| _ => (HttpError StatusNotFound_code, s)
end.

(** The checks of [createContainerHandler] on one entry of [spec.Ports],
    whose key it reads as the host port and whose value as the container
    port: an empty string counts as the port [0]; [false] when one of the
    four checks answers [400]. *)
Definition port_entry_ok (hostPortStr containerPortStr : string) : bool :=
match (if bool_decide (hostPortStr = EmptyString) then Some 0 else strconv.Atoi hostPortStr) with
| None => false
| Some hostPort =>
    match (if bool_decide (containerPortStr = EmptyString) then Some 0
           else strconv.Atoi containerPortStr) with
    | None => false
    | Some containerPort =>
        if (hostPort <? 1) || (65535 <? hostPort) then false
        else if (containerPort <? 1) || (65535 <? containerPort) then false
        else true
    end
end.

Definition createContainerHandler (spec : ContainerSpec.t) : M W (Answer Container.t) :=
if bool_decide (ContainerSpec.Name spec = EmptyString)
then ret (HttpError StatusBadRequest_code)
else if bool_decide (ContainerSpec.Image spec = EmptyString)
then ret (HttpError StatusBadRequest_code)
else
  match find (fun kv => negb (port_entry_ok kv.1 kv.2)) (items (ContainerSpec.Ports spec)) with
  | Some _ => ret (HttpError StatusBadRequest_code)
  | None =>
      r <- container.Create spec ;;
      match r with
      | Ok c => ret (Body c)
      | _ => ret (HttpError StatusInternalServerError_code)
      end
  end.

End RegistryHandlers.

Section ContainerHandlers.
Context {MR : MapRange} {W : Type} {IW : Inspector W}.
Local Open Scope go_scope.

(** [resolveContainerID]. *)
Definition resolveContainerID (nameOrID : string) : M W (string + QueryError) :=
r <- container.Get nameOrID ;;
match r with
| inl c => ret (inl (Container.ID c))
| inr _ =>
    l <- container.List ;;
    match l with
    | inr err => ret (inr err)
    | inl containers =>
        match find (fun c => bool_decide (Container.Name c = nameOrID)
                             || bool_decide (Container.ID c = nameOrID)
                             || strings.HasPrefix (Container.ID c) nameOrID) containers with
        | Some c => ret (inl (Container.ID c))
        | None => ret (inr (ErrContainerUnresolved nameOrID))
        end
    end
end.

(** The [tail] that [containerLogsHandler] reads in the query string. *)
Definition tail_of_query (tailStr : string) : Z :=
if bool_decide (tailStr = EmptyString) then 100
else
  match strconv.Atoi tailStr with
  | Some parsedTail => if 0 <? parsedTail then parsedTail else 100
  | None => 100
  end.

Definition containerLogsHandler (name tailStr : string) : M W (Answer string) :=
r <- resolveContainerID name ;;
match r with
| inr _ => ret (HttpError StatusNotFound_code)
| inl containerID =>
    l <- container.LogsWithTail containerID (tail_of_query tailStr) ;;
    match l with
    | inl logs => ret (Body logs)
    | inr _ => ret (HttpError StatusInternalServerError_code)
    end
end.

End ContainerHandlers.
End handlers.

(* ===================================================================== *)
(** ** [pkg/storage/storage.go]: the deployment documents                *)
(* ===================================================================== *)

(** [path/filepath]. *)
Module filepath.

Fixpoint has_separator (s : string) : bool :=
match s with
| EmptyString => false
| String c r => (bytes.code c =? 47) || has_separator r
end.

(** [filepath.Ext]: the suffix from the last dot of the last element of
    the path, empty when that element has no dot. *)
Fixpoint Ext (path : string) : string :=
match path with
| EmptyString => EmptyString
| String c r =>
    match Ext r with
    | EmptyString =>
        if (bytes.code c =? 46) && negb (has_separator r) then path else EmptyString
    | ext => ext
    end
end.

End filepath.

(** What [encoding/json] makes of the [omitempty] option in the struct
    tags of [types.go]: an empty map or slice under that option is left
    out by [Marshal], and [Unmarshal] leaves the field it does not find at
    its zero value, nil. (The option changes nothing for the other tagged
    fields: an empty string, [false] and a nil pointer are their own zero
    values.) *)
Module omitempty.

Definition map_ (m : gomap) : gomap :=
match m with
| Some m' => if bool_decide (m' = ∅) then None else Some m'
| None => None
end.

Definition slice {A : Type} (l : option (list A)) : option (list A) :=
match l with
| Some [] => None
| _ => l
end.

Definition ContainerSpec_ (c : ContainerSpec.t) : ContainerSpec.t :=
ContainerSpec.mk (ContainerSpec.Name c) (ContainerSpec.Image c)
  (map_ (ContainerSpec.Ports c)) (map_ (ContainerSpec.Environment c))
  (map_ (ContainerSpec.Labels c))
  (slice (ContainerSpec.Command c)) (slice (ContainerSpec.Args c))
  (ContainerSpec.WorkingDir c) (slice (ContainerSpec.Volumes c)).

Definition Container_ (c : Container.t) : Container.t :=
Container.mk (Container.ID c) (Container.Name c) (Container.Image c) (Container.Status c)
  (map_ (Container.Ports c)) (map_ (Container.Environment c)) (map_ (Container.Labels c))
  (Container.Created c) (Container.Started c).

Definition DeploymentSpec_ (spec : DeploymentSpec.t) : DeploymentSpec.t :=
DeploymentSpec.mk (DeploymentSpec.Name spec) (DeploymentSpec.Replicas spec)
  (ContainerSpec_ (DeploymentSpec.Container spec)) (DeploymentSpec.Strategy spec).

(** The document read back from the encoding of [d]. *)
Definition Deployment_ (d : Deployment.t) : Deployment.t :=
Deployment.mk (Deployment.ID d) (Deployment.Name d)
  (DeploymentSpec_ (Deployment.Spec d)) (Deployment.Status d)
  (Container_ <$> Deployment.Replicas d) (Deployment.Created d).

End omitempty.

(** The strings of a document, the keys and values of its maps
    included, are valid UTF-8. *)
Module valid.

Definition map_ (m : gomap) : bool :=
match m with
| Some m' =>
    forallb (fun kv => utf8.ValidString kv.1 && utf8.ValidString kv.2) (map_to_list m')
| None => true
end.

Definition strings (l : option (list string)) : bool :=
match l with
| Some l' => forallb utf8.ValidString l'
| None => true
end.

Definition VolumeMount_ (v : VolumeMount.t) : bool :=
utf8.ValidString (VolumeMount.Source v) && utf8.ValidString (VolumeMount.Destination v).

Definition ContainerSpec_ (c : ContainerSpec.t) : bool :=
utf8.ValidString (ContainerSpec.Name c) && utf8.ValidString (ContainerSpec.Image c)
&& map_ (ContainerSpec.Ports c) && map_ (ContainerSpec.Environment c)
&& map_ (ContainerSpec.Labels c)
&& strings (ContainerSpec.Command c) && strings (ContainerSpec.Args c)
&& utf8.ValidString (ContainerSpec.WorkingDir c)
&& match ContainerSpec.Volumes c with
   | Some volumes => forallb VolumeMount_ volumes
   | None => true
   end.

Definition Container_ (c : Container.t) : bool :=
utf8.ValidString (Container.ID c) && utf8.ValidString (Container.Name c)
&& utf8.ValidString (Container.Image c) && utf8.ValidString (Container.Status c)
&& map_ (Container.Ports c) && map_ (Container.Environment c) && map_ (Container.Labels c).

Definition DeploymentSpec_ (spec : DeploymentSpec.t) : bool :=
utf8.ValidString (DeploymentSpec.Name spec)
&& ContainerSpec_ (DeploymentSpec.Container spec)
&& utf8.ValidString (DeploymentSpec.Strategy spec).

Definition Deployment_ (d : Deployment.t) : bool :=
utf8.ValidString (Deployment.ID d) && utf8.ValidString (Deployment.Name d)
&& DeploymentSpec_ (Deployment.Spec d) && utf8.ValidString (Deployment.Status d)
&& forallb Container_ (Deployment.Replicas d).

Definition ServiceSpec_ (spec : ServiceSpec.t) : bool :=
utf8.ValidString (ServiceSpec.Name spec) && utf8.ValidString (ServiceSpec.Type_ spec)
&& map_ (ServiceSpec.Selector spec).

Definition Service_ (service : Service.t) : bool :=
utf8.ValidString (Service.ID service) && utf8.ValidString (Service.Name service)
&& ServiceSpec_ (Service.Spec service)
&& forallb utf8.ValidString (Service.Endpoints service)
&& utf8.ValidString (Service.Status service).

End valid.

(** [encoding/json] on [scheduler.Deployment], with [Data] the contents
    of a file. [MarshalIndent] may fail ([None]; it does for a time whose
    year is outside [0..9999]); [Unmarshal] fails on what is not the
    encoding of a deployment. [Marshal] writes a byte of a string that is
    part of no UTF-8 encoding as the escape of U+FFFD, and [Unmarshal]
    makes valid UTF-8 of every string it reads. So decoding an encoding
    gives the document back, up to [omitempty], when the strings of the
    document are valid UTF-8, and never gives back a document with a
    string that is not. A time is the instant it denotes: what
    [time.Now] returns, without its reading of the monotonic clock, in a
    zone whose offset is a whole number of minutes. *)
Class JSON (Data : Type) := {
  json_MarshalIndent : Deployment.t -> option Data;
  json_Unmarshal : Data -> option Deployment.t;
  json_Unmarshal_Marshal : forall d data,
    valid.Deployment_ d = true ->
    json_MarshalIndent d = Some data -> json_Unmarshal data = Some (omitempty.Deployment_ d);
  json_Unmarshal_valid : forall data d,
    json_Unmarshal data = Some d -> valid.Deployment_ d = true
}.

Inductive ReadError :=
| NotExist
| ReadFailure (cause : string).

(** The file system under [io/ioutil], [os] and [path/filepath.Join];
    [FS] is its state. A file that [WriteFile] wrote without error is read
    back as written. *)
Class FileSystem (Data FS : Type) := {
  filepath_Join : list string -> string;
  (** [None]: written; [Some cause]: the error. *)
  ioutil_WriteFile : string -> Data -> FS -> option string * FS;
  ioutil_ReadFile : string -> FS -> Data + ReadError;
  (** The names of the entries of a directory, sorted, or an error. *)
  ioutil_ReadDir : string -> FS -> list string + string;
  os_Remove : string -> FS -> option ReadError * FS;
  read_after_write : forall path data fs fs',
    ioutil_WriteFile path data fs = (None, fs') -> ioutil_ReadFile path fs' = inl data
}.

(** The lines the store sends to its logger. *)
Inductive LogEntry :=
| DebugDeploymentSaved (id name file : string)
| DebugDeploymentDeleted (id file : string)
| WarnDeploymentUnreadable (file : string)
| WarnDeploymentUnparsable (file : string).

(** A warning about the file at [path]. *)
Definition warns_about (path : string) (l : LogEntry) : bool :=
match l with
| WarnDeploymentUnreadable file | WarnDeploymentUnparsable file => bool_decide (file = path)
| _ => false
end.

(** [encoding/json] on [scheduler.Service]. No field of a service or of
    its spec has the [omitempty] option: a nil map and an empty one are
    encoded differently, and decoding an encoding gives the service
    back when its strings are valid UTF-8; as for a deployment, no
    decoded service has a string that is not, and a time is the instant
    it denotes. *)
Class ServiceJSON (Data : Type) := {
  json_MarshalIndent_service : Service.t -> option Data;
  json_Unmarshal_service : Data -> option Service.t;
  json_Unmarshal_Marshal_service : forall service data,
    valid.Service_ service = true ->
    json_MarshalIndent_service service = Some data ->
    json_Unmarshal_service data = Some service;
  json_Unmarshal_service_valid : forall data service,
    json_Unmarshal_service data = Some service -> valid.Service_ service = true
}.

(** The errors of [GetStats] and of the service documents. *)
Inductive StoreError : Type :=
| ErrStatsDeployments (cause : string)
| ErrStatsServices (cause : string)
| ErrServiceSerialize
| ErrServiceWrite (cause : string)
| ErrServiceMissing (id : string)
| ErrServiceRead (cause : string)
| ErrServiceParse.

(** The fields of [Storage] that the methods read. *)
Record Storage := mkStorage { dataDir : string }.

(** The file system and the log, threaded through the store. *)
Record Disk (FS : Type) := mkDisk { fs : FS; log : list LogEntry }.
Arguments mkDisk {FS} fs log.
Arguments fs {FS} d.
Arguments log {FS} d.

Module storage.
Section Storage.
Context {Data FS : Type} {codec : JSON Data} {fsys : FileSystem Data FS}.

Definition deploymentsDir (s : Storage) : string :=
filepath_Join [dataDir s; "deployments"%string].

(** The path both [SaveDeployment] and [LoadDeployment] compute. *)
Definition deployment_file (s : Storage) (id : string) : string :=
filepath_Join [dataDir s; "deployments"%string; id +:+ ".json"].

Definition SaveDeployment (s : Storage) (deployment : Deployment.t) (disk : Disk FS)
  : option Error * Disk FS :=
match json_MarshalIndent deployment with
| None => (Some ErrDeploymentSerialize, disk)
| Some data =>
    let filePath := deployment_file s (Deployment.ID deployment) in
    match ioutil_WriteFile filePath data (fs disk) with
    | (Some cause, fs') => (Some (ErrDeploymentWrite cause), mkDisk fs' (log disk))
    | (None, fs') =>
        (None, mkDisk fs' (log disk ++ [DebugDeploymentSaved (Deployment.ID deployment)
                                          (Deployment.Name deployment) filePath]))
    end
end.

Definition LoadDeployment (s : Storage) (id : string) (disk : Disk FS) : result Deployment.t :=
match ioutil_ReadFile (deployment_file s id) (fs disk) with
| inr NotExist => Err (ErrDeploymentNotFound id)
| inr (ReadFailure cause) => Err (ErrDeploymentRead cause)
| inl data =>
    match json_Unmarshal data with
    | None => Err ErrDeploymentParse
    | Some deployment => Ok deployment
    end
end.

(** The body of the loop of [LoadAllDeployments] for one directory
    entry, with the deployments and the log so far. *)
Definition load_entry (s : Storage) (fs0 : FS) (acc : list Deployment.t * list LogEntry)
    (name : string) : list Deployment.t * list LogEntry :=
let '(deployments, lg) := acc in
if negb (bool_decide (filepath.Ext name = ".json"%string)) then acc
else
  let filePath := filepath_Join [deploymentsDir s; name] in
  match ioutil_ReadFile filePath fs0 with
  | inr _ => (deployments, lg ++ [WarnDeploymentUnreadable filePath])
  | inl data =>
      match json_Unmarshal data with
      | None => (deployments, lg ++ [WarnDeploymentUnparsable filePath])
      | Some deployment => (deployments ++ [deployment], lg)
      end
  end.

Definition LoadAllDeployments (s : Storage) (disk : Disk FS)
  : result (list Deployment.t) * Disk FS :=
match ioutil_ReadDir (deploymentsDir s) (fs disk) with
| inr cause => (Err (ErrDeploymentsDir cause), disk)
| inl files =>
    let '(deployments, lg) := foldl (load_entry s (fs disk)) ([], log disk) files in
    (Ok deployments, mkDisk (fs disk) lg)
end.

Definition DeleteDeployment (s : Storage) (id : string) (disk : Disk FS)
  : option Error * Disk FS :=
let filePath := deployment_file s id in
match os_Remove filePath (fs disk) with
| (Some NotExist, fs') => (Some (ErrDeploymentNotFound id), mkDisk fs' (log disk))
| (Some (ReadFailure cause), fs') => (Some (ErrDeploymentRemove cause), mkDisk fs' (log disk))
| (None, fs') => (None, mkDisk fs' (log disk ++ [DebugDeploymentDeleted id filePath]))
end.

(** A well-formed deployment file of the store: named [*.json],
    readable, and the encoding of a deployment, [d]. *)
Definition well_formed (s : Storage) (fs0 : FS) (name : string) (d : Deployment.t) : Prop :=
filepath.Ext name = ".json"%string /\
exists data, ioutil_ReadFile (filepath_Join [deploymentsDir s; name]) fs0 = inl data /\
             json_Unmarshal data = Some d.

(** A corrupt one: named [*.json], and unreadable or not the encoding
    of a deployment. *)
Definition corrupt (s : Storage) (fs0 : FS) (name : string) : Prop :=
filepath.Ext name = ".json"%string /\
((exists e, ioutil_ReadFile (filepath_Join [deploymentsDir s; name]) fs0 = inr e) \/
 (exists data, ioutil_ReadFile (filepath_Join [deploymentsDir s; name]) fs0 = inl data /\
               json_Unmarshal data = None)).

End Storage.

Section Statistics.
Context {Data FS : Type} {fsys : FileSystem Data FS}.

Definition servicesDir (s : Storage) : string :=
filepath_Join [dataDir s; "services"%string].

(** The loops of [GetStats]: the number of entries named [*.json]. *)
Definition count_json (files : list string) : Z :=
Z.of_nat (length (filter (fun name => filepath.Ext name = ".json"%string) files)).

(** [GetStats]: the counts under the keys [deployments] and
    [services]. *)
Definition GetStats (s : Storage) (disk : Disk FS) : gmap string Z + StoreError :=
match ioutil_ReadDir (deploymentsDir s) (fs disk) with
| inr cause => inr (ErrStatsDeployments cause)
| inl deploymentFiles =>
    match ioutil_ReadDir (servicesDir s) (fs disk) with
    | inr cause => inr (ErrStatsServices cause)
    | inl serviceFiles =>
        inl (<["services"%string := count_json serviceFiles]>
               (<["deployments"%string := count_json deploymentFiles]> ∅))
    end
end.

End Statistics.

Section Services.
Context {Data FS : Type} {codec : ServiceJSON Data} {fsys : FileSystem Data FS}.

Definition service_file (s : Storage) (id : string) : string :=
filepath_Join [dataDir s; "services"%string; id +:+ ".json"].

(** [SaveService] and [LoadService]; the line [SaveService] sends to the
    logger is left out. *)
Definition SaveService (s : Storage) (service : Service.t) (fs0 : FS)
  : option StoreError * FS :=
match json_MarshalIndent_service service with
| None => (Some ErrServiceSerialize, fs0)
| Some data =>
    match ioutil_WriteFile (service_file s (Service.ID service)) data fs0 with
    | (Some cause, fs') => (Some (ErrServiceWrite cause), fs')
    | (None, fs') => (None, fs')
    end
end.

Definition LoadService (s : Storage) (id : string) (fs0 : FS) : Service.t + StoreError :=
match ioutil_ReadFile (service_file s id) fs0 with
| inr NotExist => inr (ErrServiceMissing id)
| inr (ReadFailure cause) => inr (ErrServiceRead cause)
| inl data =>
    match json_Unmarshal_service data with
    | None => inr ErrServiceParse
    | Some service => inl service
    end
end.

End Services.
End storage.

(** No map or slice under [omitempty] is empty without being nil. *)
Definition no_empty_omitempty (d : Deployment.t) : Prop :=
let c := DeploymentSpec.Container (Deployment.Spec d) in
ContainerSpec.Ports c <> Some ∅ /\ ContainerSpec.Environment c <> Some ∅ /\
ContainerSpec.Labels c <> Some ∅ /\
ContainerSpec.Command c <> Some [] /\ ContainerSpec.Args c <> Some [] /\
ContainerSpec.Volumes c <> Some [] /\
Forall (fun r => Container.Ports r <> Some ∅ /\ Container.Environment r <> Some ∅ /\
                 Container.Labels r <> Some ∅) (Deployment.Replicas d).

(* ===================================================================== *)
(** ** Reading a trace                                                   *)
(* ===================================================================== *)

(** The calls a run made: what [h'] has after the trace of [h]. *)
Definition new_events {W} (h h' : Host W) : list Event :=
drop (length (trace h)) (trace h').

Definition is_create_or_start (c : Call) : bool :=
match c with
| CallCreate _ | CallStart _ => true
| _ => false
end.

(** Stop and remove, in that order, for each container of a list. *)
Definition stop_remove_calls (replicas : list Container.t) : list Call :=
flat_map (fun c => [CallStop (Container.ID c); CallRemove (Container.ID c)]) replicas.


(** What [CreateDeployment] makes of replica [i]: the handle of a
    container created from [replica_spec spec i] and marked running. *)
Definition is_replica `{MapRange} (spec : DeploymentSpec.t) (i : Z) (c : Container.t) : Prop :=
Container.Name c = fmt.Sprintf_s_dash_d (DeploymentSpec.Name spec) i /\
Container.Image c = ContainerSpec.Image (DeploymentSpec.Container spec) /\
Container.Status c = "running"%string /\
Container.Ports c = ContainerSpec.Ports (scheduler.replica_spec spec i).

(** The containers [cs] are the replicas [i], [i+1], ... in order. *)
Fixpoint replicas_from `{MapRange} (spec : DeploymentSpec.t) (i : Z) (cs : list Container.t) : Prop :=
match cs with
| [] => True
| c :: rest => is_replica spec i c /\ replicas_from spec (i + 1) rest
end.

(** The calls of the loop iterations that produced [cs], all successful:
    for each replica, its [Create] and the [Start] of what was created. *)
Fixpoint startup_events `{MapRange} (spec : DeploymentSpec.t) (i : Z) (cs : list Container.t)
  : list Event :=
match cs with
| [] => []
| c :: rest =>
    mkEvent (CallCreate (scheduler.replica_spec spec i)) None
    :: mkEvent (CallStart (Container.ID c)) None
    :: startup_events spec (i + 1) rest
end.

(** The calls of the iteration that failed at replica [k], and the error
    [CreateDeployment] returns for it: a failed [Create], or a [Create]
    that succeeded and a failed [Start] of its container. *)
Definition failed_at `{MapRange} (spec : DeploymentSpec.t) (k : Z) (e : Error)
  (failure : list Event) : Prop :=
(exists err, e = ErrReplicaCreate k err /\
   failure = [mkEvent (CallCreate (scheduler.replica_spec spec k)) (Some err)]) \/
(exists err id, e = ErrReplicaStart k err /\
   failure = [mkEvent (CallCreate (scheduler.replica_spec spec k)) None;
              mkEvent (CallStart id) (Some err)]).

(** A failed [Create] or [Start]. *)
Definition failed_create_or_start (ev : Event) : bool :=
is_create_or_start (ev_call ev) && bool_decide (is_Some (ev_err ev)).

(** Every [Create] and every [Start] among the calls succeeded. *)
Definition create_start_ok (evs : list Event) : bool :=
forallb (fun ev => negb (failed_create_or_start ev)) evs.

(** The number a sequence of decimal digits denotes, most significant
    digit first, continuing from [acc]. *)
Fixpoint uint_value (acc : Z) (d : Decimal.uint) : Z :=
match d with
| Decimal.Nil => acc
| Decimal.D0 l => uint_value (acc * 10 + 0) l
| Decimal.D1 l => uint_value (acc * 10 + 1) l
| Decimal.D2 l => uint_value (acc * 10 + 2) l
| Decimal.D3 l => uint_value (acc * 10 + 3) l
| Decimal.D4 l => uint_value (acc * 10 + 4) l
| Decimal.D5 l => uint_value (acc * 10 + 5) l
| Decimal.D6 l => uint_value (acc * 10 + 6) l
| Decimal.D7 l => uint_value (acc * 10 + 7) l
| Decimal.D8 l => uint_value (acc * 10 + 8) l
| Decimal.D9 l => uint_value (acc * 10 + 9) l
end.




(* ===================================================================== *)
(** ** The checks of [CreateService], as the design document lists them  *)
(* ===================================================================== *)

(** The registries the scheduler builds: the replicas of every registered
    deployment are the ones [CreateDeployment] made from its spec. *)
Definition registry_ok `{MapRange} (s : Scheduler.t) : Prop :=
forall id d, Scheduler.deployments s !! id = Some d ->
  replicas_from (Deployment.Spec d) 0 (Deployment.Replicas d).

(** The five precondition checks of section 4.4. *)
Inductive Check :=
  CheckName | CheckFields | CheckSelfConflict | CheckServices | CheckDeployments.

(** The check an error of [CreateService] comes from. *)
Definition check_of_error (e : Error) : option Check :=
match e with
| ErrServiceExists _ => Some CheckName
| ErrPortConflict (ErrPortNumber _) => Some CheckFields
| ErrPortConflict (ErrTargetPortNumber _) => Some CheckFields
| ErrPortConflict (ErrPortInUseSameService _) => Some CheckSelfConflict
| ErrPortConflict (ErrPortInUseByService _ _) => Some CheckServices
| ErrPortConflict (ErrPortInUseByDeployment _ _ _) => Some CheckDeployments
| _ => None
end.

Inductive Outcome :=
| Accepted
| Rejected (check : Check) (kind : ErrorKind)
| OtherError.

Definition outcome_of {A : Type} (r : result A) : Outcome :=
match r with
| Ok _ => Accepted
| Err e =>
    match check_of_error e with
    | Some c => Rejected c (kind_of e)
    | None => OtherError
    end
| Panic _ => OtherError
end.



Definition port_in_range (p : Z) : bool := (1 <=? p) && (p <=? 65535).

Definition mapping_in_range (port : ServicePort.t) : bool :=
port_in_range (ServicePort.Port port) && port_in_range (ServicePort.TargetPort port).



(** An external port of the spec is an external port of a registered
    service. *)
Definition service_conflict (s : Scheduler.t) (ports : list ServicePort.t) : bool :=
existsb (fun kv : string * Service.t =>
  existsb (fun existingPort =>
    existsb (fun newPort => ServicePort.Port existingPort =? ServicePort.Port newPort) ports)
    (ServiceSpec.Ports (Service.Spec kv.2)))
  (map_to_list (Scheduler.services s)).

(** The host ports a container binds: the values of its port map that
    [strconv.Atoi] reads as integers, with their container ports. *)
Definition bound_host_ports (c : Container.t) : list (string * Z) :=
omap (fun pair : string * string => (fun n => (pair.1, n)) <$> strconv.Atoi pair.2)
     (match Container.Ports c with
      | Some ports => map_to_list ports
      | None => []
      end).



(** What the code does with the port mappings, one at a time and in
    order: the ranges of the external and the target port, then whether
    the external port was met in an earlier mapping. *)
Fixpoint first_mapping_failure (seen : list Z) (ports : list ServicePort.t) : option Check :=
match ports with
| [] => None
| port :: rest =>
    if negb (mapping_in_range port) then Some CheckFields
    else if bool_decide (ServicePort.Port port ∈ seen) then Some CheckSelfConflict
    else first_mapping_failure (ServicePort.Port port :: seen) rest
end.


(* ===================================================================== *)
(** ** What holds of every registry the scheduler builds                 *)
(* ===================================================================== *)

(** No two registered deployments have the same name, and no two
    registered services. *)
Definition names_unique (s : Scheduler.t) : Prop :=
(forall id1 id2 d1 d2,
   Scheduler.deployments s !! id1 = Some d1 -> Scheduler.deployments s !! id2 = Some d2 ->
   Deployment.Name d1 = Deployment.Name d2 -> id1 = id2) /\
(forall id1 id2 svc1 svc2,
   Scheduler.services s !! id1 = Some svc1 -> Scheduler.services s !! id2 = Some svc2 ->
   Service.Name svc1 = Service.Name svc2 -> id1 = id2).

(** Every deployment and every service is registered under the ID it
    carries, which is not the empty string, and carries the name of its
    spec. *)
Definition labels_ok (s : Scheduler.t) : Prop :=
(forall id d, Scheduler.deployments s !! id = Some d ->
   Deployment.ID d = id /\ id <> EmptyString /\
   Deployment.Name d = DeploymentSpec.Name (Deployment.Spec d)) /\
(forall id svc, Scheduler.services s !! id = Some svc ->
   Service.ID svc = id /\ id <> EmptyString /\
   Service.Name svc = ServiceSpec.Name (Service.Spec svc)).

(** The external ports of the registered services: each mapping is in
    range, no service has the same external port twice, and no two
    services have an external port in common. *)
Definition service_ports_disjoint (s : Scheduler.t) : Prop :=
(forall id svc, Scheduler.services s !! id = Some svc ->
   Forall (fun port => mapping_in_range port = true) (ServiceSpec.Ports (Service.Spec svc)) /\
   NoDup (ServicePort.Port <$> ServiceSpec.Ports (Service.Spec svc))) /\
(forall id1 id2 svc1 svc2 port1 port2,
   Scheduler.services s !! id1 = Some svc1 -> Scheduler.services s !! id2 = Some svc2 ->
   id1 <> id2 ->
   port1 ∈ ServiceSpec.Ports (Service.Spec svc1) ->
   port2 ∈ ServiceSpec.Ports (Service.Spec svc2) ->
   ServicePort.Port port1 <> ServicePort.Port port2).

(** The calls of a run are all [Create] and [Start] calls. *)
Definition only_create_start (evs : list Event) : bool :=
forallb (fun ev => is_create_or_start (ev_call ev)) evs.

(* ===================================================================== *)
(** ** A concrete outside world, for the examples                        *)
(* ===================================================================== *)

(** Maps ranged over in the order [map_to_list] lists them. *)
Definition range_to_list : MapRange :=
{| range := fun A m => map_to_list m;
   range_perm := fun A m => reflexivity (map_to_list m) |}.

(** A daemon that counts the containers it has created and names them
    after the count; it refuses the creation numbered [refuse] and the
    start of the container [c<stubborn>], and accepts everything else.
    Its clock shows the count. *)
Definition counting_daemon (refuse stubborn : nat) : Outside nat :=
{| ContainerCreate := fun _ n =>
     if Nat.eqb n refuse then (inr "no space left on device"%string, n)
     else (inl ("c" +:+ strconv.Itoa (Z.of_nat n)), S n);
   ContainerStart := fun id n =>
     if bool_decide (id = "c" +:+ strconv.Itoa (Z.of_nat stubborn))
     then (Some "port is already allocated"%string, n)
     else (None, n);
   ContainerStop := fun _ n => (None, n);
   ContainerRemove := fun _ n => (None, n);
   time_Now := fun n => (1700000000000000000 + Z.of_nat n, n);
   nat_NewPort := fun _ _ => true |}.

Definition web_spec (replicas : Z) (basePort : string) : DeploymentSpec.t :=
DeploymentSpec.mk "web" replicas
  (ContainerSpec.mk "web" "nginx" (Some {[ "80/tcp"%string := basePort ]})
     None None None None EmptyString None)
  EmptyString.

Definition fresh_host : Host nat := mkHost 0%nat [].

(** A daemon that creates and starts like [counting_daemon] and fails
    every stop and every remove. *)
Definition unstoppable_daemon : Outside nat :=
{| ContainerCreate := fun _ n => (inl ("c" +:+ strconv.Itoa (Z.of_nat n)), S n);
   ContainerStart := fun _ n => (None, n);
   ContainerStop := fun _ n => (Some "cannot stop container"%string, n);
   ContainerRemove := fun _ n => (Some "removal in progress"%string, n);
   time_Now := fun n => (1700000000000000000 + Z.of_nat n, n);
   nat_NewPort := fun _ _ => true |}.

(** The scenario of the design document: three replicas of [web] from
    the base port 9000, on an empty registry. *)
Definition web_run : result Deployment.t * Scheduler.t * Host nat :=
scheduler.CreateDeployment (MR := range_to_list) (OW := counting_daemon 99 99)
  scheduler.NewScheduler (web_spec 3 "9000") fresh_host.

(** Name and host port of the container port [80/tcp] of each replica. *)
Definition names_and_ports (r : result Deployment.t) : list (string * option string) :=
match r with
| Ok d =>
    (fun c => (Container.Name c,
               match Container.Ports c with
               | Some ports => ports !! "80/tcp"%string
               | None => None
               end)) <$> Deployment.Replicas d
| _ => []
end.



Definition service_result (s : Scheduler.t) (spec : ServiceSpec.t) : result Service.t :=
(scheduler.CreateService (MR := range_to_list) (OW := counting_daemon 99 99)
   s spec fresh_host).1.1.

(** The registry after the [web] scenario. *)
Definition web_registry : Scheduler.t := web_run.1.2.

(** The same request when the daemon refuses the second creation. *)
Definition web_failed_run : result Deployment.t * Scheduler.t * Host nat :=
scheduler.CreateDeployment (MR := range_to_list) (OW := counting_daemon 1 99)
  scheduler.NewScheduler (web_spec 3 "9000") fresh_host.


(** Deleting [web] from the registry of the scenario while every stop and
    remove fails. *)
Definition web_delete_run : option Error * Scheduler.t * Host nat :=
scheduler.DeleteDeployment (MR := range_to_list) (OW := unstoppable_daemon)
  web_registry "web" fresh_host.

(** A service on port 9001, which replica [web-1] binds. *)
Definition metrics_spec : ServiceSpec.t :=
ServiceSpec.mk "metrics" "NodePort" None [ServicePort.mk 9001 9100].

(** A registry that no method of the scheduler builds: the replica of
    [web] binds the host port [http], which is no number, for the
    container port [80/tcp], and [9001] for [443/tcp]. *)
Definition named_port_replica : Container.t :=
Container.mk "c0" "web-0" "nginx" "running"
  (Some (<["80/tcp"%string := "http"%string]> {[ "443/tcp"%string := "9001"%string ]}))
  None None 1700000000000000000 None.

Definition named_port_registry : Scheduler.t :=
Scheduler.mk
  {[ "1700000000000000000"%string :=
       Deployment.mk "1700000000000000000" "web" (web_spec 1 "http") "running"
         [named_port_replica] 1700000000000000000 ]}
  ∅.

(** A service on port 8080. *)
Definition front_spec : ServiceSpec.t :=
ServiceSpec.mk "front" "NodePort" None [ServicePort.mk 8080 80].


(* ===================================================================== *)
(** ** A concrete codec and file system, for the examples                *)
(* ===================================================================== *)

(** U+FFFD in UTF-8: the bytes [xEF xBF xBD]. *)
Definition RuneError_bytes : string :=
String "239" (String "191" (String "189" EmptyString)).

(** What the encoder makes of a string: every byte that is part of no
    UTF-8 encoding becomes U+FFFD. The first [pending] bytes belong to an
    encoding that began before them. *)
Fixpoint coerce_bytes (pending : nat) (s : string) : string :=
match s with
| EmptyString => EmptyString
| String c r =>
    match pending with
    | S n => String c (coerce_bytes n r)
    | O =>
        match utf8.after_rune s with
        | Some rest => String c (coerce_bytes (String.length r - String.length rest) r)
        | None => RuneError_bytes +:+ coerce_bytes 0 r
        end
    end
end.

Module coerced.

Definition string_ (s : string) : string := coerce_bytes 0 s.

(** Of two entries whose keys become equal one is kept. *)
Definition map_ (m : gomap) : gomap :=
(fun m' : gmap string string =>
   list_to_map ((fun kv => (string_ kv.1, string_ kv.2)) <$> map_to_list m')) <$> m.

Definition ContainerSpec_ (c : ContainerSpec.t) : ContainerSpec.t :=
ContainerSpec.mk (string_ (ContainerSpec.Name c)) (string_ (ContainerSpec.Image c))
  (map_ (ContainerSpec.Ports c)) (map_ (ContainerSpec.Environment c))
  (map_ (ContainerSpec.Labels c))
  (List.map string_ <$> ContainerSpec.Command c) (List.map string_ <$> ContainerSpec.Args c)
  (string_ (ContainerSpec.WorkingDir c))
  (List.map (fun v => VolumeMount.mk (string_ (VolumeMount.Source v))
                        (string_ (VolumeMount.Destination v)) (VolumeMount.ReadOnly v))
     <$> ContainerSpec.Volumes c).

Definition Container_ (c : Container.t) : Container.t :=
Container.mk (string_ (Container.ID c)) (string_ (Container.Name c))
  (string_ (Container.Image c)) (string_ (Container.Status c))
  (map_ (Container.Ports c)) (map_ (Container.Environment c)) (map_ (Container.Labels c))
  (Container.Created c) (Container.Started c).

(** A document whose strings are valid is encoded as it is. *)
Definition Deployment_ (d : Deployment.t) : Deployment.t :=
if valid.Deployment_ d then d
else
  let spec := Deployment.Spec d in
  Deployment.mk (string_ (Deployment.ID d)) (string_ (Deployment.Name d))
    (DeploymentSpec.mk (string_ (DeploymentSpec.Name spec)) (DeploymentSpec.Replicas spec)
       (ContainerSpec_ (DeploymentSpec.Container spec))
       (string_ (DeploymentSpec.Strategy spec)))
    (string_ (Deployment.Status d))
    (Container_ <$> Deployment.Replicas d) (Deployment.Created d).

Definition Service_ (service : Service.t) : Service.t :=
if valid.Service_ service then service
else
  let spec := Service.Spec service in
  Service.mk (string_ (Service.ID service)) (string_ (Service.Name service))
    (ServiceSpec.mk (string_ (ServiceSpec.Name spec)) (string_ (ServiceSpec.Type_ spec))
       (map_ (ServiceSpec.Selector spec)) (ServiceSpec.Ports spec))
    (string_ <$> Service.Endpoints service) (string_ (Service.Status service))
    (Service.Created service).

End coerced.

(** File contents are the document they decode to, or nothing when
    they are the encoding of no document: the encoder leaves out what is
    under [omitempty] and replaces the bytes that are not UTF-8. *)
Definition example_json : JSON (option Deployment.t).
Proof.
  refine {| json_MarshalIndent := fun d =>
              Some (Some (omitempty.Deployment_ (coerced.Deployment_ d)));
            json_Unmarshal := fun data =>
              match data with
              | Some d => if valid.Deployment_ d then Some d else None
              | None => None
              end |}.
  - intros d data Hd [= <-]. unfold coerced.Deployment_. rewrite Hd.
    assert (Hmap : forall m, valid.map_ m = true -> valid.map_ (omitempty.map_ m) = true).
    { intros [m|]; [|done]. cbn. by case_bool_decide. }
    assert (Hstr : forall l, valid.strings l = true -> valid.strings (omitempty.slice l) = true).
    { by intros [[|]|]. }
    assert (Hrep : forall c, valid.Container_ c = true ->
                             valid.Container_ (omitempty.Container_ c) = true).
    { intros c. unfold valid.Container_. cbn. rewrite !andb_true_iff.
      intros [[[[[[? ?] ?] ?] ?] ?] ?]. repeat split; auto. }
    assert (Hv : valid.Deployment_ (omitempty.Deployment_ d) = true); [|by rewrite Hv].
    revert Hd. unfold valid.Deployment_, valid.DeploymentSpec_, valid.ContainerSpec_. cbn.
    rewrite !andb_true_iff. intros [[[[? ?] [[? Hc] ?]] ?] Hr].
    destruct Hc as [[[[[[[[? ?] ?] ?] ?] ?] ?] ?] Hvol].
    repeat split; auto.
    + by destruct (ContainerSpec.Volumes _) as [[|]|].
    + rewrite forallb_forall in Hr. apply forallb_forall.
      intros c (c0 & <- & Hin)%in_map_iff. apply Hrep, Hr, Hin.
  - intros [d0|] d; [|done]. destruct (valid.Deployment_ d0) eqn:E; [|done].
    by intros [= <-].
Defined.

Fixpoint strip_prefix (prefix s : string) : option string :=
match prefix, s with
| EmptyString, _ => Some s
| String a p, String b r => if Ascii.eqb a b then strip_prefix p r else None
| String _ _, EmptyString => None
end.

(** Files in memory: paths with their contents, [None] for a file that
    cannot be read. *)
Definition example_fs : FileSystem (option Deployment.t) (list (string * option (option Deployment.t))).
Proof.
  refine {|
    filepath_Join := String.concat "/";
    ioutil_WriteFile := fun path data fs0 =>
      (None, (path, Some data) :: filter (fun kv => kv.1 <> path) fs0);
    ioutil_ReadFile := fun path fs0 =>
      match find (fun kv => String.eqb kv.1 path) fs0 with
      | Some (_, Some data) => inl data
      | Some (_, None) => inr (ReadFailure "permission denied")
      | None => inr NotExist
      end;
    ioutil_ReadDir := fun dir fs0 =>
      inl (omap (fun kv => strip_prefix (dir +:+ "/") kv.1) fs0);
    os_Remove := fun path fs0 =>
      if existsb (fun kv => String.eqb kv.1 path) fs0
      then (None, filter (fun kv => kv.1 <> path) fs0)
      else (Some NotExist, fs0) |}.
  intros path data fs0 fs' [= <-]. simpl. by rewrite String.eqb_refl.
Defined.

Definition example_storage : Storage := mkStorage "/var/lib/orca".

(** The deployment [CreateDeployment] returns for one replica of a
    template whose port map is present and empty, as the request
    [{"name":"web","replicas":1,"container":{"name":"web","image":"nginx","ports":{}}}]
    decodes. *)
Definition empty_ports_deployment : result Deployment.t :=
(scheduler.CreateDeployment (MR := range_to_list) (OW := counting_daemon 99 99)
   scheduler.NewScheduler
   (DeploymentSpec.mk "web" 1
      (ContainerSpec.mk "web" "nginx" (Some ∅) None None None None EmptyString None) EmptyString)
   fresh_host).1.1.

(** Saving a deployment on an empty disk, then loading its ID. *)
Definition save_then_load (d : Deployment.t) : option (result Deployment.t) :=
match storage.SaveDeployment (codec := example_json) (fsys := example_fs)
        example_storage d (mkDisk [] []) with
| (None, disk') =>
    Some (storage.LoadDeployment (codec := example_json) (fsys := example_fs)
            example_storage (Deployment.ID d) disk')
| (Some _, _) => None
end.

(** A deployment whose name ends in the byte [xFF], which is part of
    no UTF-8 encoding. *)
Definition latin1_name : string := "web" +:+ String "255" EmptyString.

Definition latin1_deployment : Deployment.t :=
Deployment.mk "1700000000000000000" latin1_name (web_spec 1 "9000") "running" []
  1700000000000000000.

(** A deployments directory with two good files around one that cannot
    be read. *)
Definition sample_deployment (id name : string) : Deployment.t :=
Deployment.mk id name (web_spec 1 "9000") "running" [] 1700000000000000000.

Definition sample_disk : Disk (list (string * option (option Deployment.t))) :=
mkDisk
  [("/var/lib/orca/deployments/1.json"%string, Some (Some (sample_deployment "1" "web")));
   ("/var/lib/orca/deployments/2.json"%string, None);
   ("/var/lib/orca/deployments/3.json"%string, Some (Some (sample_deployment "3" "db")))]
  [].

(* ===================================================================== *)
(** ** Tactics for the examples                                          *)
(* ===================================================================== *)

(** No deployment is registered in the empty registry. *)
Ltac empty_registry := intros ? ?; cbn; rewrite lookup_empty; discriminate.

(** A closed equation that holds by running both sides. *)
Ltac by_running := vm_compute; reflexivity.

(* ===================================================================== *)
(** ** More concrete worlds, for the examples                            *)
(* ===================================================================== *)

(** A second deployment, asked for while the clock of the daemon shows
    what it showed when [web] was created. *)
Definition db_spec : DeploymentSpec.t :=
DeploymentSpec.mk "db" 1
  (ContainerSpec.mk "db" "postgres" (Some {[ "5432"%string := "5432"%string ]})
     None None None None EmptyString None)
  EmptyString.

Definition db_run : result Deployment.t * Scheduler.t * Host nat :=
scheduler.CreateDeployment (MR := range_to_list) (OW := counting_daemon 99 99)
  web_registry db_spec fresh_host.

(** Two replicas of a template with two container ports on the
    neighbouring base ports 9000 and 9001. *)
Definition two_port_ports : gmap string string :=
{[ "80"%string := "9000"%string; "443"%string := "9001"%string ]}.

Definition two_port_spec : DeploymentSpec.t :=
DeploymentSpec.mk "web" 2
  (ContainerSpec.mk "web" "nginx" (Some two_port_ports) None None None None EmptyString None)
  EmptyString.

(** The service [metrics] created in the empty registry. *)
Definition metrics_run : result Service.t * Scheduler.t * Host nat :=
scheduler.CreateService (MR := range_to_list) (OW := counting_daemon 99 99)
  scheduler.NewScheduler metrics_spec fresh_host.

Definition metrics_registry : Scheduler.t := metrics_run.1.2.

(** The same service asked for through the handler's type check, in the
    registry of the [web] scenario. *)
Definition metrics_conflict_run : result Service.t * Scheduler.t * Host nat :=
scheduler.CreateService (MR := range_to_list) (OW := counting_daemon 99 99)
  web_registry metrics_spec fresh_host.

(** A daemon like [counting_daemon] behind a [nat.NewPort] that accepts
    decimal port numbers only. *)
Definition strict_daemon : Outside nat :=
{| ContainerCreate := fun _ n => (inl ("c" +:+ strconv.Itoa (Z.of_nat n)), S n);
   ContainerStart := fun _ n => (None, n);
   ContainerStop := fun _ n => (None, n);
   ContainerRemove := fun _ n => (None, n);
   time_Now := fun n => (1700000000000000000 + Z.of_nat n, n);
   nat_NewPort := fun _ port => bytes.all_digits port |}.

Definition named_port_spec : ContainerSpec.t :=
ContainerSpec.mk "web" "nginx" (Some {[ "http"%string := "8080"%string ]})
  None None None None EmptyString None.

(** A daemon that knows two containers, and inspects by full ID only. *)
Definition known_containers : list docker.Summary.t :=
[ docker.Summary.mk "ab12cd" ["/db-0"%string] "postgres" "Up 2 hours"
    [docker.Port.mk 5432 5432] None 1700000000;
  docker.Summary.mk "ef34ab" ["/ab12"%string] "nginx" "Up 1 hour"
    [docker.Port.mk 53 0; docker.Port.mk 53 5300; docker.Port.mk 53 5301] None 1700003600 ].

Definition listing_daemon : Inspector unit :=
{| ContainerList := fun w => (inl known_containers, w);
   ContainerInspect := fun id w => (inr ("No such container: " +:+ id), w);
   ContainerLogs := fun _ tail w => (inl ("the last " +:+ tail +:+ " lines", None), w);
   time_Parse := fun _ => None;
   nat_Port_Port := fun port => port |}.

Definition quiet_host : Host unit := mkHost tt [].

(** A codec for services whose encoding is the service it decodes to,
    and files in memory that hold such encodings. *)
Definition example_service_json : ServiceJSON Service.t.
Proof.
  refine {| json_MarshalIndent_service := fun service => Some (coerced.Service_ service);
            json_Unmarshal_service := fun data =>
              if valid.Service_ data then Some data else None |}.
  - intros service data Hv [= <-]. unfold coerced.Service_. by rewrite !Hv.
  - intros data service. destruct (valid.Service_ data) eqn:E; [|done]. by intros [= <-].
Defined.

Definition example_service_fs : FileSystem Service.t (list (string * Service.t)).
Proof.
  refine {|
    filepath_Join := String.concat "/";
    ioutil_WriteFile := fun path data fs0 =>
      (None, (path, data) :: filter (fun kv => kv.1 <> path) fs0);
    ioutil_ReadFile := fun path fs0 =>
      match find (fun kv => String.eqb kv.1 path) fs0 with
      | Some (_, data) => inl data
      | None => inr NotExist
      end;
    ioutil_ReadDir := fun dir fs0 =>
      inl (omap (fun kv => strip_prefix (dir +:+ "/") kv.1) fs0);
    os_Remove := fun path fs0 =>
      if existsb (fun kv => String.eqb kv.1 path) fs0
      then (None, filter (fun kv => kv.1 <> path) fs0)
      else (Some NotExist, fs0) |}.
  intros path data fs0 fs' [= <-]. simpl. by rewrite String.eqb_refl.
Defined.

Definition metrics_service : Service.t :=
Service.mk "1700000000000000000" "metrics" metrics_spec [] "active" 1700000000000000000.

(* ===================================================================== *)
(** * Properties                                                         *)
(* ===================================================================== *)

Section SchedulerFacts.
Context {MR : MapRange} {W : Type} {OW : Outside W}.
Local Open Scope go_scope.

Lemma new_events_app (h h' : Host W) (evs : list Event) :
  trace h' = trace h ++ evs -> new_events h h' = evs.
Proof.
  intros E. unfold new_events. rewrite E. by rewrite drop_app_length.
Qed.

(** *** The container manager *)

Lemma Create_run (spec : ContainerSpec.t) (h h' : Host W) (r : result Container.t) :
  container.Create spec h = (r, h') ->
  exists e, trace h' = trace h ++ [mkEvent (CallCreate spec) e] /\
    match r with
    | Ok c =>
        e = None /\
        Container.Name c = ContainerSpec.Name spec /\
        Container.Image c = ContainerSpec.Image spec /\
        Container.Status c = "created"%string /\
        Container.Ports c = ContainerSpec.Ports spec
    | Err err => e = Some err
    | Panic _ => False
    end.
Proof.
  unfold container.Create, bind, ret, ask, record.
  destruct (find _ _) as [[cp hp]|].
  - intros [= <- <-]. simpl. eauto.
  - destruct (ContainerCreate spec (world h)) as [[id|msg] w1]; simpl.
    + destruct (time_Now w1) as [now w2]. simpl.
      intros [= <- <-]. simpl. eexists. split; [reflexivity|]. auto.
    + intros [= <- <-]. simpl. eauto.
Qed.

Lemma Start_run (id : string) (h h' : Host W) (e : option Error) :
  container.Start id h = (e, h') ->
  trace h' = trace h ++ [mkEvent (CallStart id) e].
Proof.
  unfold container.Start, bind, ret, ask, record.
  destruct (ContainerStart id (world h)) as [r w1]. simpl.
  by intros [= <- <-].
Qed.

Lemma Stop_run (id : string) (h h' : Host W) (e : option Error) :
  container.Stop id h = (e, h') ->
  trace h' = trace h ++ [mkEvent (CallStop id) e].
Proof.
  unfold container.Stop, bind, ret, ask, record.
  destruct (ContainerStop id (world h)) as [r w1]. simpl.
  by intros [= <- <-].
Qed.

Lemma Remove_run (id : string) (h h' : Host W) (e : option Error) :
  container.Remove id h = (e, h') ->
  trace h' = trace h ++ [mkEvent (CallRemove id) e].
Proof.
  unfold container.Remove, bind, ret, ask, record.
  destruct (ContainerRemove id (world h)) as [r w1]. simpl.
  by intros [= <- <-].
Qed.

(** [cleanupDeployment] makes exactly the stop and remove calls of its
    replicas, whatever their outcomes, and returns nil. *)
Lemma cleanup_replicas_run (replicas : list Container.t) (h h' : Host W) :
  scheduler.cleanup_replicas replicas h = (tt, h') ->
  exists evs, trace h' = trace h ++ evs /\
    ev_call <$> evs = stop_remove_calls replicas.
Proof.
  revert h. induction replicas as [|c rest IH]; intros h; simpl.
  - unfold ret. intros [= <-]. exists []. by rewrite app_nil_r.
  - unfold bind at 1.
    destruct (container.Stop (Container.ID c) h) as [e1 h1] eqn:E1.
    unfold bind at 1.
    destruct (container.Remove (Container.ID c) h1) as [e2 h2] eqn:E2.
    intros Hrest. apply Stop_run in E1. apply Remove_run in E2.
    destruct (IH _ Hrest) as (evs & Ht & Hc).
    exists (mkEvent (CallStop (Container.ID c)) e1
            :: mkEvent (CallRemove (Container.ID c)) e2 :: evs).
    split.
    + rewrite Ht, E2, E1. by rewrite <- !app_assoc.
    + rewrite !fmap_cons, Hc. reflexivity.
Qed.

Lemma cleanupDeployment_run (replicas : list Container.t) (h h' : Host W) (e : option Error) :
  scheduler.cleanupDeployment replicas h = (e, h') ->
  e = None /\
  exists evs, trace h' = trace h ++ evs /\
    ev_call <$> evs = stop_remove_calls replicas.
Proof.
  unfold scheduler.cleanupDeployment, bind, ret.
  destruct (scheduler.cleanup_replicas replicas h) as [[] h1] eqn:E.
  intros [= <- <-]. split; [done|]. by apply cleanup_replicas_run.
Qed.

End SchedulerFacts.

(** ** Numbers and their decimal form *)

Section Numbers.

Lemma wrap_in_range (z : Z) :
  goint.MinInt <= z <= goint.MaxInt -> goint.wrap z = z.
Proof.
  unfold goint.wrap, goint.MinInt, goint.MaxInt. intros Hz.
  rewrite Z.mod_small; lia.
Qed.

Lemma ParseInt_range (s : string) (n : Z) :
  strconv.ParseInt s = Some n -> goint.MinInt <= n <= goint.MaxInt.
Proof.
  unfold strconv.ParseInt.
  destruct (match s with EmptyString => _ | String c r => _ end) as [neg body].
  destruct body as [|c r]; [done|].
  destruct (bytes.all_digits _); [|done].
  destruct (goint.in_range _) eqn:E; [|done]. intros [= <-].
  unfold goint.in_range in E.
  apply andb_true_iff in E as [Hlo%Z.leb_le Hhi%Z.leb_le].
  split; [exact Hlo | exact Hhi].
Qed.

Lemma mustParseInt_range (s : string) :
  goint.MinInt <= scheduler.mustParseInt s <= goint.MaxInt.
Proof.
  unfold scheduler.mustParseInt, fmt.Sscanf_d.
  destruct (fmt.scanInt s) as [n|] eqn:E.
  - unfold fmt.scanInt in E. destruct (fmt.SkipSpace s) as [s1|]; [|done].
    destruct (match s1 with EmptyString => _ | String c r => _ end) as [sign s2].
    destruct (bytes.span _ _) as [digits rest]. destruct digits; [done|].
    by apply ParseInt_range in E.
  - unfold goint.MinInt, goint.MaxInt. lia.
Qed.


Lemma decimal_string_of_uint (d : Decimal.uint) :
  forall acc, bytes.decimal acc (NilEmpty.string_of_uint d) = uint_value acc d.
Proof.
  induction d; intros acc; simpl; try reflexivity; rewrite IHd; reflexivity.
Qed.

Lemma uint_value_of_uint_acc (d : Decimal.uint) :
  forall acc : positive, Z.pos (Pos.of_uint_acc d acc) = uint_value (Z.pos acc) d.
Proof.
  induction d; intros acc; simpl; try reflexivity; rewrite IHd; f_equal; lia.
Qed.

Lemma uint_value_of_uint (d : Decimal.uint) :
  Z.of_N (Pos.of_uint d) = uint_value 0 d.
Proof.
  induction d; simpl; try reflexivity; try (rewrite uint_value_of_uint_acc; reflexivity).
  exact IHd.
Qed.

Lemma uint_value_to_uint (p : positive) : uint_value 0 (Pos.to_uint p) = Z.pos p.
Proof.
  rewrite <- uint_value_of_uint, DecimalPos.Unsigned.of_to. reflexivity.
Qed.

Lemma all_digits_string_of_uint (d : Decimal.uint) :
  bytes.all_digits (NilEmpty.string_of_uint d) = true.
Proof. induction d; simpl; auto. Qed.

Lemma span_string_of_uint (d : Decimal.uint) :
  bytes.span fmt.is_decimalDigit (NilEmpty.string_of_uint d)
  = (NilEmpty.string_of_uint d, EmptyString).
Proof. induction d; simpl; try reflexivity; rewrite IHd; reflexivity. Qed.

(** The digits of a positive number: at least one, and rendered as they
    are (the [Nil]-is-zero convention of [NilZero] does not apply). *)
Lemma string_of_to_uint (p : positive) :
  NilZero.string_of_uint (Pos.to_uint p) = NilEmpty.string_of_uint (Pos.to_uint p) /\
  exists c r, NilEmpty.string_of_uint (Pos.to_uint p) = String c r /\ bytes.is_digit c = true.
Proof.
  pose proof (DecimalPos.Unsigned.to_uint_nonnil p) as Hnil.
  destruct (Pos.to_uint p) eqn:E; [done|..]; (split; [reflexivity|]); simpl; eauto.
Qed.

Lemma SkipSpace_digit (c : ascii) (r : string) :
  bytes.is_digit c = true -> fmt.SkipSpace (String c r) = Some (String c r).
Proof.
  unfold bytes.is_digit. intros [Hlo%Z.leb_le Hhi%Z.leb_le]%andb_true_iff.
  cbn [fmt.SkipSpace]. unfold fmt.space3.
  repeat match goal with
  | |- context [?a =? ?b] => destruct (Z.eqb_spec a b); [lia|]
  | |- context [?a <=? ?b] => destruct (Z.leb_spec a b); try lia
  end; simpl.
  all: destruct r as [|c2 [|c3 r3]]; reflexivity.
Qed.

Lemma is_digit_not_sign (c : ascii) : bytes.is_digit c = true -> bytes.is_sign c = false.
Proof.
  unfold bytes.is_digit, bytes.is_sign. intros [Hlo%Z.leb_le Hhi%Z.leb_le]%andb_true_iff.
  apply orb_false_iff. split; apply Z.eqb_neq; lia.
Qed.

(** [Atoi] reads back what [Itoa] writes. *)
Lemma Atoi_Itoa (n : Z) :
  goint.MinInt <= n <= goint.MaxInt -> strconv.Atoi (strconv.Itoa n) = Some n.
Proof.
  intros Hn. unfold strconv.Atoi, strconv.Itoa, strconv.ParseInt.
  assert (Hr : goint.in_range n = true).
  { unfold goint.in_range. apply andb_true_iff. split; apply Z.leb_le; lia. }
  destruct n as [|p|p]; [reflexivity|..]; cbn [Z.to_int NilZero.string_of_int].
  - destruct (string_of_to_uint p) as (-> & c & r & E & Hd).
    rewrite E, (is_digit_not_sign c Hd). rewrite <- E.
    rewrite all_digits_string_of_uint, decimal_string_of_uint, uint_value_to_uint.
    by rewrite Hr.
  - destruct (string_of_to_uint p) as (-> & c & r & E & Hd).
    change (bytes.is_sign "-") with true. cbv iota.
    change (bytes.code "-" =? 45) with true.
    rewrite E. rewrite <- E.
    rewrite all_digits_string_of_uint, decimal_string_of_uint, uint_value_to_uint.
    change (- Z.pos p) with (Z.neg p). by rewrite Hr.
Qed.

Lemma scanInt_Itoa (n : Z) :
  goint.MinInt <= n <= goint.MaxInt -> fmt.scanInt (strconv.Itoa n) = Some n.
Proof.
  intros Hn. pose proof (Atoi_Itoa n Hn) as HA. unfold strconv.Atoi in HA.
  unfold fmt.scanInt. unfold strconv.Itoa in *.
  destruct n as [|p|p]; [reflexivity|..]; cbn [Z.to_int NilZero.string_of_int] in *.
  - destruct (string_of_to_uint p) as (EZ & c & r & E & Hd). rewrite EZ in *.
    rewrite E, (SkipSpace_digit c r Hd), (is_digit_not_sign c Hd), <- E.
    rewrite span_string_of_uint, E. rewrite <- E. exact HA.
  - destruct (string_of_to_uint p) as (EZ & c & r & E & Hd). rewrite EZ in *.
    replace (fmt.SkipSpace (String "-" (NilEmpty.string_of_uint (Pos.to_uint p))))
      with (Some (String "-" (NilEmpty.string_of_uint (Pos.to_uint p)))).
    2:{ rewrite E. destruct r as [|c3 r3]; reflexivity. }
    cbn [bytes.is_sign]. change (bytes.is_sign "-") with true. cbv iota.
    rewrite span_string_of_uint, E. rewrite <- E. exact HA.
Qed.

Lemma mustParseInt_Itoa (n : Z) :
  goint.MinInt <= n <= goint.MaxInt -> scheduler.mustParseInt (strconv.Itoa n) = n.
Proof.
  intros Hn. unfold scheduler.mustParseInt, fmt.Sscanf_d. by rewrite scanInt_Itoa.
Qed.



(** The decimal form of a number that is not negative is a string of
    digits. *)
Lemma Itoa_all_digits (i : Z) : 0 <= i -> bytes.all_digits (strconv.Itoa i) = true.
Proof.
  unfold strconv.Itoa. destruct i as [|p|p]; [done| |lia]. intros _.
  cbn [Z.to_int NilZero.string_of_int].
  destruct (string_of_to_uint p) as (-> & _). apply all_digits_string_of_uint.
Qed.

Lemma append_String (c : ascii) (a b : string) : String c a +:+ b = String c (a +:+ b).
Proof. reflexivity. Qed.

Lemma append_EmptyString (b : string) : EmptyString +:+ b = b.
Proof. reflexivity. Qed.

(** What [%d] reads in digits followed by something that is not a
    digit. *)
Lemma span_digits_rest (ds rest : string) :
  bytes.all_digits ds = true ->
  match rest with String c _ => bytes.is_digit c = false | EmptyString => True end ->
  bytes.span fmt.is_decimalDigit (ds +:+ rest) = (ds, rest).
Proof.
  intros Hds Hrest. induction ds as [|c ds IH].
  - rewrite append_EmptyString. destruct rest as [|c r]; [done|].
    cbn [bytes.span]. unfold fmt.is_decimalDigit. by rewrite Hrest.
  - cbn [bytes.all_digits] in Hds. apply andb_true_iff in Hds as [Hc Hds].
    rewrite append_String. cbn [bytes.span]. unfold fmt.is_decimalDigit at 1.
    rewrite Hc, (IH Hds). done.
Qed.

Lemma scanInt_Itoa_rest (n : Z) (rest : string) :
  goint.MinInt <= n <= goint.MaxInt ->
  match rest with String c _ => bytes.is_digit c = false | EmptyString => True end ->
  fmt.scanInt (strconv.Itoa n +:+ rest) = Some n.
Proof.
  intros Hn Hrest. pose proof (Atoi_Itoa n Hn) as HA. unfold strconv.Atoi in HA.
  unfold fmt.scanInt. unfold strconv.Itoa in *.
  destruct n as [|p|p]; cbn [Z.to_int NilZero.string_of_int] in *.
  - change (NilZero.string_of_uint (Decimal.D0 Decimal.Nil)) with "0"%string in *.
    rewrite append_String, append_EmptyString.
    rewrite (SkipSpace_digit "0" rest eq_refl).
    change (bytes.is_sign "0") with false. cbv iota.
    rewrite <- (append_EmptyString rest), <- append_String.
    rewrite (span_digits_rest "0" rest eq_refl Hrest). done.
  - destruct (string_of_to_uint p) as (EZ & c & r & E & Hd). rewrite EZ in *.
    rewrite E, append_String, (SkipSpace_digit c _ Hd), (is_digit_not_sign c Hd).
    rewrite <- append_String, <- E.
    rewrite (span_digits_rest _ rest (all_digits_string_of_uint _) Hrest).
    rewrite E. rewrite <- E. exact HA.
  - destruct (string_of_to_uint p) as (EZ & c & r & E & Hd). rewrite EZ in *.
    rewrite append_String.
    replace (fmt.SkipSpace (String "-" (NilEmpty.string_of_uint (Pos.to_uint p) +:+ rest)))
      with (Some (String "-" (NilEmpty.string_of_uint (Pos.to_uint p) +:+ rest))).
    2:{ rewrite E, append_String. destruct (r +:+ rest) as [|c3 r3]; reflexivity. }
    change (bytes.is_sign "-") with true. cbv iota.
    rewrite (span_digits_rest _ rest (all_digits_string_of_uint _) Hrest).
    rewrite E. rewrite <- E. exact HA.
Qed.






End Numbers.

Section ReplicaLoop.
Context {MR : MapRange} {W : Type} {OW : Outside W}.
Local Open Scope go_scope.

Lemma ask_trace {A : Type} (f : W -> A * W) (h h' : Host W) (a : A) :
  ask f h = (a, h') -> trace h' = trace h.
Proof.
  unfold ask. destruct (f (world h)) as [a' w]. by intros [= _ <-].
Qed.

(** The replica loop: either all [fuel] iterations succeed, or the first
    failing one is followed by the cleanup of what was appended. *)
Lemma create_replicas_run (spec : DeploymentSpec.t) (fuel : nat) :
  forall (i : Z) (acc : list Container.t) (h h' : Host W) (r : result (list Container.t)),
  scheduler.create_replicas spec fuel i acc h = (r, h') ->
  exists new, replicas_from spec i new /\
    match r with
    | Ok rs =>
        rs = acc ++ new /\ length new = fuel /\
        trace h' = trace h ++ startup_events spec i new
    | Err e =>
        (length new < fuel)%nat /\
        exists failure cleanup,
          trace h' = trace h ++ startup_events spec i new ++ failure ++ cleanup /\
          failed_at spec (i + Z.of_nat (length new)) e failure /\
          ev_call <$> cleanup = stop_remove_calls (acc ++ new)
    | Panic _ => False
    end.
Proof.
  induction fuel as [|fuel IH]; intros i acc h h' r; simpl.
  - unfold ret. intros [= <- <-]. exists []. simpl.
    by rewrite !app_nil_r.
  - unfold bind at 1.
    destruct (container.Create (scheduler.replica_spec spec i) h) as [rc h1] eqn:EC.
    apply Create_run in EC as (e & Ht1 & Hc).
    destruct rc as [c|err|p]; [| |done].
    + destruct Hc as (-> & Hname & Himg & _ & Hports).
      unfold bind at 1.
      destruct (container.Start (Container.ID c) h1) as [es h2] eqn:ES.
      apply Start_run in ES.
      destruct es as [err|].
      * unfold bind, ret.
        destruct (scheduler.cleanupDeployment acc h2) as [ec h3] eqn:EK.
        apply cleanupDeployment_run in EK as (_ & cl & Ht3 & Hcl).
        intros [= <- <-]. exists []. split; [done|]. simpl.
        split; [lia|].
        exists [mkEvent (CallCreate (scheduler.replica_spec spec i)) None;
                mkEvent (CallStart (Container.ID c)) (Some err)], cl.
        split; [|split].
        -- rewrite Ht3, ES, Ht1, <- !app_assoc. reflexivity.
        -- right. exists err, (Container.ID c). by rewrite Z.add_0_r.
        -- by rewrite app_nil_r.
      * intros Hrec. apply IH in Hrec as (new & Hnew & Hr).
        exists (Container.set_Status "running" c :: new). split.
        { split; [|done]. repeat split; simpl; auto. }
        destruct r as [rs|e|p]; [| |done].
        -- destruct Hr as (-> & Hlen & Ht). split; [by rewrite <- app_assoc|].
           split; [simpl; lia|].
           rewrite Ht, ES, Ht1, <- !app_assoc. reflexivity.
        -- destruct Hr as (Hlen & failure & cl & Ht & Hf & Hcl).
           split; [simpl; lia|]. exists failure, cl. split; [|split].
           ++ rewrite Ht, ES, Ht1, <- !app_assoc. reflexivity.
           ++ replace (i + Z.of_nat (length (Container.set_Status "running" c :: new)))
                with (i + 1 + Z.of_nat (length new)) by (simpl length; lia).
              done.
           ++ by rewrite Hcl, <- app_assoc.
    + subst e. unfold bind, ret.
      destruct (scheduler.cleanupDeployment acc h1) as [ec h3] eqn:EK.
      apply cleanupDeployment_run in EK as (_ & cl & Ht3 & Hcl).
      intros [= <- <-]. exists []. split; [done|]. simpl.
      split; [lia|].
      exists [mkEvent (CallCreate (scheduler.replica_spec spec i)) (Some err)], cl.
      split; [|split].
      * rewrite Ht3, Ht1, <- !app_assoc. reflexivity.
      * left. exists err. by rewrite Z.add_0_r.
      * by rewrite app_nil_r.
Qed.

Lemma startup_events_ok (spec : DeploymentSpec.t) (cs : list Container.t) :
  forall i : Z, create_start_ok (startup_events spec i cs) = true.
Proof.
  induction cs as [|c rest IH]; intros i; simpl; [done|]. apply IH.
Qed.


Lemma cleanup_not_create_or_start (replicas : list Container.t) (evs : list Event) (ev : Event) :
  ev_call <$> evs = stop_remove_calls replicas ->
  ev ∈ evs -> is_create_or_start (ev_call ev) = false.
Proof.
  intros Hc Hin.
  assert (Hin' : ev_call ev ∈ stop_remove_calls replicas).
  { rewrite <- Hc. by apply list_elem_of_fmap_2. }
  unfold stop_remove_calls in Hin'. apply list_elem_of_In, in_flat_map in Hin'.
  destruct Hin' as (c & _ & [<-|[<-|[]]]); reflexivity.
Qed.

End ReplicaLoop.

Section CreateDeployment.
Context {MR : MapRange} {W : Type} {OW : Outside W}.
Local Open Scope go_scope.

(** *** Ranging over a map *)

Lemma elem_of_range {A : Type} (m : gmap string A) (k : string) (v : A) :
  (k, v) ∈ range m <-> m !! k = Some v.
Proof. rewrite range_perm. apply elem_of_map_to_list. Qed.

Lemma NoDup_fst_range {A : Type} (m : gmap string A) : NoDup (range m).*1.
Proof. rewrite range_perm. apply NoDup_fst_map_to_list. Qed.

(** The name scan finds nothing exactly when no registered deployment
    has the name. *)
Lemma deployment_named_None (s : Scheduler.t) (name : string) :
  scheduler.deployment_named name s = None <->
  forall id d, Scheduler.deployments s !! id = Some d -> Deployment.Name d <> name.
Proof.
  unfold scheduler.deployment_named. split.
  - intros Hf id d Hd Hn.
    assert (Hb := find_none _ _ Hf (id, d)). simpl in Hb.
    rewrite bool_decide_eq_false in Hb. apply Hb; [|done].
    by apply list_elem_of_In, elem_of_range.
  - intros Hfresh. destruct (find _ _) as [[id d]|] eqn:E; [|done].
    apply find_some in E as [Hin Hb]. simpl in Hb.
    apply bool_decide_eq_true in Hb.
    apply list_elem_of_In, elem_of_range in Hin. by destruct (Hfresh id d).
Qed.

Lemma deployment_named_Some (s : Scheduler.t) (name id : string) (d : Deployment.t) :
  scheduler.deployment_named name s = Some (id, d) ->
  Scheduler.deployments s !! id = Some d /\ Deployment.Name d = name.
Proof.
  unfold scheduler.deployment_named. intros [Hin Hb]%find_some. simpl in Hb.
  apply bool_decide_eq_true in Hb. by apply list_elem_of_In, elem_of_range in Hin.
Qed.

(** *** Port striping *)

Lemma foldl_insert_notin {B : Type} (g : string -> B) (l : list (string * string))
    (m0 : gmap string B) (p : string) :
  p ∉ l.*1 ->
  foldl (fun acc kv => <[kv.1 := g kv.2]> acc) m0 l !! p = m0 !! p.
Proof.
  revert m0. induction l as [|[k v] l IH]; intros m0; simpl; [done|].
  rewrite not_elem_of_cons. intros [Hne Hnot].
  rewrite IH by done. by rewrite lookup_insert_ne.
Qed.

Lemma foldl_insert_in {B : Type} (g : string -> B) (l : list (string * string))
    (m0 : gmap string B) (p b : string) :
  NoDup l.*1 -> (p, b) ∈ l ->
  foldl (fun acc kv => <[kv.1 := g kv.2]> acc) m0 l !! p = Some (g b).
Proof.
  revert m0. induction l as [|[k v] l IH]; intros m0; simpl.
  - by intros _ ?%elem_of_nil.
  - rewrite NoDup_cons, elem_of_cons. intros [Hk Hnd] [[= <- <-]|Hin].
    + rewrite foldl_insert_notin by done. by rewrite lookup_insert_eq.
    + by apply IH.
Qed.

(** The port map of replica [i] has the keys of the template's map, each
    bound to the base host port plus [i]. *)
Lemma stripe_lookup (ports : gmap string string) (i : Z) (p : string) :
  scheduler.stripe ports i !! p =
  (fun base => fmt.Sprintf_d (goint.add (scheduler.mustParseInt base) i)) <$> ports !! p.
Proof.
  unfold scheduler.stripe. destruct (ports !! p) as [b|] eqn:E; simpl.
  - apply (foldl_insert_in (fun base => fmt.Sprintf_d (goint.add (scheduler.mustParseInt base) i))).
    + apply NoDup_fst_range.
    + by apply elem_of_range.
  - rewrite (foldl_insert_notin (fun base => fmt.Sprintf_d (goint.add (scheduler.mustParseInt base) i)));
      [done|].
    intros ((k & v) & -> & Hin%elem_of_range)%list_elem_of_fmap. simpl in E. congruence.
Qed.

Lemma replicas_from_lookup (spec : DeploymentSpec.t) (cs : list Container.t) :
  forall (i : Z) (j : nat) (c : Container.t),
  replicas_from spec i cs -> cs !! j = Some c -> is_replica spec (i + Z.of_nat j) c.
Proof.
  induction cs as [|c0 rest IH]; intros i j c; simpl; [done|].
  intros [H0 Hrest]. destruct j as [|j]; cbn [lookup list_lookup].
  - intros [= <-]. by rewrite Z.add_0_r.
  - intros Hj. replace (i + Z.of_nat (S j)) with (i + 1 + Z.of_nat j) by lia.
    by apply IH.
Qed.

(** *** The whole of [CreateDeployment] *)

(** [make] accepts the capacities from zero to [maxAlloc] bytes of
    pointers. *)
Lemma makeslice_panics_false (cap : Z) :
  runtime.makeslice_panics runtime.PtrSize cap = false <->
  0 <= cap /\ runtime.PtrSize * cap <= runtime.maxAlloc.
Proof.
  unfold runtime.makeslice_panics. rewrite orb_false_iff, Z.ltb_ge, Z.ltb_ge. tauto.
Qed.

(** With a fresh name and a replica count that [make] refuses the
    method panics before any call to the container manager. *)
Lemma CreateDeployment_cap_out_of_range
    (s : Scheduler.t) (spec : DeploymentSpec.t) (h : Host W) :
  scheduler.deployment_named (DeploymentSpec.Name spec) s = None ->
  runtime.makeslice_panics runtime.PtrSize (DeploymentSpec.Replicas spec) = true ->
  exists h', scheduler.CreateDeployment s spec h = (Panic MakesliceCapOutOfRange, s, h') /\
             trace h' = trace h.
Proof.
  intros Hfresh Hcap. unfold scheduler.CreateDeployment. rewrite Hfresh.
  unfold scheduler.generateID.
  unfold bind at 1. unfold bind at 1.
  destruct (ask time_Now h) as [now h0] eqn:E0. unfold ret at 1.
  apply ask_trace in E0. rewrite Hcap.
  by exists h0.
Qed.

Lemma CreateDeployment_negative (s : Scheduler.t) (spec : DeploymentSpec.t) (h : Host W) :
  scheduler.deployment_named (DeploymentSpec.Name spec) s = None ->
  DeploymentSpec.Replicas spec < 0 ->
  exists h', scheduler.CreateDeployment s spec h = (Panic MakesliceCapOutOfRange, s, h') /\
             trace h' = trace h.
Proof.
  intros Hfresh Hneg. apply CreateDeployment_cap_out_of_range; [done|].
  unfold runtime.makeslice_panics. by rewrite (proj2 (Z.ltb_lt _ _) Hneg).
Qed.

(** With a fresh name and a replica count that [make] accepts the
    method is its replica loop: the registry and the result follow from
    what the loop returns, and the calls of the run are the calls of the
    loop. *)
Lemma CreateDeployment_fresh (s s' : Scheduler.t) (spec : DeploymentSpec.t)
    (h h' : Host W) (r : result Deployment.t) :
  scheduler.deployment_named (DeploymentSpec.Name spec) s = None ->
  runtime.makeslice_panics runtime.PtrSize (DeploymentSpec.Replicas spec) = false ->
  scheduler.CreateDeployment s spec h = (r, s', h') ->
  exists (id : string) (created : Time) (h1 : Host W) (rl : result (list Container.t)),
    trace h1 = trace h /\
    scheduler.create_replicas spec (Z.to_nat (DeploymentSpec.Replicas spec)) 0 [] h1 = (rl, h') /\
    match rl with
    | Err e => r = Err e /\ s' = s
    | Panic p => r = Panic p /\ s' = s
    | Ok replicas =>
        let d := Deployment.mk id (DeploymentSpec.Name spec) spec "running" replicas created in
        r = Ok d /\
        s' = Scheduler.mk (<[id := d]> (Scheduler.deployments s)) (Scheduler.services s)
    end.
Proof.
  intros Hfresh Hcap. unfold scheduler.CreateDeployment. rewrite Hfresh.
  unfold scheduler.generateID.
  unfold bind at 1. unfold bind at 1.
  destruct (ask time_Now h) as [now h0] eqn:E0. unfold ret at 1.
  rewrite Hcap.
  unfold bind at 1.
  destruct (ask time_Now h0) as [created h1] eqn:E1.
  unfold bind at 1.
  destruct (scheduler.create_replicas _ _ _ _ h1) as [rl h2] eqn:EL.
  apply ask_trace in E0. apply ask_trace in E1.
  destruct rl as [replicas|e|p]; unfold ret; intros [= <- <- <-];
    exists (fmt.Sprintf_d now), created, h1; eexists; (split; [congruence|]);
    (split; [exact EL|]); cbv zeta; split; reflexivity.
Qed.

End CreateDeployment.

Section ReplicaProperties.
Context {MR : MapRange} {W : Type} {OW : Outside W}.
Local Open Scope go_scope.


Lemma cleanup_events_ok (replicas : list Container.t) (evs : list Event) :
  ev_call <$> evs = stop_remove_calls replicas -> create_start_ok evs = true.
Proof.
  intros Hc. apply forallb_forall. intros ev Hin%list_elem_of_In.
  unfold failed_create_or_start.
  by rewrite (cleanup_not_create_or_start replicas evs ev Hc Hin).
Qed.


(** Replica [i] of a deployment whose replicas are [replicas_from spec 0]:
    its name, and its host port for a declared container port. *)
Lemma replica_name_and_port (spec : DeploymentSpec.t) (replicas : list Container.t) (i : Z) :
  length replicas = Z.to_nat (DeploymentSpec.Replicas spec) ->
  replicas_from spec 0 replicas ->
  0 <= i < DeploymentSpec.Replicas spec ->
  exists c, replicas !! Z.to_nat i = Some c /\
    Container.Name c = DeploymentSpec.Name spec +:+ "-" +:+ strconv.Itoa i /\
    forall ports p base,
      ContainerSpec.Ports (DeploymentSpec.Container spec) = Some ports ->
      ports !! p = Some base ->
      exists bound, Container.Ports c = Some bound /\
        bound !! p = Some (strconv.Itoa (goint.add (scheduler.mustParseInt base) i)).
Proof.
  intros Hlen Hnew Hi.
  destruct (lookup_lt_is_Some_2 replicas (Z.to_nat i)) as [c Hc]; [lia|].
  exists c. split; [done|].
  apply (replicas_from_lookup spec _ 0) in Hc as (Hname & _ & _ & Hports); [|done].
  rewrite Z.add_0_l, Z2Nat.id in Hname, Hports by lia.
  split; [exact Hname|]. intros ports p base Hp Hb.
  unfold scheduler.replica_spec in Hports. cbn [ContainerSpec.Ports] in Hports.
  rewrite Hp in Hports. eexists. split; [exact Hports|].
  rewrite stripe_lookup, Hb. reflexivity.
Qed.




End ReplicaProperties.

Section RegistryProperties.
Context {MR : MapRange} {W : Type} {OW : Outside W}.
Local Open Scope go_scope.

Lemma new_events_refl (h : Host W) : new_events h h = [].
Proof. unfold new_events. apply drop_all. Qed.

Lemma deployment_named_is_Some (s : Scheduler.t) (name id : string) (d : Deployment.t) :
  Scheduler.deployments s !! id = Some d -> Deployment.Name d = name ->
  is_Some (scheduler.deployment_named name s).
Proof.
  intros Hd Hn. destruct (scheduler.deployment_named name s) eqn:E; [by eexists|].
  rewrite deployment_named_None in E. by destruct (E id d).
Qed.

Lemma service_named_None (s : Scheduler.t) (name : string) :
  scheduler.service_named name s = None <->
  forall id svc, Scheduler.services s !! id = Some svc -> Service.Name svc <> name.
Proof.
  unfold scheduler.service_named. split.
  - intros Hf id d Hd Hn.
    assert (Hb := find_none _ _ Hf (id, d)). simpl in Hb.
    rewrite bool_decide_eq_false in Hb. apply Hb; [|done].
    by apply list_elem_of_In, elem_of_range.
  - intros Hfresh. destruct (find _ _) as [[id d]|] eqn:E; [|done].
    apply find_some in E as [Hin Hb]. simpl in Hb.
    apply bool_decide_eq_true in Hb.
    apply list_elem_of_In, elem_of_range in Hin. by destruct (Hfresh id d).
Qed.

Lemma service_named_is_Some (s : Scheduler.t) (name id : string) (svc : Service.t) :
  Scheduler.services s !! id = Some svc -> Service.Name svc = name ->
  is_Some (scheduler.service_named name s).
Proof.
  intros Hd Hn. destruct (scheduler.service_named name s) eqn:E; [by eexists|].
  rewrite service_named_None in E. by destruct (E id svc).
Qed.

(** C2. If a [Create] or a [Start] call of [CreateDeployment] fails, it
    fails at one replica index [k] below the replica count; the method
    returns a runtime error for replica [k], the registry is the one it
    started from, and the calls of the run are: the successful creates and
    starts of replicas [0..k-1], the failing call (after a successful
    create, when it is the start that failed), and then stop followed by
    remove for each of the replicas [0..k-1], and nothing else. *)
Theorem C2_CreateDeployment_rollback
    (s s' : Scheduler.t) (spec : DeploymentSpec.t) (h h' : Host W) (r : result Deployment.t) :
  scheduler.CreateDeployment s spec h = (r, s', h') ->
  create_start_ok (new_events h h') = false ->
  exists (k : Z) (e : Error) (replicas : list Container.t) (failure cleanup : list Event),
    0 <= k < DeploymentSpec.Replicas spec /\
    r = Err e /\ kind_of e = RuntimeError /\
    s' = s /\
    Z.of_nat (length replicas) = k /\
    replicas_from spec 0 replicas /\
    failed_at spec k e failure /\
    new_events h h' = startup_events spec 0 replicas ++ failure ++ cleanup /\
    ev_call <$> cleanup = stop_remove_calls replicas.
Proof.
  intros Hrun Hbad.
  destruct (scheduler.deployment_named (DeploymentSpec.Name spec) s) as [x|] eqn:Hn.
  - unfold scheduler.CreateDeployment in Hrun. rewrite Hn in Hrun.
    unfold ret in Hrun. injection Hrun as <- <- <-.
    by rewrite new_events_refl in Hbad.
  - destruct (runtime.makeslice_panics runtime.PtrSize (DeploymentSpec.Replicas spec))
      eqn:Hcap.
    { destruct (CreateDeployment_cap_out_of_range s spec h Hn Hcap) as (h1 & Hp & Ht).
      rewrite Hp in Hrun. injection Hrun as <- <- <-.
      rewrite (new_events_app h h1 []) in Hbad; [done|by rewrite app_nil_r]. }
    destruct (CreateDeployment_fresh _ _ _ _ _ _ Hn Hcap Hrun)
      as (id & created & h1 & rl & Ht & Hloop & Hres).
    apply create_replicas_run in Hloop as (new & Hnew & Hr).
    destruct rl as [replicas|e|p]; [| |done].
    + destruct Hr as (_ & _ & Htr). rewrite Ht in Htr.
      rewrite (new_events_app _ _ _ Htr), startup_events_ok in Hbad. done.
    + destruct Hr as (Hlen & failure & cl & Htr & Hf & Hcl).
      destruct Hres as [-> ->]. rewrite Ht in Htr. rewrite Z.add_0_l in Hf.
      exists (Z.of_nat (length new)), e, new, failure, cl.
      split; [lia|]. split; [done|]. split.
      { by destruct Hf as [(err & -> & _)|(err & cid & -> & _)]. }
      repeat split; try done. by apply new_events_app.
Qed.

(** C4. Creating a deployment (a service) under the name of a registered
    deployment (service) fails with the already-exists error and changes
    nothing: the registry is returned as it was, and so is the outside
    world with its trace, so no call reached the container manager. *)
Theorem C4_duplicate_name_rejected (s : Scheduler.t) (h : Host W) :
  (forall spec id d,
     Scheduler.deployments s !! id = Some d ->
     Deployment.Name d = DeploymentSpec.Name spec ->
     scheduler.CreateDeployment s spec h
       = (Err (ErrDeploymentExists (DeploymentSpec.Name spec)), s, h) /\
     kind_of (ErrDeploymentExists (DeploymentSpec.Name spec)) = AlreadyExists) /\
  (forall spec id svc,
     Scheduler.services s !! id = Some svc ->
     Service.Name svc = ServiceSpec.Name spec ->
     scheduler.CreateService s spec h
       = (Err (ErrServiceExists (ServiceSpec.Name spec)), s, h) /\
     kind_of (ErrServiceExists (ServiceSpec.Name spec)) = AlreadyExists).
Proof.
  split.
  - intros spec id d Hd Hname. split; [|done].
    destruct (deployment_named_is_Some _ _ _ _ Hd Hname) as [x Hx].
    unfold scheduler.CreateDeployment. by rewrite Hx.
  - intros spec id svc Hsvc Hname. split; [|done].
    destruct (service_named_is_Some _ _ _ _ Hsvc Hname) as [x Hx].
    unfold scheduler.CreateService. by rewrite Hx.
Qed.

(** C10, as amended. The scheduler has no lower bound on the replica
    count: with a fresh name and [Replicas <= 0], [CreateDeployment]
    returns no error and calls the container manager not at all; with
    [Replicas = 0] it registers a running deployment without replicas and
    returns it. The bounds are in the HTTP handler, which answers 400 to
    such a spec, and to one with more than 100 replicas, without calling
    the scheduler. *)
Theorem C10_no_replica_lower_bound (s : Scheduler.t) (spec : DeploymentSpec.t) (h : Host W) :
  (forall id d, Scheduler.deployments s !! id = Some d ->
                Deployment.Name d <> DeploymentSpec.Name spec) ->
  DeploymentSpec.Replicas spec <= 0 ->
  (forall e, (scheduler.CreateDeployment s spec h).1.1 <> Err e) /\
  trace (scheduler.CreateDeployment s spec h).2 = trace h /\
  (DeploymentSpec.Replicas spec = 0 ->
   exists d h',
     scheduler.CreateDeployment s spec h
       = (Ok d, Scheduler.mk (<[Deployment.ID d := d]> (Scheduler.deployments s))
                             (Scheduler.services s), h') /\
     Deployment.Replicas d = [] /\
     Deployment.Status d = "running"%string /\
     Deployment.Name d = DeploymentSpec.Name spec) /\
  handlers.createDeploymentHandler s spec h = (Some handlers.StatusBadRequest, None, s, h) /\
  (forall spec', 100 < DeploymentSpec.Replicas spec' ->
     handlers.createDeploymentHandler s spec' h = (Some handlers.StatusBadRequest, None, s, h)).
Proof.
  intros Hfresh%deployment_named_None Hle.
  assert (Hzero : DeploymentSpec.Replicas spec = 0 ->
    exists d h',
      scheduler.CreateDeployment s spec h
        = (Ok d, Scheduler.mk (<[Deployment.ID d := d]> (Scheduler.deployments s))
                              (Scheduler.services s), h') /\
      trace h' = trace h /\
      Deployment.Replicas d = [] /\
      Deployment.Status d = "running"%string /\
      Deployment.Name d = DeploymentSpec.Name spec).
  { intros H0.
    destruct (scheduler.CreateDeployment s spec h) as [[r s'] h'] eqn:Hrun.
    assert (Hcap : runtime.makeslice_panics runtime.PtrSize (DeploymentSpec.Replicas spec)
                   = false) by (by rewrite H0).
    destruct (CreateDeployment_fresh _ _ _ _ _ _ Hfresh Hcap Hrun)
      as (id & created & h1 & rl & Ht & Hloop & Hres).
    rewrite H0 in Hloop. cbn [Z.to_nat scheduler.create_replicas] in Hloop.
    unfold ret in Hloop. injection Hloop as <- <-. destruct Hres as [-> ->].
    exists (Deployment.mk id (DeploymentSpec.Name spec) spec "running" [] created), h1.
    repeat split; done. }
  assert (Hcases : DeploymentSpec.Replicas spec = 0 \/ DeploymentSpec.Replicas spec < 0)
    by lia.
  split; [|split; [|split; [|split]]].
  - intros e. destruct Hcases as [H0|Hneg].
    + destruct (Hzero H0) as (d & h' & -> & _). done.
    + destruct (CreateDeployment_negative s spec h Hfresh Hneg) as (h' & -> & _). done.
  - destruct Hcases as [H0|Hneg].
    + destruct (Hzero H0) as (d & h' & -> & Ht & _). exact Ht.
    + destruct (CreateDeployment_negative s spec h Hfresh Hneg) as (h' & -> & Ht). exact Ht.
  - intros H0. destruct (Hzero H0) as (d & h' & Hrun & _ & Hrest). by exists d, h'.
  - unfold handlers.createDeploymentHandler, handlers.deployment_input_ok.
    case_bool_decide; [done|].
    destruct (Z.ltb_spec (DeploymentSpec.Replicas spec) 1); [done|lia].
  - intros spec' Hgt.
    unfold handlers.createDeploymentHandler, handlers.deployment_input_ok.
    case_bool_decide; [done|].
    destruct (Z.ltb_spec (DeploymentSpec.Replicas spec') 1); [done|].
    destruct (Z.ltb_spec 100 (DeploymentSpec.Replicas spec')); [done|lia].
Qed.

(** C6. [DeleteDeployment] of a name some registered deployment has:
    whatever the outcomes of the runtime calls, the calls of the run are
    stop then remove for each replica of one deployment of that name, in
    order, that deployment's entry is deleted from the registry and the
    result is nil. When no registered deployment has the name, the result
    is the not-found error and nothing changes. *)
Theorem C6_DeleteDeployment
    (s s' : Scheduler.t) (name : string) (h h' : Host W) (r : option Error) :
  scheduler.DeleteDeployment s name h = (r, s', h') ->
  ((exists id d, Scheduler.deployments s !! id = Some d /\ Deployment.Name d = name) ->
   exists id d,
     Scheduler.deployments s !! id = Some d /\ Deployment.Name d = name /\
     ev_call <$> new_events h h' = stop_remove_calls (Deployment.Replicas d) /\
     s' = Scheduler.mk (delete id (Scheduler.deployments s)) (Scheduler.services s) /\
     r = None) /\
  ((forall id d, Scheduler.deployments s !! id = Some d -> Deployment.Name d <> name) ->
   r = Some (ErrDeploymentNotFound name) /\
   kind_of (ErrDeploymentNotFound name) = NotFound /\
   s' = s /\ h' = h).
Proof.
  unfold scheduler.DeleteDeployment. intros Hrun. split.
  - intros (id0 & d0 & Hd0 & Hn0).
    destruct (deployment_named_is_Some _ _ _ _ Hd0 Hn0) as [[id d] Hx].
    rewrite Hx in Hrun. unfold bind in Hrun.
    destruct (scheduler.cleanupDeployment (Deployment.Replicas d) h) as [e h1] eqn:EK.
    apply cleanupDeployment_run in EK as (-> & evs & Ht & Hc).
    unfold ret in Hrun. injection Hrun as <- <- <-.
    apply deployment_named_Some in Hx as [Hd Hn].
    exists id, d. repeat split; try done.
    by rewrite (new_events_app _ _ _ Ht).
  - intros Hfresh%deployment_named_None. rewrite Hfresh in Hrun.
    unfold ret in Hrun. by injection Hrun as <- <- <-.
Qed.

End RegistryProperties.

(** ** [CreateService] and its port checks *)

Section FirstError.
Context {A : Type} (f : A -> option Error).

Lemma first_error_None (l : list A) :
  first_error f l = None <-> forall x, x ∈ l -> f x = None.
Proof.
  induction l as [|a l IH]; simpl.
  - split; [intros _ x Hx; by apply elem_of_nil in Hx | done].
  - destruct (f a) eqn:E.
    + split; [done|]. intros Hall. rewrite <- E. apply Hall, elem_of_cons; auto.
    + rewrite IH. split.
      * intros Hall x [->|Hx]%elem_of_cons; auto.
      * intros Hall x Hx. apply Hall, elem_of_cons; auto.
Qed.

Lemma first_error_Some (l : list A) (e : Error) :
  first_error f l = Some e -> exists x, x ∈ l /\ f x = Some e.
Proof.
  induction l as [|a l IH]; simpl; [done|].
  destruct (f a) eqn:E.
  - intros [= <-]. exists a. split; [apply elem_of_cons; auto | done].
  - intros (x & Hx & Hf)%IH. exists x. split; [apply elem_of_cons; auto | done].
Qed.

Lemma first_error_is_Some (l : list A) (x : A) :
  x ∈ l -> is_Some (f x) -> is_Some (first_error f l).
Proof.
  intros Hx Hf. destruct (first_error f l) eqn:E; [by eexists|].
  rewrite first_error_None in E. rewrite (E x Hx) in Hf. by destruct Hf.
Qed.

End FirstError.

Section CreateService.
Context {MR : MapRange} {W : Type} {OW : Outside W}.
Local Open Scope go_scope.


Lemma mapping_in_range_code (port : ServicePort.t) :
  mapping_in_range port =
  negb ((ServicePort.Port port <=? 0) || (65535 <? ServicePort.Port port))
  && negb ((ServicePort.TargetPort port <=? 0) || (65535 <? ServicePort.TargetPort port)).
Proof.
  unfold mapping_in_range, port_in_range.
  repeat match goal with
  | |- context [?a <=? ?b] => destruct (Z.leb_spec a b)
  | |- context [?a <? ?b] => destruct (Z.ltb_spec a b)
  end; simpl; try reflexivity; lia.
Qed.

(** The first loop of [validatePortConflicts] and the mapping-by-mapping
    description agree, on the check that fails and on its error kind. *)
Lemma check_own_ports_spec (ports : list ServicePort.t) :
  forall (used : gset Z) (seen : list Z),
  (forall z, z ∈ used <-> z ∈ seen) ->
  match scheduler.check_own_ports used ports with
  | Some e =>
      first_mapping_failure seen ports = check_of_error (ErrPortConflict e) /\
      is_Some (check_of_error (ErrPortConflict e))
  | None => first_mapping_failure seen ports = None
  end.
Proof.
  induction ports as [|port rest IH]; intros used seen Hsame; simpl; [done|].
  rewrite mapping_in_range_code.
  destruct ((ServicePort.Port port <=? 0) || (65535 <? ServicePort.Port port)); simpl;
    [by eauto|].
  destruct ((ServicePort.TargetPort port <=? 0) || (65535 <? ServicePort.TargetPort port));
    simpl; [by eauto|].
  rewrite (bool_decide_ext _ _ (Hsame (ServicePort.Port port))).
  case_bool_decide; [by eauto|].
  apply IH. intros z. rewrite elem_of_union, elem_of_singleton, elem_of_cons.
  by rewrite Hsame.
Qed.

Lemma check_service_ports_spec (s : Scheduler.t) (ports : list ServicePort.t) :
  match scheduler.check_service_ports s ports with
  | Some e =>
      service_conflict s ports = true /\
      exists id svc existingPort newPort,
        Scheduler.services s !! id = Some svc /\
        existingPort ∈ ServiceSpec.Ports (Service.Spec svc) /\
        newPort ∈ ports /\
        ServicePort.Port existingPort = ServicePort.Port newPort /\
        e = ErrPortInUseByService (ServicePort.Port newPort) (Service.Name svc)
  | None => service_conflict s ports = false
  end.
Proof.
  unfold scheduler.check_service_ports, service_conflict.
  destruct (first_error _ _) as [e|] eqn:E.
  - apply first_error_Some in E as ([id svc] & Hsvc%elem_of_range & E).
    apply first_error_Some in E as (ep & Hep & E).
    apply first_error_Some in E as (np & Hnp & E).
    destruct (Z.eqb_spec (ServicePort.Port ep) (ServicePort.Port np)) as [Heq|]; [|done].
    injection E as <-. split.
    + apply existsb_exists. exists (id, svc).
      split; [by apply list_elem_of_In, elem_of_map_to_list|].
      apply existsb_exists. exists ep. split; [by apply list_elem_of_In|].
      apply existsb_exists. exists np. split; [by apply list_elem_of_In|].
      by apply Z.eqb_eq.
    + by exists id, svc, ep, np.
  - apply not_true_is_false. intros Hc.
    apply existsb_exists in Hc as ([id svc] & Hin%list_elem_of_In%elem_of_map_to_list & Hc).
    apply existsb_exists in Hc as (ep & Hep%list_elem_of_In & Hc).
    apply existsb_exists in Hc as (np & Hnp%list_elem_of_In & Hc).
    rewrite first_error_None in E.
    specialize (E (id, svc) (proj2 (elem_of_range _ _ _) Hin)).
    rewrite first_error_None in E. specialize (E ep Hep).
    rewrite first_error_None in E. specialize (E np Hnp).
    simpl in Hc. by rewrite Hc in E.
Qed.

Lemma elem_of_bound_host_ports (c : Container.t) (cp : string) (n : Z) :
  (cp, n) ∈ bound_host_ports c <->
  exists bound hp, Container.Ports c = Some bound /\ bound !! cp = Some hp /\
                   strconv.Atoi hp = Some n.
Proof.
  unfold bound_host_ports. rewrite list_elem_of_omap. split.
  - intros ([k hp] & Hin & Hx). simpl in Hx.
    destruct (strconv.Atoi hp) as [m|] eqn:EA; [|done]. injection Hx as <- <-.
    destruct (Container.Ports c) as [bound|]; [|by apply elem_of_nil in Hin].
    apply elem_of_map_to_list in Hin. by exists bound, hp.
  - intros (bound & hp & -> & Hb & Ha). exists (cp, hp). simpl.
    split; [by apply elem_of_map_to_list|]. by rewrite Ha.
Qed.

Lemma elem_of_items (m : gomap) (k v : string) :
  (k, v) ∈ items m <-> exists bound, m = Some bound /\ bound !! k = Some v.
Proof.
  destruct m as [bound|]; simpl.
  - rewrite elem_of_range. split; [by exists bound|by intros (? & [= <-] & ?)].
  - split; [by intros ?%elem_of_nil|by intros (? & ? & ?)].
Qed.

(** A replica made by [CreateDeployment] has a port map only if the
    template of its deployment has one. *)
Lemma registered_replica_ports (s : Scheduler.t) (id : string) (d : Deployment.t)
    (c : Container.t) (bound : gmap string string) :
  registry_ok s ->
  Scheduler.deployments s !! id = Some d ->
  c ∈ Deployment.Replicas d ->
  Container.Ports c = Some bound ->
  is_Some (ContainerSpec.Ports (DeploymentSpec.Container (Deployment.Spec d))).
Proof.
  intros Hok Hd [j Hj]%list_elem_of_lookup Hc.
  apply (replicas_from_lookup _ _ _ _ _ (Hok id d Hd)) in Hj as (_ & _ & _ & Hp).
  rewrite Hc in Hp. unfold scheduler.replica_spec in Hp. cbn in Hp.
  destruct (ContainerSpec.Ports _); [by eexists|done].
Qed.

Lemma check_deployment_ports_Some (s : Scheduler.t) (ports : list ServicePort.t) (e : Error) :
  scheduler.check_deployment_ports s ports = Some e ->
  exists id d c cp newPort,
    Scheduler.deployments s !! id = Some d /\
    c ∈ Deployment.Replicas d /\
    (cp, ServicePort.Port newPort) ∈ bound_host_ports c /\
    newPort ∈ ports /\
    e = ErrPortInUseByDeployment (ServicePort.Port newPort) (Deployment.Name d) cp.
Proof.
  unfold scheduler.check_deployment_ports.
  intros ([id d] & Hd%elem_of_range & E)%first_error_Some. simpl in E.
  destruct (ContainerSpec.Ports _) as [tports|]; [|done].
  apply first_error_Some in E as (c & Hc & E).
  apply first_error_Some in E as ([cp hp] & (bound & Hb & Hcp)%elem_of_items & E).
  simpl in E. destruct (strconv.Atoi hp) as [n|] eqn:EA; [|done].
  apply first_error_Some in E as (np & Hnp & E).
  destruct (Z.eqb_spec n (ServicePort.Port np)) as [->|]; [|done].
  injection E as <-. exists id, d, c, cp, np.
  repeat split; try done. apply elem_of_bound_host_ports. by exists bound, hp.
Qed.

(** The deployment the third loop rejects for is one whose template has
    a port map. *)
Lemma check_deployment_ports_Some_template
    (s : Scheduler.t) (ports : list ServicePort.t) (e : Error) :
  scheduler.check_deployment_ports s ports = Some e ->
  exists id d c cp newPort,
    Scheduler.deployments s !! id = Some d /\
    is_Some (ContainerSpec.Ports (DeploymentSpec.Container (Deployment.Spec d))) /\
    c ∈ Deployment.Replicas d /\
    (cp, ServicePort.Port newPort) ∈ bound_host_ports c /\
    newPort ∈ ports /\
    e = ErrPortInUseByDeployment (ServicePort.Port newPort) (Deployment.Name d) cp.
Proof.
  unfold scheduler.check_deployment_ports.
  intros ([id d] & Hd%elem_of_range & E)%first_error_Some. simpl in E.
  destruct (ContainerSpec.Ports _) as [tports|] eqn:Ht; [|done].
  apply first_error_Some in E as (c & Hc & E).
  apply first_error_Some in E as ([cp hp] & (bound & Hb & Hcp)%elem_of_items & E).
  simpl in E. destruct (strconv.Atoi hp) as [n|] eqn:EA; [|done].
  apply first_error_Some in E as (np & Hnp & E).
  destruct (Z.eqb_spec n (ServicePort.Port np)) as [->|]; [|done].
  injection E as <-. exists id, d, c, cp, np.
  split; [done|]. split; [by rewrite Ht|].
  repeat split; try done. apply elem_of_bound_host_ports. by exists bound, hp.
Qed.

(** A replica of a deployment whose template has a port map, with a
    host port that [Atoi] reads as a new external port: the third loop
    rejects, in any registry. *)
Lemma check_deployment_ports_template_is_Some (s : Scheduler.t) (ports : list ServicePort.t)
    (id : string) (d : Deployment.t) (c : Container.t) (cp : string) (newPort : ServicePort.t) :
  Scheduler.deployments s !! id = Some d ->
  is_Some (ContainerSpec.Ports (DeploymentSpec.Container (Deployment.Spec d))) ->
  c ∈ Deployment.Replicas d ->
  (cp, ServicePort.Port newPort) ∈ bound_host_ports c ->
  newPort ∈ ports ->
  is_Some (scheduler.check_deployment_ports s ports).
Proof.
  intros Hd [tports Ht] Hc (bound & hp & Hb & Hcp & Ha)%elem_of_bound_host_ports Hnp.
  unfold scheduler.check_deployment_ports.
  apply (first_error_is_Some _ _ (id, d)); [by apply elem_of_range|]. simpl.
  rewrite Ht.
  apply (first_error_is_Some _ _ c Hc).
  apply (first_error_is_Some _ _ (cp, hp)); [apply elem_of_items; by exists bound|].
  simpl. rewrite Ha.
  apply (first_error_is_Some _ _ newPort Hnp).
  rewrite Z.eqb_refl. by eexists.
Qed.

Lemma check_deployment_ports_is_Some (s : Scheduler.t) (ports : list ServicePort.t)
    (id : string) (d : Deployment.t) (c : Container.t) (cp : string) (newPort : ServicePort.t) :
  registry_ok s ->
  Scheduler.deployments s !! id = Some d ->
  c ∈ Deployment.Replicas d ->
  (cp, ServicePort.Port newPort) ∈ bound_host_ports c ->
  newPort ∈ ports ->
  is_Some (scheduler.check_deployment_ports s ports).
Proof.
  intros Hok Hd Hc Hin Hnp.
  pose proof Hin as (bound & hp & Hb & _)%elem_of_bound_host_ports.
  apply (check_deployment_ports_template_is_Some s ports id d c cp newPort); try done.
  by apply (registered_replica_ports s id d c bound).
Qed.


End CreateService.

Section HandlerChecks.
Context {MR : MapRange} {W : Type} {OW : Outside W}.

Lemma handler_range_check (ports : list ServicePort.t) :
  forallb (fun port =>
       negb ((ServicePort.Port port <? 1) || (65535 <? ServicePort.Port port))
       && negb ((ServicePort.TargetPort port <? 1) || (65535 <? ServicePort.TargetPort port)))
     ports
  = forallb mapping_in_range ports.
Proof.
  induction ports as [|port rest IH]; [done|]. cbn [forallb]. rewrite IH. f_equal.
  unfold mapping_in_range, port_in_range.
  repeat match goal with
  | |- context [?a <=? ?b] => destruct (Z.leb_spec a b)
  | |- context [?a <? ?b] => destruct (Z.ltb_spec a b)
  end; simpl; try reflexivity; lia.
Qed.


End HandlerChecks.

Section ServiceProperties.
Context {MR : MapRange} {W : Type} {OW : Outside W}.
Local Open Scope go_scope.

(** [CreateService], case by case. *)
Lemma CreateService_run (s : Scheduler.t) (spec : ServiceSpec.t) (h : Host W) :
  match scheduler.service_named (ServiceSpec.Name spec) s with
  | Some _ =>
      scheduler.CreateService s spec h = (Err (ErrServiceExists (ServiceSpec.Name spec)), s, h)
  | None =>
      match scheduler.validatePortConflicts s (ServiceSpec.Ports spec) with
      | Some e => scheduler.CreateService s spec h = (Err (ErrPortConflict e), s, h)
      | None =>
          exists (id : string) (created : Time) (h' : Host W),
            let svc := Service.mk id (ServiceSpec.Name spec) spec [] "active" created in
            scheduler.CreateService s spec h
              = (Ok svc, Scheduler.mk (Scheduler.deployments s)
                                      (<[id := svc]> (Scheduler.services s)), h') /\
            trace h' = trace h
      end
  end.
Proof.
  unfold scheduler.CreateService.
  destruct (scheduler.service_named _ s); [done|].
  destruct (scheduler.validatePortConflicts _ _); [done|].
  unfold scheduler.generateID, bind, ret.
  destruct (ask time_Now h) as [now h0] eqn:E0.
  destruct (ask time_Now h0) as [created h1] eqn:E1.
  apply ask_trace in E0. apply ask_trace in E1.
  exists (fmt.Sprintf_d now), created, h1. split; [done|congruence].
Qed.


(** C5. Once the name check and the first two loops of
    [validatePortConflicts] have passed, the third loop compares the port
    pairs of every replica of every registered deployment whose template
    has a port map with the new external ports. If some pair has a host
    port that [Atoi] reads as a new external port, the service is
    rejected with a validation error naming a deployment and a container
    port that do conflict with that port. If every pair has a host port
    that [Atoi] does not read at all, or reads as a number that is no new
    external port, the service is accepted: a host port that does not
    parse is skipped and is never a conflict. This holds in every
    registry; in the registries the scheduler builds, every replica that
    has a port map belongs to a deployment whose template has one, so
    that no pair of a registered replica is left out. *)
Theorem C5_deployment_port_conflicts
    (s : Scheduler.t) (spec : ServiceSpec.t) (h : Host W) :
  (forall id svc, Scheduler.services s !! id = Some svc ->
                  Service.Name svc <> ServiceSpec.Name spec) ->
  scheduler.check_own_ports ∅ (ServiceSpec.Ports spec) = None ->
  scheduler.check_service_ports s (ServiceSpec.Ports spec) = None ->
  ((exists id d c bound cp hp newPort,
      Scheduler.deployments s !! id = Some d /\
      is_Some (ContainerSpec.Ports (DeploymentSpec.Container (Deployment.Spec d))) /\
      c ∈ Deployment.Replicas d /\
      Container.Ports c = Some bound /\ bound !! cp = Some hp /\
      newPort ∈ ServiceSpec.Ports spec /\
      strconv.Atoi hp = Some (ServicePort.Port newPort)) ->
   exists id d c bound cp hp newPort,
      Scheduler.deployments s !! id = Some d /\
      is_Some (ContainerSpec.Ports (DeploymentSpec.Container (Deployment.Spec d))) /\
      c ∈ Deployment.Replicas d /\
      Container.Ports c = Some bound /\ bound !! cp = Some hp /\
      newPort ∈ ServiceSpec.Ports spec /\
      strconv.Atoi hp = Some (ServicePort.Port newPort) /\
      let e := ErrPortConflict
                 (ErrPortInUseByDeployment (ServicePort.Port newPort) (Deployment.Name d) cp) in
      scheduler.CreateService s spec h = (Err e, s, h) /\ kind_of e = ValidationError) /\
  ((forall id d c bound cp hp newPort,
      Scheduler.deployments s !! id = Some d ->
      is_Some (ContainerSpec.Ports (DeploymentSpec.Container (Deployment.Spec d))) ->
      c ∈ Deployment.Replicas d ->
      Container.Ports c = Some bound -> bound !! cp = Some hp ->
      newPort ∈ ServiceSpec.Ports spec ->
      strconv.Atoi hp = None \/
      exists n, strconv.Atoi hp = Some n /\ n <> ServicePort.Port newPort) ->
   exists svc s' h', scheduler.CreateService s spec h = (Ok svc, s', h')) /\
  (registry_ok s ->
   forall id d c bound,
     Scheduler.deployments s !! id = Some d -> c ∈ Deployment.Replicas d ->
     Container.Ports c = Some bound ->
     is_Some (ContainerSpec.Ports (DeploymentSpec.Container (Deployment.Spec d)))).
Proof.
  intros Hfresh%service_named_None Hown Hsvc.
  pose proof (CreateService_run s spec h) as Hrun. rewrite Hfresh in Hrun.
  unfold scheduler.validatePortConflicts in Hrun. rewrite Hown, Hsvc in Hrun.
  split; [|split].
  - intros (id & d & c & bound & cp & hp & np & Hd & Ht & Hc & Hb & Hcp & Hnp & Ha).
    assert (Hin : (cp, ServicePort.Port np) ∈ bound_host_ports c).
    { apply elem_of_bound_host_ports. by exists bound, hp. }
    destruct (check_deployment_ports_template_is_Some s _ id d c cp np Hd Ht Hc Hin Hnp)
      as [e He].
    rewrite He in Hrun.
    apply check_deployment_ports_Some_template in He
      as (id' & d' & c' & cp' & np' & Hd' & Ht' & Hc' & Hb' & Hnp' & ->).
    apply elem_of_bound_host_ports in Hb' as (bound' & hp' & Hbound' & Hcp' & Ha').
    exists id', d', c', bound', cp', hp', np'. repeat split; done.
  - intros Hnone.
    destruct (scheduler.check_deployment_ports s (ServiceSpec.Ports spec)) as [e|] eqn:He.
    + apply check_deployment_ports_Some_template in He
        as (id' & d' & c' & cp' & np' & Hd' & Ht' & Hc' & Hb' & Hnp' & ->).
      apply elem_of_bound_host_ports in Hb' as (bound' & hp' & Hbound' & Hcp' & Ha').
      destruct (Hnone id' d' c' bound' cp' hp' np') as [Hx|(n & Hx & Hne)]; try done;
        congruence.
    + destruct Hrun as (id & created & h' & Hrun & _). by eexists _, _, _.
  - intros Hok id d c bound Hd Hc Hb. by apply (registered_replica_ports s id d c bound).
Qed.

End ServiceProperties.


Section RegistryInvariant.
Context {MR : MapRange} {W : Type} {OW : Outside W}.
Local Open Scope go_scope.

(** [registry_ok] holds of the empty registry and is kept by every
    method that changes the registry, whatever the outside world does. *)
Lemma registry_ok_invariant :
  registry_ok scheduler.NewScheduler /\
  (forall s spec (h : Host W),
     registry_ok s -> registry_ok (scheduler.CreateDeployment s spec h).1.2) /\
  (forall s name (h : Host W),
     registry_ok s -> registry_ok (scheduler.DeleteDeployment s name h).1.2) /\
  (forall s spec (h : Host W),
     registry_ok s -> registry_ok (scheduler.CreateService s spec h).1.2) /\
  (forall s name, registry_ok s -> registry_ok (scheduler.DeleteService s name).2).
Proof.
  split; [|split; [|split; [|split]]].
  - intros id d. cbn. by rewrite lookup_empty.
  - intros s spec h Hok.
    destruct (scheduler.CreateDeployment s spec h) as [[r s'] h'] eqn:Hrun. cbn.
    destruct (scheduler.deployment_named (DeploymentSpec.Name spec) s) as [x|] eqn:Hn.
    + unfold scheduler.CreateDeployment in Hrun. rewrite Hn in Hrun.
      unfold ret in Hrun. by injection Hrun as <- <- <-.
    + destruct (runtime.makeslice_panics runtime.PtrSize (DeploymentSpec.Replicas spec))
        eqn:Hcap.
      { destruct (CreateDeployment_cap_out_of_range s spec h Hn Hcap) as (h1 & Hp & _).
        rewrite Hp in Hrun. by injection Hrun as <- <- <-. }
      destruct (CreateDeployment_fresh _ _ _ _ _ _ Hn Hcap Hrun)
        as (id & created & h1 & rl & Ht & Hloop & Hres).
      apply create_replicas_run in Hloop as (new & Hnew & Hr).
      destruct rl as [replicas|e|p]; [|by destruct Hres as [_ ->]|done].
      destruct Hr as (-> & _ & _). destruct Hres as [_ ->].
      intros id' d'. cbn. rewrite lookup_insert. case_decide.
      * intros [= <-]. exact Hnew.
      * apply Hok.
  - intros s name h Hok. unfold scheduler.DeleteDeployment.
    destruct (scheduler.deployment_named name s) as [[id d]|]; [|exact Hok].
    unfold bind.
    destruct (scheduler.cleanupDeployment (Deployment.Replicas d) h) as [e h1] eqn:EK.
    apply cleanupDeployment_run in EK as (-> & _). cbn.
    intros id' d' Hd'. cbn in Hd'. apply lookup_delete_Some in Hd' as [_ Hd'].
    by apply (Hok id').
  - intros s spec h Hok. pose proof (CreateService_run s spec h) as Hrun.
    destruct (scheduler.service_named _ s); [by rewrite Hrun|].
    destruct (scheduler.validatePortConflicts _ _); [by rewrite Hrun|].
    destruct Hrun as (id & created & h' & -> & _). exact Hok.
  - intros s name Hok. unfold scheduler.DeleteService.
    case_bool_decide; exact Hok.
Qed.

End RegistryInvariant.

(** ** The document store *)

Section StoreProperties.
Context {Data FS : Type} {codec : JSON Data} {fsys : FileSystem Data FS}.

Lemma load_entry_well_formed (s : Storage) (fs0 : FS) (name : string) (d : Deployment.t)
    (ds : list Deployment.t) (lg : list LogEntry) :
  storage.well_formed s fs0 name d ->
  storage.load_entry s fs0 (ds, lg) name = (ds ++ [d], lg).
Proof.
  intros (Hext & data & Hread & Hparse). unfold storage.load_entry.
  rewrite bool_decide_eq_true_2 by done. cbn [negb]. by rewrite Hread, Hparse.
Qed.

Lemma load_entry_corrupt (s : Storage) (fs0 : FS) (name : string)
    (ds : list Deployment.t) (lg : list LogEntry) :
  storage.corrupt s fs0 name ->
  exists w, warns_about (filepath_Join [storage.deploymentsDir s; name]) w = true /\
            storage.load_entry s fs0 (ds, lg) name = (ds, lg ++ [w]).
Proof.
  intros (Hext & [(e & Hread)|(data & Hread & Hparse)]); unfold storage.load_entry;
    rewrite bool_decide_eq_true_2 by done; cbn [negb]; rewrite Hread.
  - eexists. split; [|reflexivity]. by apply bool_decide_eq_true_2.
  - rewrite Hparse. eexists. split; [|reflexivity]. by apply bool_decide_eq_true_2.
Qed.

(** A run of well-formed files adds their deployments, in order, and
    logs nothing. *)
Lemma load_entries_well_formed (s : Storage) (fs0 : FS) (good : list (string * Deployment.t)) :
  forall (ds : list Deployment.t) (lg : list LogEntry),
  Forall (fun nd => storage.well_formed s fs0 nd.1 nd.2) good ->
  foldl (storage.load_entry s fs0) (ds, lg) good.*1 = (ds ++ good.*2, lg).
Proof.
  induction good as [|[name d] good IH]; intros ds lg Hall.
  - cbn. by rewrite app_nil_r.
  - apply Forall_cons in Hall as [Hd Hall]. cbn [fst snd] in Hd.
    rewrite !fmap_cons. cbn [foldl fst snd].
    rewrite (load_entry_well_formed _ _ _ _ _ _ Hd), IH by done.
    by rewrite <- app_assoc.
Qed.

(** C7. A deployments directory that lists [N] well-formed deployment
    files ([*.json], readable, decodable) and one corrupt file
    ([*.json], unreadable or not decodable), anywhere among them:
    [LoadAllDeployments] returns exactly the [N] deployments, in
    directory order, with a nil error, and logs one line, a warning about
    the corrupt file. *)
Theorem C7_LoadAllDeployments_skips_corrupt
    (s : Storage) (disk : Disk FS)
    (before after : list (string * Deployment.t)) (bad : string) :
  ioutil_ReadDir (storage.deploymentsDir s) (fs disk) = inl (before.*1 ++ bad :: after.*1) ->
  Forall (fun nd => storage.well_formed s (fs disk) nd.1 nd.2) (before ++ after) ->
  storage.corrupt s (fs disk) bad ->
  exists w,
    storage.LoadAllDeployments s disk
      = (Ok ((before ++ after).*2), mkDisk (fs disk) (log disk ++ [w])) /\
    warns_about (filepath_Join [storage.deploymentsDir s; bad]) w = true /\
    length ((before ++ after).*2) = length (before ++ after).
Proof.
  intros Hdir [Hb Ha]%Forall_app Hbad. unfold storage.LoadAllDeployments. rewrite Hdir.
  rewrite foldl_app, (load_entries_well_formed _ _ _ _ _ Hb). cbn [foldl app].
  destruct (load_entry_corrupt s (fs disk) bad before.*2 (log disk) Hbad) as (w & Hw & ->).
  rewrite (load_entries_well_formed _ _ _ _ _ Ha).
  exists w. rewrite fmap_app. split; [done|]. split; [done|].
  by rewrite <- fmap_app, length_fmap.
Qed.

Lemma omitempty_map_id (m : gomap) : m <> Some ∅ -> omitempty.map_ m = m.
Proof.
  destruct m as [m|]; [|done]. intros Hm. simpl.
  case_bool_decide; [by subst|done].
Qed.

Lemma omitempty_slice_id {A : Type} (l : option (list A)) :
  l <> Some [] -> omitempty.slice l = l.
Proof. by destruct l as [[|]|]. Qed.

Lemma omitempty_Containers_id (replicas : list Container.t) :
  Forall (fun r => Container.Ports r <> Some ∅ /\ Container.Environment r <> Some ∅ /\
                   Container.Labels r <> Some ∅) replicas ->
  omitempty.Container_ <$> replicas = replicas.
Proof.
  induction 1 as [|c rest (Hp & He & Hl) _ IH]; [done|].
  rewrite fmap_cons, IH. f_equal. destruct c. unfold omitempty.Container_. cbn in *.
  by rewrite !omitempty_map_id.
Qed.

Lemma omitempty_Deployment_id (d : Deployment.t) :
  no_empty_omitempty d -> omitempty.Deployment_ d = d.
Proof.
  destruct d as [id name [sname n [cn ci cp ce cl cc ca cw cv] strat] status replicas created].
  unfold no_empty_omitempty. cbn.
  intros (Hp & He & Hl & Hc & Ha & Hv & Hr).
  unfold omitempty.Deployment_, omitempty.DeploymentSpec_, omitempty.ContainerSpec_. cbn.
  rewrite !omitempty_map_id, !omitempty_slice_id by done.
  f_equal. by apply omitempty_Containers_id.
Qed.

(** What is saved is read back up to [omitempty], when its strings are
    valid UTF-8: both methods compute the same path, the file holds what
    [MarshalIndent] produced, and [Unmarshal] decodes it. *)
Lemma Save_then_Load_reads_back
    (s : Storage) (d : Deployment.t) (disk disk' : Disk FS) :
  valid.Deployment_ d = true ->
  storage.SaveDeployment s d disk = (None, disk') ->
  storage.LoadDeployment s (Deployment.ID d) disk' = Ok (omitempty.Deployment_ d).
Proof.
  intros Hd. unfold storage.SaveDeployment, storage.LoadDeployment.
  destruct (json_MarshalIndent d) as [data|] eqn:Hm; [|done].
  destruct (ioutil_WriteFile _ data (fs disk)) as [[cause|] fs'] eqn:Hw; [done|].
  intros [= <-]. cbn [fs].
  by rewrite (read_after_write _ _ _ _ Hw), (json_Unmarshal_Marshal _ _ Hd Hm).
Qed.

(** Whatever is loaded has valid UTF-8 strings only. *)
Lemma LoadDeployment_valid (s : Storage) (id : string) (disk : Disk FS) (d : Deployment.t) :
  storage.LoadDeployment s id disk = Ok d -> valid.Deployment_ d = true.
Proof.
  unfold storage.LoadDeployment.
  destruct (ioutil_ReadFile _ (fs disk)) as [data|[|cause]]; [|done..].
  destruct (json_Unmarshal data) as [d'|] eqn:Hu; [|done].
  intros [= <-]. by apply (json_Unmarshal_valid data).
Qed.

(** Whatever the codec and the file system: a template whose port map
    is empty and not nil comes back without a port map. *)
Lemma Save_then_Load_empty_ports
    (s : Storage) (d : Deployment.t) (disk disk' : Disk FS) :
  valid.Deployment_ d = true ->
  ContainerSpec.Ports (DeploymentSpec.Container (Deployment.Spec d)) = Some ∅ ->
  storage.SaveDeployment s d disk = (None, disk') ->
  exists d', storage.LoadDeployment s (Deployment.ID d) disk' = Ok d' /\
    ContainerSpec.Ports (DeploymentSpec.Container (Deployment.Spec d')) = None /\
    d' <> d.
Proof.
  intros Hd Hp Hs. exists (omitempty.Deployment_ d).
  split; [by apply (Save_then_Load_reads_back s d disk disk')|].
  assert (Hnone : ContainerSpec.Ports
            (DeploymentSpec.Container (Deployment.Spec (omitempty.Deployment_ d))) = None).
  { cbn. rewrite Hp. cbn. by rewrite bool_decide_eq_true_2. }
  split; [exact Hnone|]. intros Heq. rewrite Heq, Hp in Hnone. discriminate.
Qed.

(** C8, as amended. After a [SaveDeployment] that returns nil, when the
    strings of the document are valid UTF-8, [LoadDeployment] of the
    document's ID returns the document with every empty map or slice
    under [omitempty] replaced by nil; it is the document itself, equal
    in every field, when no such map or slice is empty without being nil.
    A document that is read back as it was has valid UTF-8 strings
    only. *)
Theorem C8_Save_then_Load
    (s : Storage) (d : Deployment.t) (disk disk' : Disk FS) :
  storage.SaveDeployment s d disk = (None, disk') ->
  (valid.Deployment_ d = true ->
   storage.LoadDeployment s (Deployment.ID d) disk' = Ok (omitempty.Deployment_ d) /\
   (no_empty_omitempty d -> storage.LoadDeployment s (Deployment.ID d) disk' = Ok d)) /\
  (storage.LoadDeployment s (Deployment.ID d) disk' = Ok d -> valid.Deployment_ d = true).
Proof.
  intros Hs. split; [|apply LoadDeployment_valid].
  intros Hd. rewrite (Save_then_Load_reads_back _ _ _ _ Hd Hs).
  split; [done|]. intros Hne. by rewrite omitempty_Deployment_id.
Qed.

End StoreProperties.

(** C8, as the document states it, fails, in two ways. The deployment
    that [CreateDeployment] returns for a template with an empty port map
    is saved without error, and what is loaded back has no port map,
    neither in the template nor in the replica. And a deployment whose
    name ends in the byte [xFF] is saved without error, and what is
    loaded back has a name that ends in U+FFFD. *)
Lemma C8_counterexample :
  (exists d d',
    empty_ports_deployment = Ok d /\
    save_then_load d = Some (Ok d') /\
    ContainerSpec.Ports (DeploymentSpec.Container (Deployment.Spec d)) = Some ∅ /\
    ContainerSpec.Ports (DeploymentSpec.Container (Deployment.Spec d')) = None /\
    Container.Ports <$> Deployment.Replicas d = [Some ∅] /\
    Container.Ports <$> Deployment.Replicas d' = [None] /\
    d' <> d) /\
  (exists d',
    save_then_load latin1_deployment = Some (Ok d') /\
    Deployment.Name latin1_deployment = "web" +:+ String "255" EmptyString /\
    Deployment.Name d' = "web" +:+ String "239" (String "191" (String "189" EmptyString)) /\
    d' <> latin1_deployment).
Proof.
  split.
  - destruct empty_ports_deployment as [d|e|p] eqn:E; [|by vm_compute in E..].
    vm_compute in E. injection E as <-.
    eexists _, _. split; [reflexivity|]. split; [vm_compute; reflexivity|].
    repeat split; try (vm_compute; reflexivity). discriminate.
  - destruct (save_then_load latin1_deployment) as [[d'|e|p]|] eqn:E; [|by vm_compute in E..].
    vm_compute in E. injection E as <-.
    eexists. split; [reflexivity|]. repeat split. discriminate.
Qed.

(** ** The theorems at work on the examples *)

Example scan_digits : fmt.scanInt "9000" = Some 9000.
Proof. reflexivity. Qed.

Example scan_blank_sign_rest : fmt.scanInt "  -42abc" = Some (-42).
Proof. reflexivity. Qed.

Example scan_underscore : fmt.scanInt "1_0" = Some 1.
Proof. reflexivity. Qed.

Example scan_newline : fmt.scanInt (String (ascii_of_nat 10) "80") = None.
Proof. reflexivity. Qed.

Example scan_overflow : fmt.scanInt "9223372036854775808" = None.
Proof. reflexivity. Qed.

Example atoi_rest : strconv.Atoi "80/tcp" = None.
Proof. reflexivity. Qed.

Example atoi_plus : strconv.Atoi "+8080" = Some 8080.
Proof. reflexivity. Qed.

Example itoa_negative : strconv.Itoa (-9000) = "-9000"%string.
Proof. reflexivity. Qed.

Example ext_json : filepath.Ext "1700000000000000000.json" = ".json"%string.
Proof. reflexivity. Qed.

Example ext_none : filepath.Ext "notes" = EmptyString.
Proof. reflexivity. Qed.

Example ext_dot_in_directory : filepath.Ext "a.d/notes" = EmptyString.
Proof. reflexivity. Qed.

Example split_port : container.protocol_port "53/udp" = ("udp", "53")%string.
Proof. reflexivity. Qed.

Example split_plain : container.protocol_port "80" = ("tcp", "80")%string.
Proof. reflexivity. Qed.

(** The second scenario of the design document: a service on 8080 is
    accepted on an empty registry; a second one on 8080 is then rejected,
    and the error names the first. *)
Example service_scenario :
  let first := ServiceSpec.mk "front" "NodePort" None [ServicePort.mk 8080 80] in
  let second := ServiceSpec.mk "back" "NodePort" None [ServicePort.mk 8080 8081] in
  let after_first :=
    (scheduler.CreateService (MR := range_to_list) (OW := counting_daemon 99 99)
       scheduler.NewScheduler first fresh_host).1 in
  outcome_of after_first.1 = Accepted /\
  service_result after_first.2 second
  = Err (ErrPortConflict (ErrPortInUseByService 8080 "front")).
Proof. vm_compute. split; reflexivity. Qed.

Example web_scenario :
  names_and_ports web_run.1.1 =
  [("web-0", Some "9000"); ("web-1", Some "9001"); ("web-2", Some "9002")]%string.
Proof. vm_compute. reflexivity. Qed.


Lemma C2_witness :
  exists e, web_failed_run.1.1 = Err e /\ kind_of e = RuntimeError /\
            web_failed_run.1.2 = scheduler.NewScheduler.
Proof.
  destruct (C2_CreateDeployment_rollback (MR := range_to_list) (OW := counting_daemon 1 99)
              scheduler.NewScheduler web_failed_run.1.2 (web_spec 3 "9000")
              fresh_host web_failed_run.2 web_failed_run.1.1)
    as (k & e & replicas & failure & cleanup & _ & Hr & Hk & Hs & _).
  - by_running.
  - by_running.
  - exists e. split; [exact Hr|]. split; [exact Hk|exact Hs].
Defined.

Lemma C4_witness :
  scheduler.CreateDeployment (MR := range_to_list) (OW := counting_daemon 99 99)
    web_registry (web_spec 3 "9000") fresh_host
  = (Err (ErrDeploymentExists "web"), web_registry, fresh_host).
Proof.
  assert (Hd : exists d, Scheduler.deployments web_registry !! "1700000000000000000"%string = Some d
                         /\ Deployment.Name d = "web"%string).
  { vm_compute. eexists. split; reflexivity. }
  destruct Hd as (d & Hd & Hn).
  exact (proj1 (proj1 (C4_duplicate_name_rejected (MR := range_to_list)
                         (OW := counting_daemon 99 99) web_registry fresh_host)
                  (web_spec 3 "9000") _ d Hd Hn)).
Defined.

Lemma C6_witness :
  web_delete_run.1.1 = None /\
  Scheduler.deployments web_delete_run.1.2 = ∅ /\
  length (trace web_delete_run.2) = 6%nat.
Proof.
  destruct (C6_DeleteDeployment (MR := range_to_list) (OW := unstoppable_daemon)
              web_registry web_delete_run.1.2 "web" fresh_host web_delete_run.2
              web_delete_run.1.1) as [Hfound _].
  - by_running.
  - destruct Hfound as (id & d & _ & _ & _ & _ & Hr).
    + exists "1700000000000000000"%string. eexists.
      split; [vm_compute; reflexivity|reflexivity].
    + split; [exact Hr|]. split; vm_compute; reflexivity.
Defined.


Lemma C10_witness :
  exists d h',
    scheduler.CreateDeployment (MR := range_to_list) (OW := counting_daemon 99 99)
      scheduler.NewScheduler (web_spec 0 "9000") fresh_host
    = (Ok d, Scheduler.mk {[ Deployment.ID d := d ]} ∅, h') /\
    Deployment.Replicas d = [].
Proof.
  destruct (C10_no_replica_lower_bound (MR := range_to_list) (OW := counting_daemon 99 99)
              scheduler.NewScheduler (web_spec 0 "9000") fresh_host)
    as (_ & _ & Hzero & _).
  - empty_registry.
  - vm_compute. discriminate.
  - destruct (Hzero eq_refl) as (d & h' & Hrun & Hr & _).
    exists d, h'. split; [exact Hrun|exact Hr].
Defined.

(** C10, as stated, fails below zero: with a fresh name and one replica
    less than none, [CreateDeployment] panics in [make]; it returns no
    deployment and the registry stays empty. *)
Lemma C10_counterexample :
  (scheduler.CreateDeployment (MR := range_to_list) (OW := counting_daemon 99 99)
     scheduler.NewScheduler (web_spec (-1) "9000") fresh_host).1
  = (Panic MakesliceCapOutOfRange, scheduler.NewScheduler).
Proof. vm_compute. reflexivity. Qed.

(** Beyond what the allocator takes, [make] panics as well: 2^45 + 1
    pointers are more than [maxAlloc] bytes. *)
Example make_refuses_large :
  (scheduler.CreateDeployment (MR := range_to_list) (OW := counting_daemon 99 99)
     scheduler.NewScheduler (web_spec (2 ^ 45 + 1) "9000") fresh_host).1
  = (Panic MakesliceCapOutOfRange, scheduler.NewScheduler).
Proof. vm_compute. reflexivity. Qed.


Lemma C5_witness :
  (exists e, scheduler.CreateService (MR := range_to_list) (OW := counting_daemon 99 99)
               named_port_registry metrics_spec fresh_host
             = (Err e, named_port_registry, fresh_host) /\
             kind_of e = ValidationError) /\
  (exists svc s' h', scheduler.CreateService (MR := range_to_list)
                       (OW := counting_daemon 99 99)
                       named_port_registry front_spec fresh_host = (Ok svc, s', h')).
Proof.
  split.
  - destruct (C5_deployment_port_conflicts (MR := range_to_list)
                (OW := counting_daemon 99 99)
                named_port_registry metrics_spec fresh_host) as [Hconflict _].
    + intros id svc. vm_compute. discriminate.
    + by_running.
    + by_running.
    + destruct Hconflict
        as (id & d & c & bound & cp & hp & np & _ & _ & _ & _ & _ & _ & _ & Hrun & Hk).
      * exists "1700000000000000000"%string. eexists. exists named_port_replica. eexists.
        exists "443/tcp"%string, "9001"%string, (ServicePort.mk 9001 9100).
        split; [vm_compute; reflexivity|].
        split; [by eexists|].
        split; [apply list_elem_of_here|].
        split; [reflexivity|].
        split; [vm_compute; reflexivity|].
        split; [apply list_elem_of_here|].
        vm_compute. reflexivity.
      * eexists. split; [exact Hrun|exact Hk].
  - destruct (C5_deployment_port_conflicts (MR := range_to_list)
                (OW := counting_daemon 99 99)
                named_port_registry front_spec fresh_host) as (_ & Hfree & _).
    + intros id svc. vm_compute. discriminate.
    + by_running.
    + by_running.
    + apply Hfree. intros id d c bound cp hp np Hd _ Hc Hb Hcp Hnp.
      unfold named_port_registry in Hd. cbn [Scheduler.deployments] in Hd.
      apply lookup_singleton_Some in Hd as [<- <-].
      cbn [Deployment.Replicas] in Hc. apply list_elem_of_singleton in Hc as ->.
      injection Hb as <-.
      cbn [front_spec ServiceSpec.Ports] in Hnp. apply list_elem_of_singleton in Hnp as ->.
      apply lookup_insert_Some in Hcp as [[_ <-]|[_ Hcp]].
      * by left.
      * apply lookup_singleton_Some in Hcp as [_ <-].
        right. exists 9001. split; [reflexivity|]. cbn. discriminate.
Defined.

Lemma C7_witness :
  exists w,
    storage.LoadAllDeployments (codec := example_json) (fsys := example_fs)
      example_storage sample_disk
    = (Ok [sample_deployment "1" "web"; sample_deployment "3" "db"],
       mkDisk (fs sample_disk) [w]) /\
    warns_about "/var/lib/orca/deployments/2.json" w = true.
Proof.
  destruct (C7_LoadAllDeployments_skips_corrupt (codec := example_json) (fsys := example_fs)
              example_storage sample_disk
              [("1.json"%string, sample_deployment "1" "web")]
              [("3.json"%string, sample_deployment "3" "db")]
              "2.json"%string) as (w & Hrun & Hw & _).
  - reflexivity.
  - repeat constructor; eexists; split; reflexivity.
  - split; [reflexivity|]. left. eexists. reflexivity.
  - exists w. split; [exact Hrun|exact Hw].
Defined.

Lemma C8_witness :
  exists d, web_run.1.1 = Ok d /\ save_then_load d = Some (Ok d).
Proof.
  destruct web_run.1.1 as [d|e|p] eqn:E; [|by vm_compute in E..].
  vm_compute in E. injection E as <-. eexists. split; [reflexivity|].
  unfold save_then_load.
  match goal with
  | |- context [storage.SaveDeployment ?s ?d ?disk] =>
      destruct (storage.SaveDeployment s d disk) as [[e|] disk'] eqn:Hs;
        [by vm_compute in Hs|];
      destruct (proj1 (C8_Save_then_Load (codec := example_json) (fsys := example_fs)
                         s d disk disk' Hs)) as [_ Hload]; [by_running|];
      rewrite Hload; [reflexivity|]
  end.
  vm_compute. repeat split; try discriminate.
  repeat constructor; discriminate.
Defined.

(* ===================================================================== *)
(** ** More on the registry                                              *)
(* ===================================================================== *)

Section RegistryExtras.
Context {MR : MapRange} {W : Type} {OW : Outside W}.
Local Open Scope go_scope.

(** What a run of [CreateDeployment] that returns a deployment did. *)
Lemma CreateDeployment_Ok (s s' : Scheduler.t) (spec : DeploymentSpec.t)
    (h h' : Host W) (d : Deployment.t) :
  scheduler.CreateDeployment s spec h = (Ok d, s', h') ->
  scheduler.deployment_named (DeploymentSpec.Name spec) s = None /\
  0 <= DeploymentSpec.Replicas spec /\
  (exists now, Deployment.ID d = strconv.Itoa now) /\
  Deployment.Name d = DeploymentSpec.Name spec /\
  Deployment.Spec d = spec /\
  s' = Scheduler.mk (<[Deployment.ID d := d]> (Scheduler.deployments s))
                    (Scheduler.services s) /\
  exists h1, trace h1 = trace h /\
    scheduler.create_replicas spec (Z.to_nat (DeploymentSpec.Replicas spec)) 0 [] h1
      = (Ok (Deployment.Replicas d), h').
Proof.
  unfold scheduler.CreateDeployment.
  destruct (scheduler.deployment_named _ s) as [x|] eqn:Hn; [by unfold ret|].
  unfold scheduler.generateID.
  unfold bind at 1. unfold bind at 1.
  destruct (ask time_Now h) as [now h0] eqn:E0. unfold ret at 1.
  destruct (runtime.makeslice_panics _ (DeploymentSpec.Replicas spec)) eqn:Hcap;
    [by unfold ret|].
  apply makeslice_panics_false in Hcap as [Hpos _].
  unfold bind at 1.
  destruct (ask time_Now h0) as [created h1] eqn:E1.
  unfold bind at 1.
  destruct (scheduler.create_replicas _ _ _ _ h1) as [rl h2] eqn:EL.
  apply ask_trace in E0. apply ask_trace in E1.
  destruct rl as [replicas|e|p]; unfold ret; intros [= <- <- <-].
  cbn. repeat split; try done.
  - by exists now.
  - exists h1. split; [congruence|done].
Qed.

(** A run that returns no deployment leaves the registry as it was. *)
Lemma CreateDeployment_not_Ok (s s' : Scheduler.t) (spec : DeploymentSpec.t)
    (h h' : Host W) (r : result Deployment.t) :
  scheduler.CreateDeployment s spec h = (r, s', h') ->
  (forall d, r <> Ok d) -> s' = s.
Proof.
  intros Hrun Hr.
  destruct (scheduler.deployment_named (DeploymentSpec.Name spec) s) as [x|] eqn:Hn.
  - unfold scheduler.CreateDeployment in Hrun. rewrite Hn in Hrun.
    unfold ret in Hrun. by injection Hrun as <- <- <-.
  - destruct (runtime.makeslice_panics runtime.PtrSize (DeploymentSpec.Replicas spec))
      eqn:Hcap.
    { destruct (CreateDeployment_cap_out_of_range s spec h Hn Hcap) as (h1 & Hp & _).
      rewrite Hp in Hrun. by injection Hrun as <- <- <-. }
    destruct (CreateDeployment_fresh _ _ _ _ _ _ Hn Hcap Hrun)
      as (id & created & h1 & rl & Ht & Hloop & Hres).
    destruct rl as [replicas|e|p]; [|by destruct Hres|by destruct Hres].
    destruct Hres as [-> _]. by destruct (Hr _ eq_refl).
Qed.

(** The name scan of a registry in which names are unique finds the one
    deployment that has the name, whatever the order of the scan. *)
Lemma deployment_named_unique (s : Scheduler.t) (name id : string) (d : Deployment.t) :
  names_unique s ->
  Scheduler.deployments s !! id = Some d -> Deployment.Name d = name ->
  scheduler.deployment_named name s = Some (id, d).
Proof.
  intros [Hu _] Hd Hn.
  destruct (deployment_named_is_Some s name id d Hd Hn) as [[id' d'] E].
  destruct (deployment_named_Some _ _ _ _ E) as [Hd' Hn'].
  assert (id' = id) as -> by (apply (Hu id' id d' d); congruence).
  congruence.
Qed.

Lemma service_named_Some (s : Scheduler.t) (name id : string) (svc : Service.t) :
  scheduler.service_named name s = Some (id, svc) ->
  Scheduler.services s !! id = Some svc /\ Service.Name svc = name.
Proof.
  unfold scheduler.service_named. intros [Hin Hb]%find_some. simpl in Hb.
  apply bool_decide_eq_true in Hb. by apply list_elem_of_In, elem_of_range in Hin.
Qed.

Lemma service_named_unique (s : Scheduler.t) (name id : string) (svc : Service.t) :
  names_unique s ->
  Scheduler.services s !! id = Some svc -> Service.Name svc = name ->
  scheduler.service_named name s = Some (id, svc).
Proof.
  intros [_ Hu] Hd Hn.
  destruct (service_named_is_Some s name id svc Hd Hn) as [[id' d'] E].
  destruct (service_named_Some _ _ _ _ E) as [Hd' Hn'].
  assert (id' = id) as -> by (apply (Hu id' id d' svc); congruence).
  congruence.
Qed.

(** The name scan finds a deployment that [CreateDeployment] has just
    registered. *)
Lemma deployment_named_created
    (s s' : Scheduler.t) (spec : DeploymentSpec.t) (h h' : Host W) (d : Deployment.t) :
  scheduler.CreateDeployment s spec h = (Ok d, s', h') ->
  scheduler.deployment_named (DeploymentSpec.Name spec) s' = Some (Deployment.ID d, d).
Proof.
  intros (Hfresh & _ & _ & Hname & _ & -> & _)%CreateDeployment_Ok.
  destruct (scheduler.deployment_named _ (Scheduler.mk _ _)) as [[id' d']|] eqn:E.
  - apply deployment_named_Some in E as [Hd' Hn']. cbn [Scheduler.deployments] in Hd'.
    apply lookup_insert_Some in Hd' as [[<- <-]|[_ Hd']]; [done|].
    rewrite deployment_named_None in Hfresh. by destruct (Hfresh id' d').
  - rewrite deployment_named_None in E.
    destruct (E (Deployment.ID d) d); [|done]. cbn. by rewrite lookup_insert_eq.
Qed.

(** X1. The deployment a run of [CreateDeployment] returns is the one
    [GetDeployment] returns for its name in the registry the run leaves,
    whatever else is registered and in whatever order the registry is
    scanned. *)
Theorem X1_GetDeployment_after_CreateDeployment
    (s s' : Scheduler.t) (spec : DeploymentSpec.t) (h h' : Host W) (d : Deployment.t) :
  scheduler.CreateDeployment s spec h = (Ok d, s', h') ->
  scheduler.GetDeployment s' (DeploymentSpec.Name spec) = Ok d.
Proof.
  intros Hrun. unfold scheduler.GetDeployment.
  by rewrite (deployment_named_created _ _ _ _ _ _ Hrun).
Qed.




Lemma Itoa_nonempty (z : Z) : strconv.Itoa z <> EmptyString.
Proof.
  unfold strconv.Itoa. destruct z as [|p|p]; [done|..]; cbn [Z.to_int NilZero.string_of_int].
  - destruct (string_of_to_uint p) as (-> & c & r & -> & _). done.
  - done.
Qed.

(** What a run of [CreateService] that returns a service did. *)
Lemma CreateService_Ok (s s' : Scheduler.t) (spec : ServiceSpec.t)
    (h h' : Host W) (svc : Service.t) :
  scheduler.CreateService s spec h = (Ok svc, s', h') ->
  scheduler.service_named (ServiceSpec.Name spec) s = None /\
  scheduler.validatePortConflicts s (ServiceSpec.Ports spec) = None /\
  (exists now, Service.ID svc = strconv.Itoa now) /\
  Service.Name svc = ServiceSpec.Name spec /\
  Service.Spec svc = spec /\
  s' = Scheduler.mk (Scheduler.deployments s)
                    (<[Service.ID svc := svc]> (Scheduler.services s)).
Proof.
  unfold scheduler.CreateService.
  destruct (scheduler.service_named _ s) as [x|] eqn:Hn; [by unfold ret|].
  destruct (scheduler.validatePortConflicts _ _) as [e|] eqn:Hv; [by unfold ret|].
  unfold scheduler.generateID.
  unfold bind at 1. unfold bind at 1.
  destruct (ask time_Now h) as [now h0] eqn:E0. unfold ret at 1.
  unfold bind at 1.
  destruct (ask time_Now h0) as [created h1] eqn:E1.
  unfold ret. intros [= <- <- <-]. cbn. repeat split; try done. by exists now.
Qed.

Lemma CreateService_not_Ok (s s' : Scheduler.t) (spec : ServiceSpec.t)
    (h h' : Host W) (r : result Service.t) :
  scheduler.CreateService s spec h = (r, s', h') ->
  (forall svc, r <> Ok svc) -> s' = s.
Proof.
  intros Hrun Hr. pose proof (CreateService_run s spec h) as Hc.
  destruct (scheduler.service_named _ s); [congruence|].
  destruct (scheduler.validatePortConflicts _ _); [congruence|].
  destruct Hc as (id & created & h1 & Hc & _). rewrite Hc in Hrun.
  injection Hrun as <- <- <-. by edestruct Hr.
Qed.

(** A property of registries that holds of the empty one, and that a
    successful creation and the removal of an entry keep, holds after
    every method of the scheduler. *)
Lemma registry_induction (P : Scheduler.t -> Prop) :
  P scheduler.NewScheduler ->
  (forall s s' spec (h h' : Host W) d,
     P s -> scheduler.CreateDeployment s spec h = (Ok d, s', h') -> P s') ->
  (forall s id d, P s -> Scheduler.deployments s !! id = Some d ->
     P (Scheduler.mk (delete id (Scheduler.deployments s)) (Scheduler.services s))) ->
  (forall s s' spec (h h' : Host W) svc,
     P s -> scheduler.CreateService s spec h = (Ok svc, s', h') -> P s') ->
  (forall s id svc, P s -> Scheduler.services s !! id = Some svc ->
     P (Scheduler.mk (Scheduler.deployments s) (delete id (Scheduler.services s)))) ->
  P scheduler.NewScheduler /\
  (forall s spec (h : Host W), P s -> P (scheduler.CreateDeployment s spec h).1.2) /\
  (forall s name (h : Host W), P s -> P (scheduler.DeleteDeployment s name h).1.2) /\
  (forall s spec (h : Host W), P s -> P (scheduler.CreateService s spec h).1.2) /\
  (forall s name, P s -> P (scheduler.DeleteService s name).2).
Proof.
  intros Hnew Hcd Hdd Hcs Hds. split; [exact Hnew|]. split; [|split; [|split]].
  - intros s spec h HP.
    destruct (scheduler.CreateDeployment s spec h) as [[r s'] h'] eqn:Hrun. cbn.
    destruct r as [d|e|p].
    + by eapply Hcd.
    + by rewrite (CreateDeployment_not_Ok _ _ _ _ _ _ Hrun).
    + by rewrite (CreateDeployment_not_Ok _ _ _ _ _ _ Hrun).
  - intros s name h HP. unfold scheduler.DeleteDeployment.
    destruct (scheduler.deployment_named name s) as [[id d]|] eqn:E; [|exact HP].
    apply deployment_named_Some in E as [Hd _].
    unfold bind.
    destruct (scheduler.cleanupDeployment (Deployment.Replicas d) h) as [e h1] eqn:EK.
    apply cleanupDeployment_run in EK as (-> & _). cbn. by eapply Hdd.
  - intros s spec h HP.
    destruct (scheduler.CreateService s spec h) as [[r s'] h'] eqn:Hrun. cbn.
    destruct r as [d|e|p].
    + by eapply Hcs.
    + by rewrite (CreateService_not_Ok _ _ _ _ _ _ Hrun).
    + by rewrite (CreateService_not_Ok _ _ _ _ _ _ Hrun).
  - intros s name HP. unfold scheduler.DeleteService.
    destruct (scheduler.service_named name s) as [[id svc]|] eqn:E.
    + apply service_named_Some in E as [Hd _].
      case_bool_decide; [exact HP|]. cbn. by eapply Hds.
    + by rewrite bool_decide_eq_true_2.
Qed.

(** X2. No method of the scheduler makes two deployments, or two
    services, share a name: name uniqueness holds of the empty registry
    and is kept by [CreateDeployment], [DeleteDeployment],
    [CreateService] and [DeleteService], whatever the outside world
    does and whether the method succeeds or not. *)
Theorem X2_names_unique_invariant :
  names_unique scheduler.NewScheduler /\
  (forall s spec (h : Host W),
     names_unique s -> names_unique (scheduler.CreateDeployment s spec h).1.2) /\
  (forall s name (h : Host W),
     names_unique s -> names_unique (scheduler.DeleteDeployment s name h).1.2) /\
  (forall s spec (h : Host W),
     names_unique s -> names_unique (scheduler.CreateService s spec h).1.2) /\
  (forall s name, names_unique s -> names_unique (scheduler.DeleteService s name).2).
Proof.
  apply registry_induction.
  - split; intros ? ? ? ? Hd; cbn in Hd; by rewrite lookup_empty in Hd.
  - intros s s' spec h h' d [Hu1 Hu2] (Hfresh & _ & _ & Hname & _ & -> & _)%CreateDeployment_Ok.
    rewrite deployment_named_None in Hfresh.
    split; [|exact Hu2]. cbn [Scheduler.deployments].
    intros id1 id2 d1 d2 [[<- <-]|[Hne1 H1]]%lookup_insert_Some
      [[<- <-]|[Hne2 H2]]%lookup_insert_Some Hn; [done|..].
    + destruct (Hfresh _ _ H2). congruence.
    + destruct (Hfresh _ _ H1). congruence.
    + by eapply Hu1.
  - intros s id d [Hu1 Hu2] _. split; [|exact Hu2]. cbn [Scheduler.deployments].
    intros id1 id2 d1 d2 [_ H1]%lookup_delete_Some [_ H2]%lookup_delete_Some.
    by eapply Hu1.
  - intros s s' spec h h' svc [Hu1 Hu2] (Hfresh & _ & _ & Hname & _ & ->)%CreateService_Ok.
    rewrite service_named_None in Hfresh.
    split; [exact Hu1|]. cbn [Scheduler.services].
    intros id1 id2 d1 d2 [[<- <-]|[Hne1 H1]]%lookup_insert_Some
      [[<- <-]|[Hne2 H2]]%lookup_insert_Some Hn; [done|..].
    + destruct (Hfresh _ _ H2). congruence.
    + destruct (Hfresh _ _ H1). congruence.
    + by eapply Hu2.
  - intros s id d [Hu1 Hu2] _. split; [exact Hu1|]. cbn [Scheduler.services].
    intros id1 id2 d1 d2 [_ H1]%lookup_delete_Some [_ H2]%lookup_delete_Some.
    by eapply Hu2.
Qed.

(** X3. Every deployment and every service is registered under the ID
    it carries and has the name of its spec, and the ID is never the
    empty string, which [DeleteService] uses to mean that it found no
    service: this holds of the empty registry and is kept by every
    method that changes the registry. *)
Theorem X3_labels_ok_invariant :
  labels_ok scheduler.NewScheduler /\
  (forall s spec (h : Host W),
     labels_ok s -> labels_ok (scheduler.CreateDeployment s spec h).1.2) /\
  (forall s name (h : Host W),
     labels_ok s -> labels_ok (scheduler.DeleteDeployment s name h).1.2) /\
  (forall s spec (h : Host W),
     labels_ok s -> labels_ok (scheduler.CreateService s spec h).1.2) /\
  (forall s name, labels_ok s -> labels_ok (scheduler.DeleteService s name).2).
Proof.
  apply registry_induction.
  - split; intros ? ? Hd; cbn in Hd; by rewrite lookup_empty in Hd.
  - intros s s' spec h h' d [Hk1 Hk2]
      (_ & _ & [now Hid] & Hname & Hspec & -> & _)%CreateDeployment_Ok.
    split; [|exact Hk2]. cbn [Scheduler.deployments].
    intros id1 d1 [[<- <-]|[Hne1 H1]]%lookup_insert_Some; [|by apply Hk1].
    split; [done|]. split; [|congruence]. rewrite Hid. apply Itoa_nonempty.
  - intros s id d [Hk1 Hk2] _. split; [|exact Hk2]. cbn [Scheduler.deployments].
    intros id1 d1 [_ H1]%lookup_delete_Some. by apply Hk1.
  - intros s s' spec h h' svc [Hk1 Hk2]
      (_ & _ & [now Hid] & Hname & Hspec & ->)%CreateService_Ok.
    split; [exact Hk1|]. cbn [Scheduler.services].
    intros id1 d1 [[<- <-]|[Hne1 H1]]%lookup_insert_Some; [|by apply Hk2].
    split; [done|]. split; [|congruence]. rewrite Hid. apply Itoa_nonempty.
  - intros s id d [Hk1 Hk2] _. split; [exact Hk1|]. cbn [Scheduler.services].
    intros id1 d1 [_ H1]%lookup_delete_Some. by apply Hk2.
Qed.


Lemma startup_events_length (spec : DeploymentSpec.t) (cs : list Container.t) :
  forall i : Z, length (startup_events spec i cs) = (2 * length cs)%nat.
Proof. induction cs as [|c rest IH]; intros i; simpl; [done|]. rewrite IH. lia. Qed.

Lemma startup_events_only_create_start (spec : DeploymentSpec.t) (cs : list Container.t) :
  forall i : Z, only_create_start (startup_events spec i cs) = true.
Proof. induction cs as [|c rest IH]; intros i; simpl; [done|]. apply IH. Qed.

(** The registry without one of its deployments still has unique names. *)
Lemma names_unique_delete_deployment (s : Scheduler.t) (id : string) :
  names_unique s ->
  names_unique (Scheduler.mk (delete id (Scheduler.deployments s)) (Scheduler.services s)).
Proof.
  intros [Hu1 Hu2]. split; [|exact Hu2]. cbn [Scheduler.deployments].
  intros id1 id2 d1 d2 [_ H1]%lookup_delete_Some [_ H2]%lookup_delete_Some.
  by eapply Hu1.
Qed.

Lemma names_unique_delete_service (s : Scheduler.t) (id : string) :
  names_unique s ->
  names_unique (Scheduler.mk (Scheduler.deployments s) (delete id (Scheduler.services s))).
Proof.
  intros [Hu1 Hu2]. split; [exact Hu1|]. cbn [Scheduler.services].
  intros id1 id2 d1 d2 [_ H1]%lookup_delete_Some [_ H2]%lookup_delete_Some.
  by eapply Hu2.
Qed.

(** X4. In a registry with unique names [GetDeployment] and
    [GetService] return an object exactly when it is registered and has
    the name asked for; the order in which Go ranges over the map has no
    influence on the result. *)
Theorem X4_Get_by_name (s : Scheduler.t) :
  names_unique s ->
  (forall name d,
     scheduler.GetDeployment s name = Ok d <->
     exists id, Scheduler.deployments s !! id = Some d /\ Deployment.Name d = name) /\
  (forall name svc,
     scheduler.GetService s name = Ok svc <->
     exists id, Scheduler.services s !! id = Some svc /\ Service.Name svc = name).
Proof.
  intros Hu. split.
  - intros name d. unfold scheduler.GetDeployment. split.
    + destruct (scheduler.deployment_named name s) as [[id d']|] eqn:E; [|done].
      intros [= <-]. exists id. by apply deployment_named_Some.
    + intros (id & Hd & Hn). by rewrite (deployment_named_unique s name id d).
  - intros name svc. unfold scheduler.GetService. split.
    + destruct (scheduler.service_named name s) as [[id d']|] eqn:E; [|done].
      intros [= <-]. exists id. by apply service_named_Some.
    + intros (id & Hd & Hn). by rewrite (service_named_unique s name id svc).
Qed.

(** X5. After a successful [DeleteDeployment] of a name, in a registry
    with unique names, [GetDeployment] does not find the name any more,
    and every other name, and every service, is found as before. *)
Theorem X5_DeleteDeployment_then_Get
    (s s' : Scheduler.t) (name : string) (h h' : Host W) :
  names_unique s ->
  scheduler.DeleteDeployment s name h = (None, s', h') ->
  scheduler.GetDeployment s' name = Err (ErrDeploymentNotFound name) /\
  (forall other, other <> name ->
     scheduler.GetDeployment s' other = scheduler.GetDeployment s other) /\
  (forall other, scheduler.GetService s' other = scheduler.GetService s other).
Proof.
  intros Hu. unfold scheduler.DeleteDeployment.
  destruct (scheduler.deployment_named name s) as [[id d]|] eqn:E; [|by unfold ret].
  apply deployment_named_Some in E as [Hd Hn].
  unfold bind.
  destruct (scheduler.cleanupDeployment (Deployment.Replicas d) h) as [e h1] eqn:EK.
  apply cleanupDeployment_run in EK as (-> & _). unfold ret. intros [= <- <-].
  pose proof (names_unique_delete_deployment s id Hu) as Hu'.
  split; [|split].
  - unfold scheduler.GetDeployment.
    destruct (scheduler.deployment_named name (Scheduler.mk _ _)) as [[id' d']|] eqn:E'; [|done].
    apply deployment_named_Some in E' as [Hd' Hn']. cbn [Scheduler.deployments] in Hd'.
    apply lookup_delete_Some in Hd' as [Hne Hd'].
    destruct Hu as [Hu _]. destruct Hne. apply (Hu id id' d d'); congruence.
  - intros other Hother. unfold scheduler.GetDeployment at 2.
    destruct (scheduler.deployment_named other s) as [[id' d']|] eqn:E'.
    + apply deployment_named_Some in E' as [Hd' Hn'].
      unfold scheduler.GetDeployment.
      rewrite (deployment_named_unique _ other id' d' Hu'); [done| |done].
      cbn [Scheduler.deployments]. apply lookup_delete_Some. split; [|done].
      intros <-. congruence.
    + unfold scheduler.GetDeployment.
      replace (scheduler.deployment_named other (Scheduler.mk _ _)) with
        (@None (string * Deployment.t)); [done|].
      symmetry. apply deployment_named_None. rewrite deployment_named_None in E'.
      intros id' d' Hd'. cbn [Scheduler.deployments] in Hd'.
      apply lookup_delete_Some in Hd' as [_ Hd']. by apply (E' id').
  - done.
Qed.

(** X6. The calls of a run of [CreateDeployment] that returns a
    deployment are, in order, the [Create] and the [Start] of each of
    its replicas, all successful: twice the replica count, and no [Stop]
    and no [Remove] among them. *)
Theorem X6_CreateDeployment_calls
    (s s' : Scheduler.t) (spec : DeploymentSpec.t) (h h' : Host W) (d : Deployment.t) :
  scheduler.CreateDeployment s spec h = (Ok d, s', h') ->
  new_events h h' = startup_events spec 0 (Deployment.Replicas d) /\
  Z.of_nat (length (new_events h h')) = 2 * DeploymentSpec.Replicas spec /\
  only_create_start (new_events h h') = true.
Proof.
  intros (_ & Hpos & _ & _ & _ & _ & h1 & Ht & Hloop)%CreateDeployment_Ok.
  apply create_replicas_run in Hloop as (new & Hnew & Hrs & Hlen & Htr).
  simpl in Hrs. subst new.
  assert (Hev : new_events h h' = startup_events spec 0 (Deployment.Replicas d)).
  { apply new_events_app. congruence. }
  rewrite Hev. split; [done|]. split.
  - rewrite startup_events_length, Hlen. lia.
  - apply startup_events_only_create_start.
Qed.

(** X7. When the clock gives [CreateDeployment] an ID under which a
    deployment is already registered, the new deployment takes its
    place: the old one, which [GetDeployment] found before, is not found
    any more, the registry has as many deployments as before, and the
    run made no [Stop] and no [Remove] call, so the containers of the
    old deployment are left as they were. *)
Theorem X7_CreateDeployment_ID_collision
    (s s' : Scheduler.t) (spec : DeploymentSpec.t) (h h' : Host W) (d old : Deployment.t) :
  names_unique s ->
  scheduler.CreateDeployment s spec h = (Ok d, s', h') ->
  Scheduler.deployments s !! Deployment.ID d = Some old ->
  scheduler.GetDeployment s (Deployment.Name old) = Ok old /\
  scheduler.GetDeployment s' (Deployment.Name old)
    = Err (ErrDeploymentNotFound (Deployment.Name old)) /\
  size (Scheduler.deployments s') = size (Scheduler.deployments s) /\
  only_create_start (new_events h h') = true.
Proof.
  intros Hu Hrun Hold.
  pose proof (CreateDeployment_Ok _ _ _ _ _ _ Hrun)
    as (Hfresh & Hpos & _ & Hname & _ & Hs' & h1 & Ht & Hloop).
  rewrite deployment_named_None in Hfresh.
  split; [|split; [|split]].
  - unfold scheduler.GetDeployment.
    by rewrite (deployment_named_unique s _ (Deployment.ID d) old Hu Hold).
  - unfold scheduler.GetDeployment.
    destruct (scheduler.deployment_named _ s') as [[id' d']|] eqn:E'; [|done].
    apply deployment_named_Some in E' as [Hd' Hn']. subst s'.
    cbn [Scheduler.deployments] in Hd'.
    apply lookup_insert_Some in Hd' as [[_ <-]|[Hne Hd']].
    + destruct (Hfresh _ _ Hold). congruence.
    + destruct Hu as [Hu _]. destruct Hne. by apply (Hu _ _ old d').
  - subst s'. cbn [Scheduler.deployments].
    rewrite <- (insert_delete_eq (Scheduler.deployments s)).
    rewrite map_size_insert_None by apply lookup_delete_eq.
    rewrite <- (insert_id _ _ _ Hold) at 2.
    rewrite <- (insert_delete_eq (Scheduler.deployments s) (Deployment.ID d) old).
    by rewrite map_size_insert_None by apply lookup_delete_eq.
  - apply create_replicas_run in Hloop as (new & Hnew & Hrs & Hlen & Htr).
    rewrite (new_events_app h h' (startup_events spec 0 new)) by congruence.
    apply startup_events_only_create_start.
Qed.


(** What the first loop of [validatePortConflicts] has checked when it
    falls through. *)
Lemma first_mapping_failure_None (ports : list ServicePort.t) :
  forall seen : list Z,
  first_mapping_failure seen ports = None ->
  Forall (fun port => mapping_in_range port = true) ports /\
  NoDup (ServicePort.Port <$> ports) /\
  (forall port, port ∈ ports -> ServicePort.Port port ∉ seen).
Proof.
  induction ports as [|port rest IH]; intros seen; simpl.
  - intros _. split; [constructor|]. split; [constructor|]. by intros ? ?%elem_of_nil.
  - destruct (mapping_in_range port) eqn:Hr; [|done]. cbn [negb].
    case_bool_decide as Hseen; [done|]. intros (Hf & Hnd & Hnot)%IH.
    split; [by constructor|]. split.
    + constructor; [|done]. intros (port' & Hp & Hin)%list_elem_of_fmap.
      apply (Hnot port' Hin). rewrite <- Hp. apply list_elem_of_here.
    + intros port' [->|Hin]%elem_of_cons; [done|].
      intros Hs. apply (Hnot port' Hin). by apply list_elem_of_further.
Qed.

Lemma check_own_ports_None (ports : list ServicePort.t) :
  scheduler.check_own_ports ∅ ports = None ->
  Forall (fun port => mapping_in_range port = true) ports /\
  NoDup (ServicePort.Port <$> ports).
Proof.
  intros Hc. pose proof (check_own_ports_spec ports ∅ []) as Hs.
  rewrite Hc in Hs.
  assert (Hn : first_mapping_failure [] ports = None).
  { apply Hs. intros z. by rewrite elem_of_empty, elem_of_nil. }
  by destruct (first_mapping_failure_None _ _ Hn) as (Hf & Hnd & _).
Qed.

Lemma check_service_ports_None (s : Scheduler.t) (ports : list ServicePort.t) :
  scheduler.check_service_ports s ports = None ->
  forall id svc existingPort newPort,
    Scheduler.services s !! id = Some svc ->
    existingPort ∈ ServiceSpec.Ports (Service.Spec svc) ->
    newPort ∈ ports ->
    ServicePort.Port existingPort <> ServicePort.Port newPort.
Proof.
  unfold scheduler.check_service_ports. intros Hc id svc e n Hsvc He Hn Heq.
  rewrite first_error_None in Hc.
  specialize (Hc (id, svc) (proj2 (elem_of_range _ _ _) Hsvc)). cbn [snd] in Hc.
  rewrite first_error_None in Hc.
  specialize (Hc e He). rewrite first_error_None in Hc. specialize (Hc n Hn).
  simpl in Hc. by rewrite (proj2 (Z.eqb_eq _ _) Heq) in Hc.
Qed.

(** X8. The external ports of the registered services never clash:
    that every port mapping of every service is in [1..65535], that no
    service has an external port twice and that no two services have an
    external port in common holds of the empty registry and is kept by
    every method that changes the registry. *)
Theorem X8_service_ports_disjoint_invariant :
  service_ports_disjoint scheduler.NewScheduler /\
  (forall s spec (h : Host W),
     service_ports_disjoint s ->
     service_ports_disjoint (scheduler.CreateDeployment s spec h).1.2) /\
  (forall s name (h : Host W),
     service_ports_disjoint s ->
     service_ports_disjoint (scheduler.DeleteDeployment s name h).1.2) /\
  (forall s spec (h : Host W),
     service_ports_disjoint s ->
     service_ports_disjoint (scheduler.CreateService s spec h).1.2) /\
  (forall s name,
     service_ports_disjoint s -> service_ports_disjoint (scheduler.DeleteService s name).2).
Proof.
  apply registry_induction.
  - split.
    + intros ? ? Hd; cbn in Hd; by rewrite lookup_empty in Hd.
    + intros ? ? ? ? ? ? Hd; cbn in Hd; by rewrite lookup_empty in Hd.
  - by intros s s' spec h h' d Hp (_ & _ & _ & _ & _ & -> & _)%CreateDeployment_Ok.
  - by intros s id d Hp _.
  - intros s s' spec h h' svc [Hp1 Hp2] (_ & Hv & _ & _ & Hspec & ->)%CreateService_Ok.
    unfold scheduler.validatePortConflicts in Hv.
    destruct (scheduler.check_own_ports ∅ _) eqn:Hown; [done|].
    destruct (scheduler.check_service_ports s _) eqn:Hsvc; [done|].
    apply check_own_ports_None in Hown.
    pose proof (check_service_ports_None _ _ Hsvc) as Hother.
    split; cbn [Scheduler.services].
    + intros id1 svc1 [[<- <-]|[Hne1 H1]]%lookup_insert_Some; [|by eapply Hp1].
      by rewrite Hspec.
    + intros id1 id2 svc1 svc2 port1 port2
        [[<- <-]|[Hne1 H1]]%lookup_insert_Some [[<- <-]|[Hne2 H2]]%lookup_insert_Some Hne;
        [done|..].
      * rewrite Hspec. intros Hin1 Hin2 Heq. by apply (Hother _ _ _ _ H2 Hin2 Hin1).
      * rewrite Hspec. intros Hin1 Hin2. by apply (Hother _ _ _ _ H1 Hin1 Hin2).
      * by apply (Hp2 id1 id2).
  - intros s id svc [Hp1 Hp2] _. split; cbn [Scheduler.services].
    + intros id1 svc1 [_ H1]%lookup_delete_Some. by eapply Hp1.
    + intros id1 id2 svc1 svc2 port1 port2 [_ H1]%lookup_delete_Some [_ H2]%lookup_delete_Some.
      by apply Hp2.
Qed.

(** X9. [DeleteService] in a registry with unique names: a service
    registered under a non-empty ID is removed, and [GetService] does
    not find its name afterwards; a name that no service has is an
    error and leaves the registry alone; and a service registered under
    the empty ID is reported as not found, and stays, although
    [GetService] finds it. *)
Theorem X9_DeleteService_by_name (s : Scheduler.t) :
  names_unique s ->
  (forall id svc,
     Scheduler.services s !! id = Some svc -> id <> EmptyString ->
     let s' := Scheduler.mk (Scheduler.deployments s) (delete id (Scheduler.services s)) in
     scheduler.DeleteService s (Service.Name svc) = (None, s') /\
     scheduler.GetService s' (Service.Name svc)
       = Err (ErrServiceNotFound (Service.Name svc))) /\
  (forall name,
     (forall id svc, Scheduler.services s !! id = Some svc -> Service.Name svc <> name) ->
     scheduler.DeleteService s name = (Some (ErrServiceNotFound name), s)) /\
  (forall svc,
     Scheduler.services s !! EmptyString = Some svc ->
     scheduler.DeleteService s (Service.Name svc)
       = (Some (ErrServiceNotFound (Service.Name svc)), s) /\
     scheduler.GetService s (Service.Name svc) = Ok svc).
Proof.
  intros Hu. split; [|split].
  - intros id svc Hsvc Hid s'. unfold scheduler.DeleteService.
    rewrite (service_named_unique s _ id svc Hu Hsvc eq_refl).
    rewrite bool_decide_eq_false_2 by done. split; [done|].
    unfold scheduler.GetService.
    destruct (scheduler.service_named _ s') as [[id' svc']|] eqn:E'; [|done].
    apply service_named_Some in E' as [Hd' Hn']. cbn [s' Scheduler.services] in Hd'.
    apply lookup_delete_Some in Hd' as [Hne Hd'].
    destruct Hu as [_ Hu]. destruct Hne. by apply (Hu id id' svc svc').
  - intros name Hnone. unfold scheduler.DeleteService.
    rewrite (proj2 (service_named_None s name) Hnone).
    by rewrite bool_decide_eq_true_2.
  - intros svc Hsvc. unfold scheduler.DeleteService, scheduler.GetService.
    rewrite (service_named_unique s _ EmptyString svc Hu Hsvc eq_refl).
    by rewrite bool_decide_eq_true_2.
Qed.

(** X10. [ListDeployments] and [ListServices] follow the registry: each
    lists as many objects as are registered; after a creation under an
    ID that was free the listing is the new object and, up to order,
    what was listed before; and after a deletion it is what was listed
    before without one object, which has the deleted name. *)
Theorem X10_listings_follow_registry :
  (forall s : Scheduler.t,
     length (scheduler.ListDeployments s) = size (Scheduler.deployments s) /\
     length (scheduler.ListServices s) = size (Scheduler.services s)) /\
  (forall (s s' : Scheduler.t) (spec : DeploymentSpec.t) (h h' : Host W) (d : Deployment.t),
     scheduler.CreateDeployment s spec h = (Ok d, s', h') ->
     Scheduler.deployments s !! Deployment.ID d = None ->
     scheduler.ListDeployments s' ≡ₚ d :: scheduler.ListDeployments s) /\
  (forall (s s' : Scheduler.t) (name : string) (h h' : Host W),
     scheduler.DeleteDeployment s name h = (None, s', h') ->
     exists d, Deployment.Name d = name /\
       scheduler.ListDeployments s ≡ₚ d :: scheduler.ListDeployments s') /\
  (forall (s s' : Scheduler.t) (spec : ServiceSpec.t) (h h' : Host W) (svc : Service.t),
     scheduler.CreateService s spec h = (Ok svc, s', h') ->
     Scheduler.services s !! Service.ID svc = None ->
     scheduler.ListServices s' ≡ₚ svc :: scheduler.ListServices s) /\
  (forall (s s' : Scheduler.t) (name : string),
     scheduler.DeleteService s name = (None, s') ->
     exists svc, Service.Name svc = name /\
       scheduler.ListServices s ≡ₚ svc :: scheduler.ListServices s').
Proof.
  split; [|split; [|split; [|split]]].
  - intros s. unfold scheduler.ListDeployments, scheduler.ListServices.
    rewrite !length_fmap, !range_perm, !length_map_to_list. done.
  - intros s s' spec h h' d (_ & _ & _ & _ & _ & -> & _)%CreateDeployment_Ok Hfree.
    unfold scheduler.ListDeployments. cbn [Scheduler.deployments].
    rewrite !range_perm. by rewrite map_to_list_insert.
  - intros s s' name h h'. unfold scheduler.DeleteDeployment.
    destruct (scheduler.deployment_named name s) as [[id d]|] eqn:E; [|by unfold ret].
    apply deployment_named_Some in E as [Hd Hn].
    unfold bind.
    destruct (scheduler.cleanupDeployment (Deployment.Replicas d) h) as [e h1] eqn:EK.
    apply cleanupDeployment_run in EK as (-> & _). unfold ret. intros [= <- <-].
    exists d. split; [done|].
    unfold scheduler.ListDeployments. cbn [Scheduler.deployments].
    rewrite !range_perm. by rewrite <- (map_to_list_delete _ _ _ Hd).
  - intros s s' spec h h' svc (_ & _ & _ & _ & _ & ->)%CreateService_Ok Hfree.
    unfold scheduler.ListServices. cbn [Scheduler.services].
    rewrite !range_perm. by rewrite map_to_list_insert.
  - intros s s' name. unfold scheduler.DeleteService.
    destruct (scheduler.service_named name s) as [[id svc]|] eqn:E.
    + apply service_named_Some in E as [Hd Hn].
      case_bool_decide; [done|]. intros [= <-].
      exists svc. split; [done|].
      unfold scheduler.ListServices. cbn [Scheduler.services].
      rewrite !range_perm. by rewrite <- (map_to_list_delete _ _ _ Hd).
    + by rewrite bool_decide_eq_true_2.
Qed.

End RegistryExtras.

Section RoundTripExtras.
Context {MR : MapRange} {W : Type} {OW : Outside W}.
Local Open Scope go_scope.

Lemma service_named_created
    (s s' : Scheduler.t) (spec : ServiceSpec.t) (h h' : Host W) (svc : Service.t) :
  scheduler.CreateService s spec h = (Ok svc, s', h') ->
  scheduler.service_named (ServiceSpec.Name spec) s' = Some (Service.ID svc, svc).
Proof.
  intros (Hfresh & _ & _ & Hname & _ & ->)%CreateService_Ok.
  destruct (scheduler.service_named _ (Scheduler.mk _ _)) as [[id' d']|] eqn:E.
  - apply service_named_Some in E as [Hd' Hn']. cbn [Scheduler.services] in Hd'.
    apply lookup_insert_Some in Hd' as [[<- <-]|[_ Hd']]; [done|].
    rewrite service_named_None in Hfresh. by destruct (Hfresh id' d').
  - rewrite service_named_None in E.
    destruct (E (Service.ID svc) svc); [|done]. cbn. by rewrite lookup_insert_eq.
Qed.

(** X11. Deleting what was just created restores the registry. After a
    successful [CreateDeployment] under an ID that was free,
    [DeleteDeployment] of the name succeeds, after a stop and a remove of
    each replica, and leaves the registry the creation started from; and
    so does [DeleteService] after a successful [CreateService]. *)
Theorem X11_create_then_delete :
  (forall (s s' : Scheduler.t) (spec : DeploymentSpec.t) (h h' h2 : Host W) (d : Deployment.t),
     scheduler.CreateDeployment s spec h = (Ok d, s', h') ->
     Scheduler.deployments s !! Deployment.ID d = None ->
     exists h3,
       scheduler.DeleteDeployment s' (DeploymentSpec.Name spec) h2 = (None, s, h3) /\
       ev_call <$> new_events h2 h3 = stop_remove_calls (Deployment.Replicas d)) /\
  (forall (s s' : Scheduler.t) (spec : ServiceSpec.t) (h h' : Host W) (svc : Service.t),
     scheduler.CreateService s spec h = (Ok svc, s', h') ->
     Scheduler.services s !! Service.ID svc = None ->
     scheduler.DeleteService s' (ServiceSpec.Name spec) = (None, s)).
Proof.
  split.
  - intros s s' spec h h' h2 d Hrun Hfree.
    pose proof (deployment_named_created _ _ _ _ _ _ Hrun) as Hnamed.
    apply CreateDeployment_Ok in Hrun as (_ & _ & _ & _ & _ & -> & _).
    unfold scheduler.DeleteDeployment. rewrite Hnamed. unfold bind.
    destruct (scheduler.cleanupDeployment (Deployment.Replicas d) h2) as [e h3] eqn:EK.
    apply cleanupDeployment_run in EK as (-> & evs & Ht & Hev).
    exists h3. unfold ret. cbn [Scheduler.deployments Scheduler.services].
    rewrite delete_insert_id by done. destruct s. split; [done|].
    by rewrite (new_events_app h2 h3 evs).
  - intros s s' spec h h' svc Hrun Hfree.
    pose proof (service_named_created _ _ _ _ _ _ Hrun) as Hnamed.
    apply CreateService_Ok in Hrun as (_ & _ & [now Hid] & _ & _ & ->).
    unfold scheduler.DeleteService. rewrite Hnamed.
    rewrite bool_decide_eq_false_2 by (rewrite Hid; apply Itoa_nonempty).
    cbn [Scheduler.deployments Scheduler.services].
    rewrite delete_insert_id by done. by destruct s.
Qed.

End RoundTripExtras.

(* ===================================================================== *)
(** ** More on port striping and replica names                           *)
(* ===================================================================== *)

Section StripingExtras.
Context {MR : MapRange} {W : Type} {OW : Outside W}.
Local Open Scope go_scope.

(** [Itoa] gives different numbers different strings. *)
Lemma Itoa_inj (a b : Z) : strconv.Itoa a = strconv.Itoa b -> a = b.
Proof.
  unfold strconv.Itoa. intros E.
  assert (Hnn : forall z, Z.to_int z <> Decimal.Pos Decimal.Nil /\
                          Z.to_int z <> Decimal.Neg Decimal.Nil).
  { intros [|p|p]; cbn; split; try discriminate; intros [= Hp];
      by apply (Unsigned.to_uint_nonnil p). }
  assert (Hi : Z.to_int a = Z.to_int b).
  { pose proof (NilZero.isi (Z.to_int a) (proj1 (Hnn a)) (proj2 (Hnn a))) as Ha.
    pose proof (NilZero.isi (Z.to_int b) (proj1 (Hnn b)) (proj2 (Hnn b))) as Hb.
    rewrite E in Ha. congruence. }
  destruct a as [|p|p], b as [|q|q]; cbn in Hi; try discriminate; try done.
  - injection Hi as Hi. symmetry in Hi. by destruct (Unsigned.to_uint_nonzero q).
  - injection Hi as Hi. by destruct (Unsigned.to_uint_nonzero p).
  - injection Hi as Hi. by apply Unsigned.to_uint_inj in Hi as ->.
  - injection Hi as Hi. by apply Unsigned.to_uint_inj in Hi as ->.
Qed.

Lemma wrap_range (z : Z) : goint.MinInt <= goint.wrap z <= goint.MaxInt.
Proof.
  unfold goint.wrap, goint.MinInt, goint.MaxInt.
  pose proof (Z.mod_pos_bound (z + 2 ^ 63) (2 ^ 64) ltac:(lia)). lia.
Qed.

(** Go's addition is injective in its second argument as long as the
    arguments are less than [2^64] apart. *)
Lemma add_inj (m i j : Z) :
  goint.add m i = goint.add m j -> - 2 ^ 64 < i - j < 2 ^ 64 -> i = j.
Proof.
  unfold goint.add, goint.wrap. intros E Hd.
  assert (E' : (m + i + 2 ^ 63) mod 2 ^ 64 = (m + j + 2 ^ 63) mod 2 ^ 64) by lia.
  pose proof (Z.div_mod (m + i + 2 ^ 63) (2 ^ 64) ltac:(lia)) as Hi.
  pose proof (Z.div_mod (m + j + 2 ^ 63) (2 ^ 64) ltac:(lia)) as Hj.
  rewrite E' in Hi.
  set (qi := (m + i + 2 ^ 63) / 2 ^ 64) in *. set (qj := (m + j + 2 ^ 63) / 2 ^ 64) in *.
  set (r := (m + j + 2 ^ 63) mod 2 ^ 64) in *.
  assert (i - j = 2 ^ 64 * (qi - qj)) by lia.
  assert (qi - qj = 0) by nia. lia.
Qed.


(** The replicas of a deployment that [CreateDeployment] returned. *)
Lemma CreateDeployment_replicas_from
    (s s' : Scheduler.t) (spec : DeploymentSpec.t) (h h' : Host W) (d : Deployment.t) :
  scheduler.CreateDeployment s spec h = (Ok d, s', h') ->
  replicas_from spec 0 (Deployment.Replicas d) /\
  length (Deployment.Replicas d) = Z.to_nat (DeploymentSpec.Replicas spec).
Proof.
  intros (_ & Hpos & _ & _ & _ & _ & h1 & Ht & Hloop)%CreateDeployment_Ok.
  apply create_replicas_run in Hloop as (new & Hnew & Hrs & Hlen & Htr).
  simpl in Hrs. by subst new.
Qed.

(** The host port a replica binds for a container port is the striped
    one. *)
Lemma replica_bound_port (spec : DeploymentSpec.t) (i : Z) (c : Container.t)
    (bound : gmap string string) (p hostPort : string) :
  is_replica spec i c ->
  Container.Ports c = Some bound -> bound !! p = Some hostPort ->
  exists ports base,
    ContainerSpec.Ports (DeploymentSpec.Container spec) = Some ports /\
    ports !! p = Some base /\
    hostPort = strconv.Itoa (goint.add (scheduler.mustParseInt base) i).
Proof.
  intros (_ & _ & _ & Hports) Hb Hp. rewrite Hb in Hports.
  unfold scheduler.replica_spec in Hports. cbn [ContainerSpec.Ports] in Hports.
  destruct (ContainerSpec.Ports (DeploymentSpec.Container spec)) as [ports|]; [|done].
  injection Hports as ->. rewrite stripe_lookup in Hp.
  destruct (ports !! p) as [base|] eqn:E; [|done]. injection Hp as <-.
  by exists ports, base.
Qed.

(** X12. Two replicas of a deployment that [CreateDeployment] returned
    never bind the same host port for the same container port: the base
    port plus the index is a different port for each index, also where
    the sum wraps around. *)
Theorem X12_replicas_bind_distinct_host_ports
    (s s' : Scheduler.t) (spec : DeploymentSpec.t) (h h' : Host W) (d : Deployment.t)
    (i j : nat) (ci cj : Container.t) (bi bj : gmap string string) (p hi hj : string) :
  scheduler.CreateDeployment s spec h = (Ok d, s', h') ->
  DeploymentSpec.Replicas spec <= goint.MaxInt ->
  Deployment.Replicas d !! i = Some ci -> Deployment.Replicas d !! j = Some cj ->
  i <> j ->
  Container.Ports ci = Some bi -> Container.Ports cj = Some bj ->
  bi !! p = Some hi -> bj !! p = Some hj ->
  hi <> hj.
Proof.
  intros [Hfrom Hlen]%CreateDeployment_replicas_from Hmax Hi Hj Hne Hbi Hbj Hpi Hpj.
  pose proof (lookup_lt_Some _ _ _ Hi) as Hli.
  pose proof (lookup_lt_Some _ _ _ Hj) as Hlj.
  pose proof (replicas_from_lookup _ _ _ _ _ Hfrom Hi) as Hri.
  pose proof (replicas_from_lookup _ _ _ _ _ Hfrom Hj) as Hrj.
  destruct (replica_bound_port _ _ _ _ _ _ Hri Hbi Hpi) as (ports & base & Hports & Hbase & ->).
  destruct (replica_bound_port _ _ _ _ _ _ Hrj Hbj Hpj) as (ports' & base' & Hports' & Hbase' & ->).
  assert (ports' = ports) as -> by congruence.
  assert (base' = base) as -> by congruence.
  intros E%Itoa_inj%add_inj; [lia|].
  unfold goint.MaxInt in Hmax. lia.
Qed.

(** X13. Striping keeps the replicas apart for one container port only.
    When the template gives two container ports the bases [b] and
    [b + k], with [k] below the replica count, the request for replica
    [k] binds for the first port the host port that the request for
    replica [0] binds for the second. *)
Theorem X13_striping_collides_across_ports
    (spec : DeploymentSpec.t) (ports : gmap string string) (p q : string) (b k : Z) :
  ContainerSpec.Ports (DeploymentSpec.Container spec) = Some ports ->
  ports !! p = Some (strconv.Itoa b) ->
  ports !! q = Some (strconv.Itoa (b + k)) ->
  0 < k < DeploymentSpec.Replicas spec ->
  goint.MinInt <= b -> b + k <= goint.MaxInt ->
  exists bound0 boundk,
    ContainerSpec.Ports (scheduler.replica_spec spec 0) = Some bound0 /\
    ContainerSpec.Ports (scheduler.replica_spec spec k) = Some boundk /\
    boundk !! p = Some (strconv.Itoa (b + k)) /\
    bound0 !! q = Some (strconv.Itoa (b + k)).
Proof.
  intros Hports Hp Hq Hk Hlo Hhi.
  unfold scheduler.replica_spec. cbn [ContainerSpec.Ports]. rewrite Hports.
  eexists _, _. split; [done|]. split; [done|].
  rewrite !stripe_lookup, Hp, Hq. cbn [fmap option_fmap option_map].
  unfold fmt.Sprintf_d, goint.add.
  rewrite !mustParseInt_Itoa by lia. rewrite !wrap_in_range by lia.
  split; [done|]. by rewrite Z.add_0_r.
Qed.


Lemma all_digits_no_dash (a b : string) : bytes.all_digits (a +:+ String "-" b) = false.
Proof.
  induction a as [|c a IH]; [done|]. rewrite append_String. cbn [bytes.all_digits].
  rewrite IH. apply andb_false_r.
Qed.

(** A name, a dash and digits: the name and the digits can be read
    back. *)
Lemma dash_digits_inj (n1 n2 d1 d2 : string) :
  bytes.all_digits d1 = true -> bytes.all_digits d2 = true ->
  n1 +:+ String "-" d1 = n2 +:+ String "-" d2 -> n1 = n2 /\ d1 = d2.
Proof.
  intros H1 H2. revert n2. induction n1 as [|c n1 IH]; intros [|c2 n2];
    rewrite ?append_String, ?append_EmptyString.
  - by intros [= ->].
  - intros [= <- ->]. by rewrite all_digits_no_dash in H1.
  - intros [= -> <-]. by rewrite all_digits_no_dash in H2.
  - intros [= -> E]. by destruct (IH _ E) as [-> ->].
Qed.

Lemma Sprintf_s_dash_d_inj (n1 n2 : string) (i j : Z) :
  0 <= i -> 0 <= j ->
  fmt.Sprintf_s_dash_d n1 i = fmt.Sprintf_s_dash_d n2 j -> n1 = n2 /\ i = j.
Proof.
  intros Hi Hj E. unfold fmt.Sprintf_s_dash_d in E.
  apply dash_digits_inj in E as [-> E]; [|by apply Itoa_all_digits..].
  by apply Itoa_inj in E.
Qed.

(** X14. No two replicas in the registry have the same container name:
    in a registry as the scheduler builds it, two replicas with the same
    name are the same replica of the same deployment. *)
Theorem X14_replica_names_distinct
    (s : Scheduler.t) (id1 id2 : string) (d1 d2 : Deployment.t)
    (i j : nat) (c1 c2 : Container.t) :
  names_unique s -> labels_ok s -> registry_ok s ->
  Scheduler.deployments s !! id1 = Some d1 -> Scheduler.deployments s !! id2 = Some d2 ->
  Deployment.Replicas d1 !! i = Some c1 -> Deployment.Replicas d2 !! j = Some c2 ->
  Container.Name c1 = Container.Name c2 ->
  id1 = id2 /\ i = j.
Proof.
  intros [Hu _] [Hl _] Hok Hd1 Hd2 Hc1 Hc2 Hname.
  pose proof (replicas_from_lookup _ _ _ _ _ (Hok _ _ Hd1) Hc1) as (Hn1 & _).
  pose proof (replicas_from_lookup _ _ _ _ _ (Hok _ _ Hd2) Hc2) as (Hn2 & _).
  rewrite Hn1, Hn2 in Hname.
  apply Sprintf_s_dash_d_inj in Hname as [Hn Hij]; [|lia..].
  split; [|lia]. apply (Hu id1 id2 d1 d2 Hd1 Hd2).
  destruct (Hl _ _ Hd1) as (_ & _ & ->). destruct (Hl _ _ Hd2) as (_ & _ & ->). done.
Qed.


(** X15. A host port that a new deployment has striped for one of its
    replicas is refused to every service asked for afterwards:
    [CreateService] with that external port returns an error, of the
    kind for a name in use or for a validation failure, and leaves the
    registry alone. *)
Theorem X15_striped_port_refused_to_services
    (s s' : Scheduler.t) (spec : DeploymentSpec.t) (h h' h2 : Host W) (d : Deployment.t)
    (ports : gmap string string) (p base : string) (i : Z)
    (service : ServiceSpec.t) (newPort : ServicePort.t) :
  registry_ok s ->
  scheduler.CreateDeployment s spec h = (Ok d, s', h') ->
  ContainerSpec.Ports (DeploymentSpec.Container spec) = Some ports ->
  ports !! p = Some base ->
  0 <= i < DeploymentSpec.Replicas spec ->
  newPort ∈ ServiceSpec.Ports service ->
  ServicePort.Port newPort = goint.add (scheduler.mustParseInt base) i ->
  exists e, scheduler.CreateService s' service h2 = (Err e, s', h2) /\
    (kind_of e = AlreadyExists \/ kind_of e = ValidationError).
Proof.
  intros Hok Hrun Hports Hbase Hi Hin Hport.
  assert (Hok' : registry_ok s').
  { pose proof (proj1 (proj2 registry_ok_invariant) s spec h Hok) as H'.
    by rewrite Hrun in H'. }
  pose proof (CreateDeployment_replicas_from _ _ _ _ _ _ Hrun) as [Hfrom Hlen].
  destruct (replica_name_and_port spec _ i Hlen Hfrom Hi) as (c & Hc & _ & Hbound).
  destruct (Hbound _ _ _ Hports Hbase) as (bound & Hcb & Hbp).
  apply CreateDeployment_Ok in Hrun as (_ & _ & _ & _ & _ & Hs' & _).
  assert (Hd : Scheduler.deployments s' !! Deployment.ID d = Some d).
  { rewrite Hs'. cbn [Scheduler.deployments]. apply lookup_insert_eq. }
  assert (Hconf : is_Some (scheduler.check_deployment_ports s' (ServiceSpec.Ports service))).
  { apply (check_deployment_ports_is_Some s' _ _ d c p newPort Hok' Hd).
    - by eapply list_elem_of_lookup_2.
    - apply elem_of_bound_host_ports. exists bound, (strconv.Itoa (ServicePort.Port newPort)).
      split; [done|]. split; [by rewrite Hport|].
      apply Atoi_Itoa. rewrite Hport. apply wrap_range.
    - done. }
  pose proof (CreateService_run s' service h2) as Hcs.
  destruct (scheduler.service_named _ s').
  { eexists. split; [exact Hcs|]. by left. }
  unfold scheduler.validatePortConflicts in Hcs.
  destruct (scheduler.check_own_ports ∅ _) as [e|].
  { eexists. split; [exact Hcs|]. by right. }
  destruct (scheduler.check_service_ports s' _) as [e|].
  { eexists. split; [exact Hcs|]. by right. }
  destruct Hconf as [e He]. rewrite He in Hcs.
  eexists. split; [exact Hcs|]. by right.
Qed.

(** X16. [mustParseInt] reads the integer a string starts with and
    ignores what follows it: for the decimal form of an [int] followed
    by anything that does not start with a digit, as in a base port
    written [8080/tcp], the result is that [int]. *)
Theorem X16_mustParseInt_leading_integer (n : Z) (rest : string) :
  goint.MinInt <= n <= goint.MaxInt ->
  match rest with String c _ => bytes.is_digit c = false | EmptyString => True end ->
  scheduler.mustParseInt (strconv.Itoa n +:+ rest) = n.
Proof.
  intros Hn Hrest. unfold scheduler.mustParseInt, fmt.Sscanf_d.
  by rewrite scanInt_Itoa_rest.
Qed.

End StripingExtras.

(* ===================================================================== *)
(** ** More on the handlers                                              *)
(* ===================================================================== *)

Section HandlerExtras.
Context {MR : MapRange} {W : Type} {OW : Outside W}.
Local Open Scope go_scope.

(** X17. [deleteDeploymentHandler], with one request served at a time,
    never answers [500]: it answers [404] and changes nothing when no
    deployment has the name, and otherwise it answers with a deployment
    of that name, which is the one it removed from the registry after a
    stop and a remove of each of its replicas, whatever those calls
    returned. *)
Theorem X17_deleteDeploymentHandler_answers (s : Scheduler.t) (name : string) (h : Host W) :
  ((forall id d, Scheduler.deployments s !! id = Some d -> Deployment.Name d <> name) /\
   handlers.deleteDeploymentHandler s name h
     = (handlers.HttpError handlers.StatusNotFound_code, s, h)) \/
  (exists id d h',
     Scheduler.deployments s !! id = Some d /\ Deployment.Name d = name /\
     handlers.deleteDeploymentHandler s name h
       = (handlers.Body d,
          Scheduler.mk (delete id (Scheduler.deployments s)) (Scheduler.services s), h') /\
     ev_call <$> new_events h h' = stop_remove_calls (Deployment.Replicas d)).
Proof.
  unfold handlers.deleteDeploymentHandler, scheduler.GetDeployment, scheduler.DeleteDeployment.
  destruct (scheduler.deployment_named name s) as [[id d]|] eqn:E.
  - right. apply deployment_named_Some in E as [Hd Hn].
    unfold bind.
    destruct (scheduler.cleanupDeployment (Deployment.Replicas d) h) as [e h1] eqn:EK.
    apply cleanupDeployment_run in EK as (-> & evs & Ht & Hev).
    exists id, d, h1. unfold ret. repeat split; try done.
    by rewrite (new_events_app h h1 evs).
  - left. split; [by apply deployment_named_None|done].
Qed.

(** X18. [deleteServiceHandler] in a registry as the scheduler builds
    it never answers [500] either: it answers [404] and changes nothing
    when no service has the name, and otherwise it answers with the
    service of that name and removes it from the registry. *)
Theorem X18_deleteServiceHandler_answers (s : Scheduler.t) (name : string) :
  labels_ok s ->
  ((forall id svc, Scheduler.services s !! id = Some svc -> Service.Name svc <> name) /\
   handlers.deleteServiceHandler s name
     = (handlers.HttpError handlers.StatusNotFound_code, s)) \/
  (exists id svc,
     Scheduler.services s !! id = Some svc /\ Service.Name svc = name /\
     handlers.deleteServiceHandler s name
       = (handlers.Body svc,
          Scheduler.mk (Scheduler.deployments s) (delete id (Scheduler.services s)))).
Proof.
  intros [_ Hl].
  unfold handlers.deleteServiceHandler, scheduler.GetService, scheduler.DeleteService.
  destruct (scheduler.service_named name s) as [[id svc]|] eqn:E.
  - right. apply service_named_Some in E as [Hd Hn].
    destruct (Hl _ _ Hd) as (_ & Hid & _).
    exists id, svc. by rewrite bool_decide_eq_false_2.
  - left. split; [by apply service_named_None|done].
Qed.

(** The replica loop does not panic: the method panics only in
    [make]. *)
Lemma CreateDeployment_no_panic (s s' : Scheduler.t) (spec : DeploymentSpec.t)
    (h h' : Host W) (p : PanicValue) :
  0 <= DeploymentSpec.Replicas spec ->
  runtime.PtrSize * DeploymentSpec.Replicas spec <= runtime.maxAlloc ->
  scheduler.CreateDeployment s spec h <> (Panic p, s', h').
Proof.
  intros Hpos Hcap%(conj Hpos)%makeslice_panics_false Hrun.
  destruct (scheduler.deployment_named (DeploymentSpec.Name spec) s) as [x|] eqn:Hn.
  - unfold scheduler.CreateDeployment in Hrun. by rewrite Hn in Hrun.
  - destruct (CreateDeployment_fresh _ _ _ _ _ _ Hn Hcap Hrun)
      as (id & created & h1 & rl & Ht & Hloop & Hres).
    apply create_replicas_run in Hloop as (new & Hnew & Hr).
    destruct rl as [replicas|e|p']; [by destruct Hres|by destruct Hres|done].
Qed.

(** X19. [createDeploymentHandler] always writes a response: the panic
    of [CreateDeployment] on a replica count that [make] refuses cannot
    be reached through it. The answer is [400], with the registry and the
    daemon untouched, exactly when the request fails the input checks; on [200]
    the replica count is between 1 and 100 and the deployment in the body
    is the one [GetDeployment] then returns for the name; on any other
    answer the registry is unchanged. *)
Theorem X19_createDeploymentHandler_responds
    (s : Scheduler.t) (spec : DeploymentSpec.t) (h : Host W) :
  exists status body s' h',
    handlers.createDeploymentHandler s spec h = (Some status, body, s', h') /\
    (status = handlers.StatusBadRequest <-> handlers.deployment_input_ok spec = false) /\
    (status = handlers.StatusBadRequest -> s' = s /\ h' = h) /\
    (status = handlers.StatusOK ->
       1 <= DeploymentSpec.Replicas spec <= 100 /\
       exists d, body = Some d /\
         scheduler.GetDeployment s' (DeploymentSpec.Name spec) = Ok d) /\
    (status <> handlers.StatusOK -> s' = s).
Proof.
  unfold handlers.createDeploymentHandler.
  destruct (handlers.deployment_input_ok spec) eqn:Hin.
  - assert (Hr : 1 <= DeploymentSpec.Replicas spec <= 100).
    { unfold handlers.deployment_input_ok in Hin.
      destruct (bool_decide (DeploymentSpec.Name spec = EmptyString)); [done|].
      destruct (Z.ltb_spec (DeploymentSpec.Replicas spec) 1); [done|].
      destruct (Z.ltb_spec 100 (DeploymentSpec.Replicas spec)); [done|]. lia. }
    unfold bind.
    destruct (scheduler.CreateDeployment s spec h) as [[r s'] h'] eqn:Hrun.
    destruct r as [d|e|p].
    + exists handlers.StatusOK, (Some d), s', h'. unfold ret.
      split; [done|]. split; [by split|]. split; [done|]. split; [|done].
      intros _. split; [done|]. exists d. split; [done|]. unfold scheduler.GetDeployment.
      by rewrite (deployment_named_created _ _ _ _ _ _ Hrun).
    + exists handlers.StatusInternalServerError, None, s', h'. unfold ret.
      split; [done|]. split; [by split|]. split; [done|]. split; [done|].
      intros _. by apply (CreateDeployment_not_Ok _ _ _ _ _ _ Hrun).
    + by destruct (CreateDeployment_no_panic s s' spec h h' p ltac:(lia)
                     ltac:(unfold runtime.PtrSize, runtime.maxAlloc; lia)).
  - exists handlers.StatusBadRequest, None, s, h. unfold ret.
    split; [done|]. split; [by split|]. split; [done|]. split; done.
Qed.


(** On mappings that are in range the first loop of
    [validatePortConflicts] can only find a repeated external port. *)
Lemma check_own_ports_in_range (ports : list ServicePort.t) :
  forall (used : gset Z) (e : Error),
  Forall (fun port => mapping_in_range port = true) ports ->
  scheduler.check_own_ports used ports = Some e ->
  exists port, e = ErrPortInUseSameService port.
Proof.
  induction ports as [|port rest IH]; intros used e Hf; [done|].
  apply Forall_cons in Hf as [Hr Hf]. rewrite mapping_in_range_code in Hr.
  apply andb_true_iff in Hr as [H1%negb_true_iff H2%negb_true_iff].
  cbn [scheduler.check_own_ports]. rewrite H1, H2.
  case_bool_decide; [intros [= <-]; by eexists|]. by apply IH.
Qed.

(** X20. Behind [createServiceHandler] the range checks of
    [validatePortConflicts] never fire: for a spec that passes the input
    checks of the handler, an error of [CreateService] is that of a name
    in use or of a port in use, by the spec itself, by a service or by a
    deployment, and the registry is unchanged. *)
Theorem X20_validated_service_errors
    (s s' : Scheduler.t) (spec : ServiceSpec.t) (h h' : Host W) (e : Error) :
  handlers.service_input_ok spec = true ->
  scheduler.CreateService s spec h = (Err e, s', h') ->
  s' = s /\
  (e = ErrServiceExists (ServiceSpec.Name spec) \/
   exists port,
     e = ErrPortConflict (ErrPortInUseSameService port) \/
     (exists service, e = ErrPortConflict (ErrPortInUseByService port service)) \/
     (exists deployment containerPort,
        e = ErrPortConflict (ErrPortInUseByDeployment port deployment containerPort))).
Proof.
  intros Hin Hrun.
  split; [by apply (CreateService_not_Ok _ _ _ _ _ _ Hrun)|].
  assert (Hf : Forall (fun port => mapping_in_range port = true) (ServiceSpec.Ports spec)).
  { unfold handlers.service_input_ok in Hin.
    destruct (bool_decide (ServiceSpec.Name spec = EmptyString)); [done|].
    destruct (bool_decide (ServiceSpec.Type_ spec = EmptyString)); [done|].
    destruct (negb _); [done|].
    destruct (bool_decide (ServiceSpec.Ports spec = [])); [done|].
    rewrite handler_range_check in Hin. apply Forall_forall. intros port Hp.
    rewrite forallb_forall in Hin. by apply Hin, list_elem_of_In. }
  pose proof (CreateService_run s spec h) as Hcs.
  destruct (scheduler.service_named _ s); [left; congruence|]. right.
  unfold scheduler.validatePortConflicts in Hcs.
  destruct (scheduler.check_own_ports ∅ _) as [e1|] eqn:E1.
  { destruct (check_own_ports_in_range _ _ _ Hf E1) as [port ->].
    rewrite Hcs in Hrun. injection Hrun as <- _ _. exists port. by left. }
  pose proof (check_service_ports_spec s (ServiceSpec.Ports spec)) as Hsp.
  destruct (scheduler.check_service_ports s _) as [e2|] eqn:E2.
  { destruct Hsp as (_ & id & svc & ep & np & _ & _ & _ & _ & ->).
    rewrite Hcs in Hrun. injection Hrun as <- _ _.
    eexists. right. left. by eexists. }
  destruct (scheduler.check_deployment_ports s _) as [e3|] eqn:E3.
  { destruct (check_deployment_ports_Some _ _ _ E3) as (id & d & c & cp & np & _ & _ & _ & _ & ->).
    rewrite Hcs in Hrun. injection Hrun as <- _ _.
    eexists. right. right. by eexists _, _. }
  destruct Hcs as (id & created & h1 & Hcs & _). congruence.
Qed.


Lemma all_digits_no_separator (s : string) :
  bytes.all_digits s = true -> filepath.has_separator s = false.
Proof.
  induction s as [|c r IH]; [done|]. cbn [bytes.all_digits filepath.has_separator].
  intros [Hc Hr]%andb_true_iff. rewrite (IH Hr), orb_false_r.
  unfold bytes.is_digit in Hc. apply andb_true_iff in Hc as [Hlo%Z.leb_le _].
  apply Z.eqb_neq. lia.
Qed.

(** [Atoi] reads no string that has a slash. *)
Lemma Atoi_separator (s : string) :
  filepath.has_separator s = true -> strconv.Atoi s = None.
Proof.
  unfold strconv.Atoi, strconv.ParseInt. destruct s as [|c r]; [done|].
  destruct (bytes.is_sign c) eqn:Hs.
  - cbn [filepath.has_separator]. intros Hsep.
    assert (Hc : (bytes.code c =? 47) = false).
    { unfold bytes.is_sign in Hs. apply Z.eqb_neq.
      apply orb_true_iff in Hs as [Hs%Z.eqb_eq|Hs%Z.eqb_eq]; lia. }
    rewrite Hc in Hsep. cbn [orb] in Hsep.
    destruct r as [|c2 r2]; [done|].
    destruct (bytes.all_digits (String c2 r2)) eqn:Hd; [|done].
    apply all_digits_no_separator in Hd. congruence.
  - intros Hsep.
    destruct (bytes.all_digits (String c r)) eqn:Hd; [|done].
    apply all_digits_no_separator in Hd. congruence.
Qed.

Lemma has_separator_app (a b : string) :
  filepath.has_separator (a +:+ "/" +:+ b) = true.
Proof.
  induction a as [|c a IH]; [done|].
  rewrite append_String. cbn [filepath.has_separator]. rewrite IH. apply orb_true_r.
Qed.

(** The entries of a port map that [createContainerHandler] lets
    through: both strings are integers, between 1 and 65535. *)
Lemma port_entry_ok_spec (hostPortStr containerPortStr : string) :
  handlers.port_entry_ok hostPortStr containerPortStr = true <->
  exists hostPort containerPort,
    strconv.Atoi hostPortStr = Some hostPort /\
    strconv.Atoi containerPortStr = Some containerPort /\
    1 <= hostPort <= 65535 /\ 1 <= containerPort <= 65535.
Proof.
  unfold handlers.port_entry_ok. split.
  - case_bool_decide as Hh.
    + case_bool_decide as Hc; [done|].
      destruct (strconv.Atoi containerPortStr); done.
    + destruct (strconv.Atoi hostPortStr) as [hp|]; [|done].
      case_bool_decide as Hc.
      * destruct ((hp <? 1) || (65535 <? hp)); done.
      * destruct (strconv.Atoi containerPortStr) as [cp|]; [|done].
        destruct (Z.ltb_spec hp 1); [done|]. destruct (Z.ltb_spec 65535 hp); [done|].
        destruct (Z.ltb_spec cp 1); [done|]. destruct (Z.ltb_spec 65535 cp); [done|].
        intros _. exists hp, cp. repeat split; lia.
  - intros (hp & cp & Hh & Hc & Hhr & Hcr).
    rewrite bool_decide_eq_false_2 by (intros ->; discriminate).
    rewrite Hh. rewrite bool_decide_eq_false_2 by (intros ->; discriminate).
    rewrite Hc.
    destruct (Z.ltb_spec hp 1); [lia|]. destruct (Z.ltb_spec 65535 hp); [lia|].
    destruct (Z.ltb_spec cp 1); [lia|]. destruct (Z.ltb_spec 65535 cp); [lia|]. done.
Qed.

(** X21. The input checks of [createContainerHandler], whatever the
    order in which the port map is ranged over. A request with a name,
    an image and a port map whose every key and every value is an
    integer between 1 and 65535 goes on to [Create], and the answer is
    the container, or [500]. A request with one entry that is not of
    this form is answered [400] without a call to the manager; so is
    every request with a key that holds a slash, the form
    [port/protocol] that [Create] takes a key apart for. *)
Theorem X21_createContainerHandler_checks (spec : ContainerSpec.t) (h : Host W) :
  (ContainerSpec.Name spec <> EmptyString -> ContainerSpec.Image spec <> EmptyString ->
   (forall ports k v, ContainerSpec.Ports spec = Some ports -> ports !! k = Some v ->
      exists hostPort containerPort,
        strconv.Atoi k = Some hostPort /\ strconv.Atoi v = Some containerPort /\
        1 <= hostPort <= 65535 /\ 1 <= containerPort <= 65535) ->
   handlers.createContainerHandler spec h
   = match container.Create spec h with
     | (Ok c, h') => (handlers.Body c, h')
     | (_, h') => (handlers.HttpError handlers.StatusInternalServerError_code, h')
     end) /\
  (forall ports k v, ContainerSpec.Ports spec = Some ports -> ports !! k = Some v ->
     (forall hostPort containerPort,
        strconv.Atoi k = Some hostPort -> strconv.Atoi v = Some containerPort ->
        ~ (1 <= hostPort <= 65535 /\ 1 <= containerPort <= 65535)) ->
     handlers.createContainerHandler spec h
     = (handlers.HttpError handlers.StatusBadRequest_code, h)) /\
  (forall ports port protocol v,
     ContainerSpec.Ports spec = Some ports ->
     ports !! (port +:+ "/" +:+ protocol) = Some v ->
     handlers.createContainerHandler spec h
     = (handlers.HttpError handlers.StatusBadRequest_code, h)).
Proof.
  assert (Hbad : forall ports k v,
    ContainerSpec.Ports spec = Some ports -> ports !! k = Some v ->
    handlers.port_entry_ok k v = false ->
    handlers.createContainerHandler spec h
    = (handlers.HttpError handlers.StatusBadRequest_code, h)).
  { intros ports k v Hports Hk Hno. unfold handlers.createContainerHandler.
    case_bool_decide; [done|]. case_bool_decide; [done|].
    destruct (find _ _) as [x|] eqn:Hf; [done|].
    assert (Hb := find_none _ _ Hf (k, v)). cbn [fst snd] in Hb.
    rewrite Hno in Hb. discriminate Hb.
    apply list_elem_of_In, elem_of_items. by exists ports. }
  split; [|split].
  - intros Hname Himage Hok. unfold handlers.createContainerHandler.
    rewrite !bool_decide_eq_false_2 by done.
    destruct (find _ _) as [[k v]|] eqn:Hf.
    + apply find_some in Hf as [Hin Hb]. cbn [fst snd] in Hb.
      apply list_elem_of_In, elem_of_items in Hin as (ports & Hports & Hk).
      apply negb_true_iff in Hb.
      rewrite (proj2 (port_entry_ok_spec k v) (Hok _ _ _ Hports Hk)) in Hb. done.
    + unfold bind. destruct (container.Create spec h) as [[c|e|p] h']; done.
  - intros ports k v Hports Hk Hno. apply (Hbad ports k v Hports Hk).
    destruct (handlers.port_entry_ok k v) eqn:E; [|done].
    apply port_entry_ok_spec in E as (hp & cp & Hh & Hc & Hr).
    by destruct (Hno hp cp Hh Hc).
  - intros ports port protocol v Hports Hk. apply (Hbad ports _ v Hports Hk).
    destruct (handlers.port_entry_ok _ v) eqn:E; [|done].
    apply port_entry_ok_spec in E as (hp & cp & Hh & _).
    by rewrite (Atoi_separator _ (has_separator_app port protocol)) in Hh.
Qed.

End HandlerExtras.

(* ===================================================================== *)
(** ** The queries of the manager and the handlers that use them        *)
(* ===================================================================== *)

Section QueryExtras.
Context {MR : MapRange} {W : Type} {IW : Inspector W}.
Local Open Scope go_scope.

Lemma clamp_tail_cases (tail : Z) :
  container.clamp_tail tail
  = if tail <=? 0 then 100 else if 10000 <? tail then 10000 else tail.
Proof.
  unfold container.clamp_tail, container.maxTail.
  destruct (Z.leb_spec tail 0); [|done]. by destruct (Z.ltb_spec 10000 100); [lia|].
Qed.

Lemma tail_of_query_cases (tailStr : string) :
  handlers.tail_of_query tailStr
  = match strconv.Atoi tailStr with
    | Some n => if 0 <? n then n else 100
    | None => 100
    end.
Proof. unfold handlers.tail_of_query. case_bool_decide as He; [by subst|done]. Qed.

Lemma take_bytes_length (s : string) :
  forall n : Z, 0 <= n -> Z.of_nat (String.length (container.take_bytes n s)) <= n.
Proof.
  induction s as [|c r IH]; intros n Hn; cbn [container.take_bytes String.length]; [lia|].
  destruct (Z.leb_spec n 0); cbn [String.length]; [lia|].
  specialize (IH (n - 1)). lia.
Qed.

Lemma take_bytes_all (s : string) :
  forall n : Z, Z.of_nat (String.length s) <= n -> container.take_bytes n s = s.
Proof.
  induction s as [|c r IH]; intros n Hn; cbn [container.take_bytes String.length] in *; [done|].
  destruct (Z.leb_spec n 0); [lia|]. rewrite IH; [done|lia].
Qed.

(** X22. The logs are bounded. Whatever [tail] the query string of a
    logs request holds, the handler asks the manager, and the manager the
    daemon, for between 1 and 10000 lines: the number [Atoi] reads in
    the query when it is in that range, 100 when [Atoi] reads none or
    one that is not positive, 10000 when it reads a larger one. And what
    [LogsWithTail] returns is the first 10 MB, at most, of what the
    daemon answers to a request for between 1 and 10000 lines. *)
Theorem X22_logs_are_bounded :
  (forall tailStr : string,
     let tail := container.clamp_tail (handlers.tail_of_query tailStr) in
     1 <= tail <= 10000 /\
     (forall n, strconv.Atoi tailStr = Some n -> 1 <= n <= 10000 -> tail = n) /\
     (forall n, strconv.Atoi tailStr = Some n -> n <= 0 -> tail = 100) /\
     (forall n, strconv.Atoi tailStr = Some n -> 10000 < n -> tail = 10000) /\
     (strconv.Atoi tailStr = None -> tail = 100)) /\
  (forall (containerID : string) (tail : Z) (h h' : Host W) (logs : string),
     container.LogsWithTail containerID tail h = (inl logs, h') ->
     Z.of_nat (String.length logs) <= 10 * 1024 * 1024 /\
     exists (lines : Z) (content : string) (ending : option string) (w' : W),
       1 <= lines <= 10000 /\
       ContainerLogs containerID (strconv.Itoa lines) (world h) = (inl (content, ending), w') /\
       logs = container.take_bytes (10 * 1024 * 1024) content).
Proof.
  split.
  - intros tailStr tail. subst tail. rewrite tail_of_query_cases, clamp_tail_cases.
    destruct (strconv.Atoi tailStr) as [n|].
    + destruct (Z.ltb_spec 0 n).
      * destruct (Z.leb_spec n 0); [lia|]. destruct (Z.ltb_spec 10000 n).
        -- split; [lia|]. repeat split; intros; simplify_eq; lia.
        -- split; [lia|]. repeat split; intros; simplify_eq; lia.
      * cbn. split; [lia|]. repeat split; intros; simplify_eq; lia.
    + cbn. split; [lia|]. repeat split; intros; simplify_eq; lia.
  - intros containerID tail h h' logs. unfold container.LogsWithTail, bind, ask.
    destruct (ContainerLogs _ _ (world h)) as [[[content ending]|cause] w'] eqn:EL;
      [|by unfold ret].
    unfold ret, container.read_limited.
    change container.maxBufferSize with (10 * 1024 * 1024).
    assert (Hl : 1 <= container.clamp_tail tail <= 10000).
    { rewrite clamp_tail_cases. destruct (Z.leb_spec tail 0); [lia|].
      destruct (Z.ltb_spec 10000 tail); lia. }
    destruct (Z.leb_spec (10 * 1024 * 1024) (Z.of_nat (String.length content))) as [Hbig|Hsmall].
    + intros [= <- <-]. split; [by apply take_bytes_length|].
      by exists (container.clamp_tail tail), content, ending, w'.
    + destruct ending as [cause|]; [done|]. intros [= <- <-]. split; [lia|].
      exists (container.clamp_tail tail), content, None, w'.
      split; [done|]. split; [done|]. symmetry. apply take_bytes_all. lia.
Qed.


Lemma HasPrefix_refl (s : string) : strings.HasPrefix s s = true.
Proof.
  unfold strings.HasPrefix. induction s as [|c r IH]; [done|].
  cbn [String.prefix]. by destruct (ascii_dec c c).
Qed.

Lemma HasPrefix_empty (s : string) : strings.HasPrefix s EmptyString = true.
Proof. by destruct s. Qed.

(** The test of the loop of [resolveContainerID]: the comparison of the
    IDs adds nothing to the test of the prefix. *)
Lemma resolve_test (nameOrID : string) (c : Container.t) :
  bool_decide (Container.Name c = nameOrID) || bool_decide (Container.ID c = nameOrID)
  || strings.HasPrefix (Container.ID c) nameOrID
  = bool_decide (Container.Name c = nameOrID) || strings.HasPrefix (Container.ID c) nameOrID.
Proof.
  destruct (bool_decide (Container.Name c = nameOrID)); [done|]. cbn [orb].
  case_bool_decide as Hid; [|done]. rewrite <- Hid. by rewrite HasPrefix_refl.
Qed.

(** X23. [resolveContainerID]. When the daemon knows the container by
    what it was given, the ID is the one the daemon reports. When it
    does not, the ID is that of the first listed container whose name is
    the given string or whose ID starts with it, in the order of the
    daemon's list, even when a later container has that very name; the
    empty string resolves to the first container of the list; and the
    error is that of the list, or that no listed container has the name
    or an ID with the prefix. *)
Theorem X23_resolveContainerID_first_match (nameOrID : string) (h : Host W) :
  (forall inspect w1,
     ContainerInspect nameOrID (world h) = (inl inspect, w1) ->
     handlers.resolveContainerID nameOrID h
     = (inl (docker.Inspect.ID inspect), mkHost w1 (trace h))) /\
  (forall cause w1,
     ContainerInspect nameOrID (world h) = (inr cause, w1) ->
     (forall cause' w2,
        ContainerList w1 = (inr cause', w2) ->
        handlers.resolveContainerID nameOrID h
        = (inr (ErrContainerList cause'), mkHost w2 (trace h))) /\
     (forall before c after w2,
        ContainerList w1 = (inl (before ++ c :: after), w2) ->
        Forall (fun b => Container.Name (container.listed b) <> nameOrID /\
                         strings.HasPrefix (docker.Summary.ID b) nameOrID = false) before ->
        Container.Name (container.listed c) = nameOrID \/
          strings.HasPrefix (docker.Summary.ID c) nameOrID = true ->
        handlers.resolveContainerID nameOrID h
        = (inl (docker.Summary.ID c), mkHost w2 (trace h))) /\
     (forall c after w2,
        nameOrID = EmptyString ->
        ContainerList w1 = (inl (c :: after), w2) ->
        handlers.resolveContainerID nameOrID h
        = (inl (docker.Summary.ID c), mkHost w2 (trace h))) /\
     (forall containers w2,
        ContainerList w1 = (inl containers, w2) ->
        Forall (fun b => Container.Name (container.listed b) <> nameOrID /\
                         strings.HasPrefix (docker.Summary.ID b) nameOrID = false) containers ->
        handlers.resolveContainerID nameOrID h
        = (inr (ErrContainerUnresolved nameOrID), mkHost w2 (trace h)))).
Proof.
  assert (Hfind : forall before c after,
    Forall (fun b => Container.Name (container.listed b) <> nameOrID /\
                     strings.HasPrefix (docker.Summary.ID b) nameOrID = false) before ->
    Container.Name (container.listed c) = nameOrID \/
      strings.HasPrefix (docker.Summary.ID c) nameOrID = true ->
    find (fun c => bool_decide (Container.Name c = nameOrID)
                   || bool_decide (Container.ID c = nameOrID)
                   || strings.HasPrefix (Container.ID c) nameOrID)
         (container.listed <$> (before ++ c :: after))
    = Some (container.listed c)).
  { intros before c after Hb Hc. induction Hb as [|b before [Hn Hp] _ IH].
    - cbn [app fmap list_fmap find]. rewrite resolve_test.
      destruct Hc as [Hc|Hc].
      + by rewrite bool_decide_eq_true_2.
      + cbn [container.listed Container.ID]. rewrite Hc. by rewrite orb_true_r.
    - cbn [app fmap list_fmap find]. rewrite resolve_test.
      rewrite bool_decide_eq_false_2 by done.
      cbn [container.listed Container.ID orb]. rewrite Hp. exact IH. }
  split.
  - intros inspect w1 Hi. unfold handlers.resolveContainerID, container.Get, bind, ask.
    by rewrite Hi.
  - intros cause w1 Hi. split; [|split; [|split]].
    + intros cause' w2 Hl.
      unfold handlers.resolveContainerID, container.Get, container.List, bind, ask.
      rewrite Hi. cbn. by rewrite Hl.
    + intros before c after w2 Hl Hb Hc.
      unfold handlers.resolveContainerID, container.Get, container.List, bind, ask.
      rewrite Hi. cbn [ret world trace]. rewrite Hl. cbn [ret].
      by rewrite (Hfind before c after Hb Hc).
    + intros c after w2 -> Hl.
      unfold handlers.resolveContainerID, container.Get, container.List, bind, ask.
      rewrite Hi. cbn [ret world trace]. rewrite Hl. cbn [ret].
      pose proof (Hfind [] c after (Forall_nil_2 _) (or_intror (HasPrefix_empty _))) as Hf.
      cbn [app] in Hf. by rewrite Hf.
    + intros containers w2 Hl Hnone.
      unfold handlers.resolveContainerID, container.Get, container.List, bind, ask.
      rewrite Hi. cbn [ret world trace]. rewrite Hl. cbn [ret].
      replace (find _ _) with (@None Container.t); [done|].
      symmetry. clear Hl. induction Hnone as [|b bs [Hn Hp] _ IH]; [done|].
      cbn [fmap list_fmap find]. rewrite resolve_test.
      rewrite bool_decide_eq_false_2 by done.
      cbn [container.listed Container.ID orb]. rewrite Hp. exact IH.
Qed.

End QueryExtras.

Section ListExtras.
Context {MR : MapRange} {W : Type} {IW : Inspector W}.
Local Open Scope go_scope.



End ListExtras.

(* ===================================================================== *)
(** ** More on the container manager                                     *)
(* ===================================================================== *)

Section ManagerExtras.
Context {MR : MapRange} {W : Type} {OW : Outside W}.
Local Open Scope go_scope.

(** *** Keys with a protocol *)

Lemma Split_slash_no_separator (s : string) :
  filepath.has_separator s = false -> strings.Split_slash s = [s].
Proof.
  induction s as [|c r IH]; [done|]. cbn [filepath.has_separator strings.Split_slash].
  intros [Hc Hr]%orb_false_iff. rewrite Hc, (IH Hr). done.
Qed.

Lemma Split_slash_app (a rest : string) :
  filepath.has_separator a = false ->
  strings.Split_slash (a +:+ "/" +:+ rest) = a :: strings.Split_slash rest.
Proof.
  induction a as [|c a IH]; [done|]. cbn [filepath.has_separator].
  intros [Hc Ha]%orb_false_iff. rewrite append_String.
  cbn [strings.Split_slash]. rewrite Hc, (IH Ha). done.
Qed.

Lemma Split_slash_nonempty (s : string) : strings.Split_slash s <> [].
Proof.
  induction s as [|c r IH]; [done|]. cbn [strings.Split_slash].
  destruct (bytes.code c =? 47); [done|]. by destruct (strings.Split_slash r).
Qed.

(** X25. What [Create] passes to [nat.NewPort] for a key of the port
    map: the protocol [tcp] and the key itself when the key has no
    slash, the two pieces in the order protocol, port when it has one,
    and again [tcp] and the whole key, slashes included, when it has two
    or more. *)
Theorem X25_protocol_port_cases :
  (forall key, filepath.has_separator key = false ->
     container.protocol_port key = ("tcp"%string, key)) /\
  (forall port protocol,
     filepath.has_separator port = false -> filepath.has_separator protocol = false ->
     container.protocol_port (port +:+ "/" +:+ protocol) = (protocol, port)) /\
  (forall a b c,
     filepath.has_separator a = false -> filepath.has_separator b = false ->
     container.protocol_port (a +:+ "/" +:+ b +:+ "/" +:+ c)
     = ("tcp"%string, a +:+ "/" +:+ b +:+ "/" +:+ c)).
Proof.
  unfold container.protocol_port. split; [|split].
  - intros key Hk. by rewrite (Split_slash_no_separator key Hk).
  - intros port protocol Hp Hq.
    by rewrite (Split_slash_app port protocol Hp), (Split_slash_no_separator protocol Hq).
  - intros a b c Ha Hb.
    rewrite (Split_slash_app a _ Ha), (Split_slash_app b _ Hb).
    pose proof (Split_slash_nonempty c). by destruct (strings.Split_slash c).
Qed.

(** X26. [Create] and a port it cannot use. When [nat.NewPort] rejects a
    key of the port map, [Create] returns the invalid-port error for a
    rejected key of the map, which one depends on the order of the
    range, and the daemon is not asked. When it rejects none, the answer
    of the daemon decides: its ID gives the handle of a container in the
    state [created] with the name, the image and the maps of the spec,
    and its error is the error of [Create]. *)
Theorem X26_Create_invalid_port (spec : ContainerSpec.t) (h : Host W) :
  ((exists ports k v, ContainerSpec.Ports spec = Some ports /\ ports !! k = Some v /\
                      container.port_rejected k = true) ->
   exists ports k v,
     ContainerSpec.Ports spec = Some ports /\ ports !! k = Some v /\
     container.port_rejected k = true /\
     container.Create spec h
     = (Err (ErrInvalidPort k),
        mkHost (world h) (trace h ++ [mkEvent (CallCreate spec) (Some (ErrInvalidPort k))]))) /\
  ((forall ports k v, ContainerSpec.Ports spec = Some ports -> ports !! k = Some v ->
                      container.port_rejected k = false) ->
   match ContainerCreate spec (world h) with
   | (inl id, w1) =>
       exists c h',
         container.Create spec h = (Ok c, h') /\
         Container.ID c = id /\ Container.Name c = ContainerSpec.Name spec /\
         Container.Image c = ContainerSpec.Image spec /\
         Container.Status c = "created"%string /\
         Container.Ports c = ContainerSpec.Ports spec /\
         Container.Environment c = ContainerSpec.Environment spec /\
         Container.Labels c = ContainerSpec.Labels spec /\
         Container.Created c = (time_Now w1).1 /\
         trace h' = trace h ++ [mkEvent (CallCreate spec) None]
   | (inr cause, w1) =>
       container.Create spec h
       = (Err (ErrDockerCreate cause),
          mkHost w1 (trace h ++ [mkEvent (CallCreate spec) (Some (ErrDockerCreate cause))]))
   end).
Proof.
  unfold container.Create. split.
  - intros (ports & k & v & Hports & Hk & Hrej).
    destruct (find _ _) as [[k' v']|] eqn:Hf.
    + apply find_some in Hf as [Hin Hb]. cbn [fst] in Hb.
      apply list_elem_of_In, elem_of_items in Hin as (ports' & Hports' & Hk').
      by exists ports', k', v'.
    + assert (Hb := find_none _ _ Hf (k, v)). cbn [fst] in Hb.
      rewrite Hrej in Hb. discriminate Hb.
      apply list_elem_of_In, elem_of_items. by exists ports.
  - intros Hnone.
    destruct (find _ _) as [[k' v']|] eqn:Hf.
    { apply find_some in Hf as [Hin Hb]. cbn [fst] in Hb.
      apply list_elem_of_In, elem_of_items in Hin as (ports' & Hports' & Hk').
      by rewrite (Hnone _ _ _ Hports' Hk') in Hb. }
    unfold bind, ask. destruct (ContainerCreate spec (world h)) as [[id|cause] w1]; [|done].
    cbn [world trace]. destruct (time_Now w1) as [now w2] eqn:En.
    eexists _, _. split; [reflexivity|]. cbn. done.
Qed.

End ManagerExtras.

Section EnvironmentExtras.
Context {MR : MapRange}.

Lemma cut_equals_None (s : string) :
  strings.cut_equals s = None <-> forall a b, s <> a +:+ "=" +:+ b.
Proof.
  induction s as [|c r IH]; cbn [strings.cut_equals].
  - split; [|done]. intros _ [|c a] b; by rewrite ?append_String.
  - destruct (Z.eqb_spec (bytes.code c) 61) as [Hc|Hc].
    + split; [done|]. intros Hno. destruct (Hno EmptyString r).
      rewrite append_EmptyString. change ("=" +:+ r) with (String "=" r). f_equal.
      unfold bytes.code in Hc.
      apply (f_equal Z.to_N) in Hc. rewrite N2Z.id in Hc.
      apply (f_equal ascii_of_N) in Hc. by rewrite ascii_N_embedding in Hc.
    + destruct (strings.cut_equals r) as [[a b]|] eqn:E.
      * split; [done|]. intros Hno.
        assert (Hr : forall a b, r <> a +:+ "=" +:+ b).
        { intros a' b' ->. by destruct (Hno (String c a') b'). }
        apply IH in Hr. done.
      * split; [|done]. intros _ [|c' a] b.
        -- rewrite append_EmptyString. intros [= -> _]. by destruct Hc.
        -- rewrite append_String. intros [= _ Hr]. by apply (proj1 IH eq_refl a b).
Qed.

Lemma cut_equals_app (k v : string) :
  strings.cut_equals k = None -> strings.cut_equals (k +:+ "=" +:+ v) = Some (k, v).
Proof.
  induction k as [|c k IH]; [done|]. cbn [strings.cut_equals]. rewrite append_String.
  cbn [strings.cut_equals]. destruct (bytes.code c =? 61); [done|].
  destruct (strings.cut_equals k); [by destruct p|]. intros _. by rewrite IH.
Qed.

(** [parseEnvVars] on the entries [Create] writes for pairs whose keys
    have no equals sign. *)
Lemma parseEnvVars_pairs (l : list (string * string)) :
  forall acc : gmap string string,
  Forall (fun kv => strings.cut_equals kv.1 = None) l ->
  foldl (fun result e =>
           match strings.SplitN_equals_2 e with
           | [key; value] => <[key := value]> result
           | _ => result
           end) acc ((fun kv => kv.1 +:+ "=" +:+ kv.2) <$> l)
  = foldl (fun acc kv => <[kv.1 := id kv.2]> acc) acc l.
Proof.
  induction l as [|[k v] l IH]; intros acc Hl; [done|].
  apply Forall_cons in Hl as [Hk Hl]. cbn [fmap list_fmap foldl fst snd] in *.
  unfold strings.SplitN_equals_2 at 2. rewrite (cut_equals_app k v Hk). by apply IH.
Qed.

(** X27. [parseEnvVars] reads back the environment that [Create] writes,
    [key=value] for every entry of the map in the order of the range, as
    long as no key has an equals sign. An entry whose key has one comes
    back under the part of the key before its first equals sign. *)
Theorem X27_parseEnvVars_Create_env :
  (forall environment : gmap string string,
     (forall k v a b, environment !! k = Some v -> k <> a +:+ "=" +:+ b) ->
     container.parseEnvVars (container.Create_env (Some environment)) = environment) /\
  (forall a b v : string,
     (forall a' b', a <> a' +:+ "=" +:+ b') ->
     container.parseEnvVars (container.Create_env (Some {[ a +:+ "=" +:+ b := v ]}))
     = {[ a := b +:+ "=" +:+ v ]}).
Proof.
  split.
  - intros m Hm. unfold container.parseEnvVars, container.Create_env. cbn [items].
    rewrite parseEnvVars_pairs.
    + apply map_eq. intros p. destruct (m !! p) as [v|] eqn:E.
      * apply (foldl_insert_in id); [apply NoDup_fst_range|by apply elem_of_range].
      * rewrite (foldl_insert_notin id); [done|].
        intros ((k & v) & -> & Hin%elem_of_range)%list_elem_of_fmap. simpl in E. congruence.
    + apply Forall_forall. intros [k v] Hin%elem_of_range. cbn [fst].
      apply cut_equals_None. intros a b. by apply (Hm k v).
  - intros a b v Ha. unfold container.parseEnvVars, container.Create_env. cbn [items].
    assert (Hr : range ({[ a +:+ "=" +:+ b := v ]} : gmap string string)
                 = [(a +:+ "=" +:+ b, v)]).
    { apply Permutation_singleton_r. rewrite range_perm. by rewrite map_to_list_singleton. }
    rewrite Hr. cbn [fmap list_fmap foldl fst snd].
    unfold strings.SplitN_equals_2.
    replace ((a +:+ "=" +:+ b) +:+ "=" +:+ v) with (a +:+ "=" +:+ (b +:+ "=" +:+ v)).
    + rewrite cut_equals_app by by apply cut_equals_None. apply insert_empty.
    + clear. induction a as [|c a IH]; [done|]. rewrite !append_String. by f_equal.
Qed.

End EnvironmentExtras.

(* ===================================================================== *)
(** ** More on the store                                                 *)
(* ===================================================================== *)

Section StoreExtras.
Context {Data FS : Type} {codec : JSON Data} {fsys : FileSystem Data FS}.

(** What [load_entry] does with one entry is decided by what the entry
    is: not a [*.json] name, a well-formed file or a corrupt one. *)
Lemma load_entry_cases (s : Storage) (fs0 : FS) (name : string)
    (ds : list Deployment.t) (lg : list LogEntry) :
  (filepath.Ext name <> ".json"%string /\
   storage.load_entry s fs0 (ds, lg) name = (ds, lg)) \/
  (exists d, storage.well_formed s fs0 name d /\
             storage.load_entry s fs0 (ds, lg) name = (ds ++ [d], lg)) \/
  (storage.corrupt s fs0 name /\
   exists w, warns_about (filepath_Join [storage.deploymentsDir s; name]) w = true /\
             storage.load_entry s fs0 (ds, lg) name = (ds, lg ++ [w])).
Proof.
  unfold storage.load_entry, storage.well_formed, storage.corrupt.
  case_bool_decide as Hext; cbn [negb]; [|by left]. right.
  destruct (ioutil_ReadFile _ fs0) as [data|e] eqn:Hr.
  - destruct (json_Unmarshal data) as [d|] eqn:Hu.
    + left. exists d. split; [|done]. split; [done|]. by exists data.
    + right. split; [split; [done|]; right; by exists data|].
      eexists. split; [|done]. cbn. by rewrite bool_decide_eq_true_2.
  - right. split; [split; [done|]; left; by exists e|].
    eexists. split; [|done]. cbn. by rewrite bool_decide_eq_true_2.
Qed.

Lemma count_json_cons (name : string) (files : list string) :
  storage.count_json (name :: files)
  = (if bool_decide (filepath.Ext name = ".json"%string) then 1 else 0)
    + storage.count_json files.
Proof.
  unfold storage.count_json. rewrite filter_cons.
  case_decide as He.
  - rewrite bool_decide_eq_true_2 by done. cbn [length]. lia.
  - rewrite bool_decide_eq_false_2 by done. lia.
Qed.

(** The loop of [LoadAllDeployments] over any listing. *)
Lemma load_entries_partition (s : Storage) (fs0 : FS) (files : list string) :
  forall (ds : list Deployment.t) (lg : list LogEntry),
  exists loaded warnings,
    foldl (storage.load_entry s fs0) (ds, lg) files = (ds ++ loaded, lg ++ warnings) /\
    Z.of_nat (length loaded) + Z.of_nat (length warnings) = storage.count_json files /\
    Forall (fun d => exists name, name ∈ files /\ storage.well_formed s fs0 name d) loaded /\
    Forall (fun w => exists name, name ∈ files /\ storage.corrupt s fs0 name /\
              warns_about (filepath_Join [storage.deploymentsDir s; name]) w = true)
           warnings /\
    (forall name d, name ∈ files -> storage.well_formed s fs0 name d -> d ∈ loaded) /\
    (forall name, name ∈ files -> storage.corrupt s fs0 name ->
       exists w, w ∈ warnings /\
         warns_about (filepath_Join [storage.deploymentsDir s; name]) w = true).
Proof.
  induction files as [|name files IH]; intros ds lg.
  - exists [], []. rewrite !app_nil_r. repeat split; try done.
    + by intros ? ? ?%elem_of_nil.
    + by intros ? ?%elem_of_nil.
  - cbn [foldl]. rewrite count_json_cons.
    destruct (load_entry_cases s fs0 name ds lg)
      as [[Hext ->]|[(d & Hwf & ->)|(Hco & w & Hw & ->)]].
    + destruct (IH ds lg) as (loaded & warnings & -> & Hcount & Hl & Hw & Hall & Hbad).
      exists loaded, warnings. split; [done|].
      rewrite bool_decide_eq_false_2 by done. split; [lia|]. split; [|split; [|split]].
      * eapply Forall_impl; [exact Hl|]. intros d (n & Hn & Hd). exists n.
        split; [by apply list_elem_of_further|done].
      * eapply Forall_impl; [exact Hw|]. intros w (n & Hn & Hd). exists n.
        split; [by apply list_elem_of_further|done].
      * intros n d [->|Hn]%elem_of_cons Hd; [by destruct Hd as [? _]|]. by eapply Hall.
      * intros n [->|Hn]%elem_of_cons Hd; [by destruct Hd as [? _]|]. by eapply Hbad.
    + destruct (IH (ds ++ [d]) lg)
        as (loaded & warnings & -> & Hcount & Hl & Hw & Hall & Hbad).
      exists (d :: loaded), warnings. rewrite <- app_assoc. split; [done|].
      rewrite bool_decide_eq_true_2 by apply Hwf. split; [cbn [length]; lia|].
      split; [|split; [|split]].
      * constructor; [exists name; split; [apply list_elem_of_here|done]|].
        eapply Forall_impl; [exact Hl|]. intros d' (n & Hn & Hd). exists n.
        split; [by apply list_elem_of_further|done].
      * eapply Forall_impl; [exact Hw|]. intros w (n & Hn & Hd). exists n.
        split; [by apply list_elem_of_further|done].
      * intros n d' [->|Hn]%elem_of_cons Hd.
        -- destruct Hwf as (_ & data & Hr & Hu), Hd as (_ & data' & Hr' & Hu').
           assert (d' = d) as -> by congruence. apply list_elem_of_here.
        -- apply list_elem_of_further. by eapply Hall.
      * intros n [->|Hn]%elem_of_cons Hd; [|by eapply Hbad].
        destruct Hwf as (_ & data & Hr & Hu).
        destruct Hd as (_ & [(e & He)|(data' & Hr' & Hu')]); congruence.
    + destruct (IH ds (lg ++ [w]))
        as (loaded & warnings & -> & Hcount & Hl & Hws & Hall & Hbad).
      exists loaded, (w :: warnings). rewrite <- app_assoc. split; [done|].
      rewrite bool_decide_eq_true_2 by apply Hco. split; [cbn [length]; lia|].
      split; [|split; [|split]].
      * eapply Forall_impl; [exact Hl|]. intros d' (n & Hn & Hd). exists n.
        split; [by apply list_elem_of_further|done].
      * constructor; [exists name; split; [apply list_elem_of_here|done]|].
        eapply Forall_impl; [exact Hws|]. intros w' (n & Hn & Hd). exists n.
        split; [by apply list_elem_of_further|done].
      * intros n d' [->|Hn]%elem_of_cons Hd; [|by eapply Hall].
        destruct Hd as (_ & data' & Hr' & Hu').
        destruct Hco as (_ & [(e & He)|(data & Hr & Hu)]); congruence.
      * intros n [->|Hn]%elem_of_cons Hd.
        -- exists w. split; [apply list_elem_of_here|done].
        -- destruct (Hbad n Hn Hd) as (w' & Hin & Hw'). exists w'.
           split; [by apply list_elem_of_further|done].
Qed.

(** X28. [LoadAllDeployments] on any directory. When the directory can
    be listed the call succeeds and leaves the files alone; it returns
    the document of every well-formed [*.json] file and nothing else,
    logs a warning about every corrupt [*.json] file and nothing else,
    and ignores the other entries; the deployments it returns and the
    warnings it logs are together as many as the directory has [*.json]
    entries, which is what [GetStats] counts under [deployments]. *)
Theorem X28_LoadAllDeployments_partitions (s : Storage) (disk : Disk FS) (files : list string) :
  ioutil_ReadDir (storage.deploymentsDir s) (fs disk) = inl files ->
  exists loaded warnings,
    storage.LoadAllDeployments s disk
      = (Ok loaded, mkDisk (fs disk) (log disk ++ warnings)) /\
    Forall (fun d => exists name, name ∈ files /\ storage.well_formed s (fs disk) name d)
           loaded /\
    (forall name d, name ∈ files -> storage.well_formed s (fs disk) name d -> d ∈ loaded) /\
    Forall (fun w => exists name, name ∈ files /\ storage.corrupt s (fs disk) name /\
              warns_about (filepath_Join [storage.deploymentsDir s; name]) w = true)
           warnings /\
    (forall name, name ∈ files -> storage.corrupt s (fs disk) name ->
       exists w, w ∈ warnings /\
         warns_about (filepath_Join [storage.deploymentsDir s; name]) w = true) /\
    Z.of_nat (length loaded) + Z.of_nat (length warnings) = storage.count_json files /\
    (forall stats, storage.GetStats s disk = inl stats ->
       stats !! "deployments"%string
       = Some (Z.of_nat (length loaded) + Z.of_nat (length warnings))).
Proof.
  intros Hdir. unfold storage.LoadAllDeployments. rewrite Hdir.
  destruct (load_entries_partition s (fs disk) files [] (log disk))
    as (loaded & warnings & -> & Hcount & Hl & Hw & Hall & Hbad).
  exists loaded, warnings. split; [done|]. split; [done|]. split; [done|]. split; [done|].
  split; [done|]. split; [done|].
  intros stats. unfold storage.GetStats. rewrite Hdir.
  destruct (ioutil_ReadDir (storage.servicesDir s) (fs disk)); [|done].
  intros [= <-]. rewrite lookup_insert_ne by done. rewrite lookup_insert_eq. by rewrite Hcount.
Qed.

Lemma Ext_json (id : string) : filepath.Ext (id +:+ ".json") = ".json"%string.
Proof.
  induction id as [|c id IH]; [done|]. rewrite append_String.
  cbn [filepath.Ext]. by rewrite IH.
Qed.

(** X29. A saved deployment is loaded again with all the others: after
    a successful [SaveDeployment] of a document whose strings are valid
    UTF-8, when the directory lists the file that was written,
    [LoadAllDeployments] returns the document, as it reads back (the
    given one up to [omitempty]), whatever its ID and whatever else the
    directory holds. *)
Theorem X29_SaveDeployment_then_LoadAll
    (s : Storage) (d : Deployment.t) (disk disk' : Disk FS) (files : list string) :
  valid.Deployment_ d = true ->
  filepath_Join [storage.deploymentsDir s; Deployment.ID d +:+ ".json"]
    = storage.deployment_file s (Deployment.ID d) ->
  storage.SaveDeployment s d disk = (None, disk') ->
  ioutil_ReadDir (storage.deploymentsDir s) (fs disk') = inl files ->
  (Deployment.ID d +:+ ".json") ∈ files ->
  exists loaded disk'',
    storage.LoadAllDeployments s disk' = (Ok loaded, disk'') /\
    fs disk'' = fs disk' /\
    omitempty.Deployment_ d ∈ loaded /\
    Forall (fun d' => valid.Deployment_ d' = true) loaded.
Proof.
  intros Hd Hjoin Hsave Hdir Hin.
  pose proof (Save_then_Load_reads_back s d disk disk' Hd Hsave) as Hload.
  unfold storage.LoadAllDeployments. rewrite Hdir.
  destruct (load_entries_partition s (fs disk') files [] (log disk'))
    as (loaded & warnings & -> & _ & Hwf & _ & Hall & _).
  eexists _, _. split; [done|]. split; [done|]. split.
  - apply (Hall _ _ Hin). split; [apply Ext_json|].
    unfold storage.LoadDeployment in Hload. rewrite Hjoin.
    destruct (ioutil_ReadFile _ (fs disk')) as [data|[|cause]]; [|done..].
    exists data. split; [done|].
    by destruct (json_Unmarshal data) as [d'|]; [injection Hload as ->|].
  - eapply Forall_impl; [exact Hwf|]. intros d' (name & _ & _ & data & _ & Hu).
    by apply (json_Unmarshal_valid data).
Qed.

End StoreExtras.

Section ServiceStoreExtras.
Context {Data FS : Type} {codec : ServiceJSON Data} {fsys : FileSystem Data FS}.

(** X30. A saved service is read back as it was exactly when its
    strings are valid UTF-8: after a successful [SaveService],
    [LoadService] for the ID of the service returns the service itself,
    nil and empty selector included, since no field of a service is under
    [omitempty]; when a string of the service is not valid UTF-8, what
    [LoadService] returns is not the service. *)
Theorem X30_SaveService_then_LoadService
    (s : Storage) (service : Service.t) (fs0 fs' : FS) :
  storage.SaveService s service fs0 = (None, fs') ->
  (storage.LoadService s (Service.ID service) fs' = inl service <->
   valid.Service_ service = true).
Proof.
  unfold storage.SaveService, storage.LoadService.
  destruct (json_MarshalIndent_service service) as [data|] eqn:Hm; [|done].
  destruct (ioutil_WriteFile _ data fs0) as [[cause|] fs1] eqn:Hw; [done|].
  intros [= <-]. rewrite (read_after_write _ _ _ _ Hw). split.
  - destruct (json_Unmarshal_service data) as [service'|] eqn:Hu; [|done].
    intros [= ->]. by apply (json_Unmarshal_service_valid data).
  - intros Hv. by rewrite (json_Unmarshal_Marshal_service _ _ Hv Hm).
Qed.

End ServiceStoreExtras.

(* ===================================================================== *)
(** ** Registries with one entry                                         *)
(* ===================================================================== *)

Section SmallRegistries.
Context {MR : MapRange}.

(** A registry with one deployment, labelled as [CreateDeployment]
    labels it and with the replicas it makes, is a registry as the
    scheduler builds it. *)
Lemma one_deployment_registry (id : string) (d : Deployment.t) :
  Deployment.ID d = id -> id <> EmptyString ->
  Deployment.Name d = DeploymentSpec.Name (Deployment.Spec d) ->
  replicas_from (Deployment.Spec d) 0 (Deployment.Replicas d) ->
  names_unique (Scheduler.mk {[ id := d ]} ∅) /\
  labels_ok (Scheduler.mk {[ id := d ]} ∅) /\
  registry_ok (Scheduler.mk {[ id := d ]} ∅).
Proof.
  intros Hid Hne Hname Hfrom. split; [|split].
  - split; cbn [Scheduler.deployments Scheduler.services].
    + intros id1 id2 d1 d2 [<- _]%lookup_singleton_Some [<- _]%lookup_singleton_Some. done.
    + intros id1 id2 d1 d2 H1. by rewrite lookup_empty in H1.
  - split; cbn [Scheduler.deployments Scheduler.services].
    + by intros id1 d1 [<- <-]%lookup_singleton_Some.
    + intros id1 d1 H1. by rewrite lookup_empty in H1.
  - unfold registry_ok. cbn [Scheduler.deployments].
    by intros id1 d1 [<- <-]%lookup_singleton_Some.
Qed.

Lemma one_service_registry (id : string) (svc : Service.t) :
  Service.ID svc = id -> id <> EmptyString ->
  Service.Name svc = ServiceSpec.Name (Service.Spec svc) ->
  names_unique (Scheduler.mk ∅ {[ id := svc ]}) /\
  labels_ok (Scheduler.mk ∅ {[ id := svc ]}).
Proof.
  intros Hid Hne Hname. split.
  - split; cbn [Scheduler.deployments Scheduler.services].
    + intros id1 id2 d1 d2 H1. by rewrite lookup_empty in H1.
    + intros id1 id2 d1 d2 [<- _]%lookup_singleton_Some [<- _]%lookup_singleton_Some. done.
  - split; cbn [Scheduler.deployments Scheduler.services].
    + intros id1 d1 H1. by rewrite lookup_empty in H1.
    + by intros id1 d1 [<- <-]%lookup_singleton_Some.
Qed.

End SmallRegistries.

(* ===================================================================== *)
(** ** The further properties at work                                    *)
(* ===================================================================== *)

(** The registry of the [web] scenario is one as the scheduler builds
    it. *)
Lemma web_registry_ok :
  names_unique web_registry /\ labels_ok web_registry /\
  registry_ok (H := range_to_list) web_registry.
Proof.
  assert (H : exists d,
    web_registry = Scheduler.mk {[ "1700000000000000000"%string := d ]} ∅ /\
    Deployment.ID d = "1700000000000000000"%string /\
    Deployment.Name d = DeploymentSpec.Name (Deployment.Spec d) /\
    replicas_from (H := range_to_list) (Deployment.Spec d) 0 (Deployment.Replicas d)).
  { destruct web_run as [[[d|e|p] s'] h'] eqn:E; [|by vm_compute in E..].
    exists d. vm_compute in E. injection E as <- <- <-.
    split; [vm_compute; reflexivity|]. split; [reflexivity|]. split; [reflexivity|].
    vm_compute. repeat split; reflexivity. }
  destruct H as (d & -> & Hid & Hname & Hfrom).
  by apply (one_deployment_registry (MR := range_to_list)).
Qed.

Lemma metrics_registry_ok : names_unique metrics_registry /\ labels_ok metrics_registry.
Proof.
  assert (H : metrics_registry
              = Scheduler.mk ∅ {[ "1700000000000000000"%string := metrics_service ]}).
  { vm_compute. reflexivity. }
  rewrite H. by apply one_service_registry.
Qed.

Lemma X1_witness :
  exists d, web_run.1.1 = Ok d /\
    scheduler.GetDeployment (MR := range_to_list) web_run.1.2 "web" = Ok d.
Proof.
  destruct web_run as [[[d|e|p] s'] h'] eqn:E; [|by vm_compute in E..].
  exists d. split; [reflexivity|].
  exact (X1_GetDeployment_after_CreateDeployment (MR := range_to_list)
           (OW := counting_daemon 99 99) _ _ _ _ _ _ E).
Defined.

Lemma X2_witness : names_unique web_run.1.2.
Proof.
  exact (proj1 (proj2 (X2_names_unique_invariant (MR := range_to_list)
                         (OW := counting_daemon 99 99)))
           scheduler.NewScheduler (web_spec 3 "9000") fresh_host
           (proj1 (X2_names_unique_invariant (MR := range_to_list)
                     (OW := counting_daemon 99 99)))).
Defined.

Lemma X3_witness : labels_ok web_run.1.2.
Proof.
  exact (proj1 (proj2 (X3_labels_ok_invariant (MR := range_to_list)
                         (OW := counting_daemon 99 99)))
           scheduler.NewScheduler (web_spec 3 "9000") fresh_host
           (proj1 (X3_labels_ok_invariant (MR := range_to_list)
                     (OW := counting_daemon 99 99)))).
Defined.

Lemma X4_witness :
  exists d, scheduler.GetDeployment (MR := range_to_list) web_registry "web" = Ok d.
Proof.
  assert (Hd : exists d, Scheduler.deployments web_registry !! "1700000000000000000"%string = Some d
                         /\ Deployment.Name d = "web"%string).
  { vm_compute. eexists. split; reflexivity. }
  destruct Hd as (d & Hd & Hn). exists d.
  apply (proj1 (X4_Get_by_name (MR := range_to_list) web_registry (proj1 web_registry_ok))).
  exists "1700000000000000000"%string. split; [exact Hd|exact Hn].
Defined.

Lemma X5_witness :
  scheduler.GetDeployment (MR := range_to_list) web_delete_run.1.2 "web"
  = Err (ErrDeploymentNotFound "web").
Proof.
  destruct web_delete_run as [[[e|] s'] h'] eqn:E; [by vm_compute in E|].
  exact (proj1 (X5_DeleteDeployment_then_Get (MR := range_to_list) (OW := unstoppable_daemon)
                  web_registry s' "web" fresh_host h' (proj1 web_registry_ok) E)).
Defined.

Lemma X6_witness :
  Z.of_nat (length (new_events fresh_host web_run.2)) = 6.
Proof.
  destruct web_run as [[[d|e|p] s'] h'] eqn:E; [|by vm_compute in E..].
  exact (proj1 (proj2 (X6_CreateDeployment_calls (MR := range_to_list)
                         (OW := counting_daemon 99 99) _ _ _ _ _ _ E))).
Defined.

Lemma X7_witness :
  exists d, db_run.1.1 = Ok d /\
    scheduler.GetDeployment (MR := range_to_list) web_registry "web" <> Err (ErrDeploymentNotFound "web") /\
    scheduler.GetDeployment (MR := range_to_list) db_run.1.2 "web"
    = Err (ErrDeploymentNotFound "web").
Proof.
  destruct db_run as [[[d|e|p] s'] h'] eqn:E; [|by vm_compute in E..].
  exists d. split; [reflexivity|].
  assert (Hold : exists old,
    Scheduler.deployments web_registry !! Deployment.ID d = Some old /\
    Deployment.Name old = "web"%string).
  { vm_compute in E. injection E as <- _ _. vm_compute. eexists. split; reflexivity. }
  destruct Hold as (old & Hold & Hn).
  destruct (X7_CreateDeployment_ID_collision (MR := range_to_list) (OW := counting_daemon 99 99)
              web_registry s' db_spec fresh_host h' d old (proj1 web_registry_ok) E Hold)
    as (Hbefore & Hafter & _).
  rewrite Hn in Hbefore, Hafter. split; [by rewrite Hbefore|exact Hafter].
Defined.

Lemma X8_witness : service_ports_disjoint metrics_run.1.2.
Proof.
  exact (proj1 (proj2 (proj2 (proj2 (X8_service_ports_disjoint_invariant (MR := range_to_list)
                                       (OW := counting_daemon 99 99)))))
           scheduler.NewScheduler metrics_spec fresh_host
           (proj1 (X8_service_ports_disjoint_invariant (MR := range_to_list)
                     (OW := counting_daemon 99 99)))).
Defined.

Lemma X9_witness :
  scheduler.DeleteService (MR := range_to_list) metrics_registry "metrics"
  = (None, scheduler.NewScheduler).
Proof.
  assert (Hd : Scheduler.services metrics_registry !! "1700000000000000000"%string
               = Some metrics_service) by (vm_compute; reflexivity).
  pose proof (proj1 (proj1 (X9_DeleteService_by_name (MR := range_to_list) metrics_registry
                              (proj1 metrics_registry_ok))
                       "1700000000000000000"%string metrics_service Hd ltac:(discriminate)))
    as Hdel.
  etransitivity; [exact Hdel|]. vm_compute. reflexivity.
Defined.

Lemma X10_witness :
  exists d, web_run.1.1 = Ok d /\
    scheduler.ListDeployments (MR := range_to_list) web_run.1.2 ≡ₚ [d].
Proof.
  destruct web_run as [[[d|e|p] s'] h'] eqn:E; [|by vm_compute in E..].
  exists d. split; [reflexivity|].
  exact (proj1 (proj2 (X10_listings_follow_registry (MR := range_to_list)
                         (OW := counting_daemon 99 99)))
           scheduler.NewScheduler s' (web_spec 3 "9000") fresh_host h' d E (lookup_empty _)).
Defined.

Lemma X11_witness :
  exists h3,
    scheduler.DeleteDeployment (MR := range_to_list) (OW := counting_daemon 99 99)
      web_run.1.2 "web" fresh_host = (None, scheduler.NewScheduler, h3).
Proof.
  destruct web_run as [[[d|e|p] s'] h'] eqn:E; [|by vm_compute in E..].
  destruct (proj1 (X11_create_then_delete (MR := range_to_list) (OW := counting_daemon 99 99))
              scheduler.NewScheduler s' (web_spec 3 "9000") fresh_host h' fresh_host d
              E (lookup_empty _)) as (h3 & Hrun & _).
  by exists h3.
Defined.
Lemma X12_witness :
  exists d c0 c1 b0 b1 h0 h1,
    web_run.1.1 = Ok d /\
    Deployment.Replicas d !! 0%nat = Some c0 /\ Deployment.Replicas d !! 1%nat = Some c1 /\
    Container.Ports c0 = Some b0 /\ Container.Ports c1 = Some b1 /\
    b0 !! "80/tcp"%string = Some h0 /\ b1 !! "80/tcp"%string = Some h1 /\
    h0 <> h1.
Proof.
  destruct web_run as [[[d|e|p] s'] h'] eqn:E; [|by vm_compute in E..].
  assert (H : exists c0 c1 b0 b1 h0 h1,
    Deployment.Replicas d !! 0%nat = Some c0 /\ Deployment.Replicas d !! 1%nat = Some c1 /\
    Container.Ports c0 = Some b0 /\ Container.Ports c1 = Some b1 /\
    b0 !! "80/tcp"%string = Some h0 /\ b1 !! "80/tcp"%string = Some h1).
  { pose proof E as E'. vm_compute in E'. injection E' as <- _ _.
    do 6 eexists. repeat split; vm_compute; reflexivity. }
  destruct H as (c0 & c1 & b0 & b1 & h0 & h1 & H0 & H1 & Hb0 & Hb1 & Hp0 & Hp1).
  exists d, c0, c1, b0, b1, h0, h1. repeat (split; [done|]).
  refine (X12_replicas_bind_distinct_host_ports (MR := range_to_list) (OW := counting_daemon 99 99)
            _ _ _ _ _ d 0%nat 1%nat c0 c1 b0 b1 "80/tcp"%string h0 h1 E _ H0 H1 _ Hb0 Hb1 Hp0 Hp1).
  - vm_compute. discriminate.
  - discriminate.
Defined.

Lemma X13_witness :
  exists bound0 bound1,
    ContainerSpec.Ports (scheduler.replica_spec (MR := range_to_list) two_port_spec 0)
      = Some bound0 /\
    ContainerSpec.Ports (scheduler.replica_spec (MR := range_to_list) two_port_spec 1)
      = Some bound1 /\
    bound1 !! "80"%string = Some "9001"%string /\
    bound0 !! "443"%string = Some "9001"%string.
Proof.
  refine (X13_striping_collides_across_ports (MR := range_to_list) two_port_spec two_port_ports
            "80" "443" 9000 1 _ _ _ _ _ _).
  - reflexivity.
  - vm_compute. reflexivity.
  - vm_compute. reflexivity.
  - vm_compute. split; reflexivity.
  - vm_compute. discriminate.
  - vm_compute. discriminate.
Defined.

Lemma X14_witness :
  ("1700000000000000000"%string = "1700000000000000000"%string) /\ (1 = 1)%nat.
Proof.
  assert (H : exists d c,
    Scheduler.deployments web_registry !! "1700000000000000000"%string = Some d /\
    Deployment.Replicas d !! 1%nat = Some c).
  { vm_compute. do 2 eexists. split; reflexivity. }
  destruct H as (d & c & Hd & Hc).
  exact (X14_replica_names_distinct (MR := range_to_list) web_registry _ _ d d 1%nat 1%nat c c
           (proj1 web_registry_ok) (proj1 (proj2 web_registry_ok))
           (proj2 (proj2 web_registry_ok)) Hd Hd Hc Hc eq_refl).
Defined.

Lemma X15_witness :
  exists e,
    scheduler.CreateService (MR := range_to_list) (OW := counting_daemon 99 99)
      web_run.1.2 metrics_spec fresh_host = (Err e, web_run.1.2, fresh_host).
Proof.
  destruct web_run as [[[d|e|p] s'] h'] eqn:E; [|by vm_compute in E..].
  destruct (X15_striped_port_refused_to_services (MR := range_to_list)
              (OW := counting_daemon 99 99)
              scheduler.NewScheduler s' (web_spec 3 "9000") fresh_host h' fresh_host d
              {[ "80/tcp"%string := "9000"%string ]} "80/tcp" "9000" 1
              metrics_spec (ServicePort.mk 9001 9100)) as (e & Hrun & _).
  - empty_registry.
  - exact E.
  - reflexivity.
  - vm_compute. reflexivity.
  - vm_compute. split; [discriminate|reflexivity].
  - apply list_elem_of_In. left. reflexivity.
  - vm_compute. reflexivity.
  - by exists e.
Defined.

Lemma X16_witness :
  scheduler.mustParseInt "8080/tcp" = 8080.
Proof.
  refine (X16_mustParseInt_leading_integer 8080 "/tcp" _ _).
  - vm_compute. split; discriminate.
  - reflexivity.
Defined.

Lemma X18_witness :
  handlers.deleteServiceHandler (MR := range_to_list) metrics_registry "metrics"
  = (handlers.Body metrics_service, scheduler.NewScheduler).
Proof.
  destruct (X18_deleteServiceHandler_answers (MR := range_to_list) metrics_registry "metrics"
              (proj2 metrics_registry_ok)) as [[Hnone _]|(id & svc & Hsvc & Hn & Hrun)].
  - assert (Hd : Scheduler.services metrics_registry !! "1700000000000000000"%string
                 = Some metrics_service) by (vm_compute; reflexivity).
    by destruct (Hnone _ _ Hd).
  - rewrite Hrun.
    assert (Hreg : metrics_registry
              = Scheduler.mk ∅ {[ "1700000000000000000"%string := metrics_service ]})
      by (vm_compute; reflexivity).
    rewrite Hreg in Hsvc |- *. cbn [Scheduler.services Scheduler.deployments] in Hsvc |- *.
    apply lookup_singleton_Some in Hsvc as [<- <-]. vm_compute. reflexivity.
Defined.

Lemma X20_witness :
  exists e, metrics_conflict_run.1.1 = Err e /\ metrics_conflict_run.1.2 = web_registry.
Proof.
  destruct metrics_conflict_run as [[[svc|e|p] s'] h'] eqn:E; [by vm_compute in E| |by vm_compute in E].
  exists e. split; [reflexivity|].
  refine (proj1 (X20_validated_service_errors (MR := range_to_list) (OW := counting_daemon 99 99)
                   web_registry s' metrics_spec fresh_host h' e _ E)).
  reflexivity.
Defined.

Lemma X21_witness :
  handlers.createContainerHandler (MR := range_to_list) (OW := counting_daemon 99 99)
    (DeploymentSpec.Container (web_spec 3 "9000")) fresh_host
  = (handlers.HttpError handlers.StatusBadRequest_code, fresh_host).
Proof.
  refine (proj2 (proj2 (X21_createContainerHandler_checks (MR := range_to_list)
                          (OW := counting_daemon 99 99)
                          (DeploymentSpec.Container (web_spec 3 "9000")) fresh_host))
            {[ "80/tcp"%string := "9000"%string ]} "80" "tcp" "9000" _ _).
  - reflexivity.
  - vm_compute. reflexivity.
Defined.
Lemma X22_witness :
  container.clamp_tail (handlers.tail_of_query "250") = 250 /\
  container.clamp_tail (handlers.tail_of_query "all") = 100.
Proof.
  pose proof (proj1 (X22_logs_are_bounded (IW := listing_daemon)) "250"%string)
    as (_ & Hin & _).
  pose proof (proj1 (X22_logs_are_bounded (IW := listing_daemon)) "all"%string)
    as (_ & _ & _ & _ & Hno).
  split.
  - apply Hin; [reflexivity|]. split; discriminate.
  - apply Hno. reflexivity.
Defined.

Lemma X23_witness :
  handlers.resolveContainerID (MR := range_to_list) (IW := listing_daemon) "ab12" quiet_host
  = (inl "ab12cd"%string, quiet_host).
Proof.
  destruct (proj2 (X23_resolveContainerID_first_match (MR := range_to_list) (IW := listing_daemon)
                     "ab12" quiet_host) "No such container: ab12"%string tt eq_refl)
    as (_ & Hfirst & _).
  refine (Hfirst [] _ _ tt eq_refl (Forall_nil_2 _) _).
  right. reflexivity.
Defined.


Lemma X25_witness :
  container.protocol_port "80/tcp" = ("tcp"%string, "80"%string).
Proof.
  refine (proj1 (proj2 X25_protocol_port_cases) "80"%string "tcp"%string _ _); reflexivity.
Defined.

Lemma X26_witness :
  (container.Create (MR := range_to_list) (OW := strict_daemon) named_port_spec fresh_host).1
  = Err (ErrInvalidPort "http").
Proof.
  destruct (proj1 (X26_Create_invalid_port (MR := range_to_list) (OW := strict_daemon)
                     named_port_spec fresh_host)) as (ports & k & v & Hports & Hk & _ & Hrun).
  - exists {[ "http"%string := "8080"%string ]}, "http"%string, "8080"%string.
    split; [reflexivity|]. split; [vm_compute; reflexivity|reflexivity].
  - rewrite Hrun. injection Hports as <-.
    apply lookup_singleton_Some in Hk as [<- _]. reflexivity.
Defined.

Lemma X27_witness :
  container.parseEnvVars
    (container.Create_env (MR := range_to_list) (Some {[ "PATH"%string := "/bin"%string ]}))
  = {[ "PATH"%string := "/bin"%string ]}.
Proof.
  refine (proj1 (X27_parseEnvVars_Create_env (MR := range_to_list)) _ _).
  intros k v a b [<- _]%lookup_singleton_Some.
  by apply cut_equals_None.
Defined.

Lemma X28_witness :
  exists loaded warnings,
    storage.LoadAllDeployments (codec := example_json) (fsys := example_fs)
      example_storage sample_disk
    = (Ok loaded, mkDisk (fs sample_disk) (log sample_disk ++ warnings)) /\
    forall stats,
      storage.GetStats (fsys := example_fs) example_storage sample_disk = inl stats ->
      stats !! "deployments"%string
      = Some (Z.of_nat (length loaded) + Z.of_nat (length warnings)).
Proof.
  destruct (X28_LoadAllDeployments_partitions (codec := example_json) (fsys := example_fs)
              example_storage sample_disk ["1.json"; "2.json"; "3.json"]%string eq_refl)
    as (loaded & warnings & Hrun & _ & _ & _ & _ & _ & Hstats).
  exists loaded, warnings. split; [exact Hrun|exact Hstats].
Defined.

Lemma X29_witness :
  exists loaded disk'',
    storage.LoadAllDeployments (codec := example_json) (fsys := example_fs) example_storage
      (storage.SaveDeployment (codec := example_json) (fsys := example_fs) example_storage
         (sample_deployment "1" "web") (mkDisk [] [])).2
    = (Ok loaded, disk'') /\
    omitempty.Deployment_ (sample_deployment "1" "web") ∈ loaded.
Proof.
  destruct (storage.SaveDeployment (codec := example_json) (fsys := example_fs) example_storage
              (sample_deployment "1" "web") (mkDisk [] [])) as [[e|] disk'] eqn:Hs;
    [by vm_compute in Hs|].
  assert (Hv : valid.Deployment_ (sample_deployment "1" "web") = true) by by_running.
  destruct (X29_SaveDeployment_then_LoadAll (codec := example_json) (fsys := example_fs)
              example_storage (sample_deployment "1" "web") (mkDisk [] []) disk'
              ["1.json"%string] Hv eq_refl Hs) as (loaded & disk'' & Hrun & _ & Hin & _).
  - vm_compute in Hs. injection Hs as <-. reflexivity.
  - apply list_elem_of_In. left. reflexivity.
  - exists loaded, disk''. split; [exact Hrun|exact Hin].
Defined.

Lemma X30_witness :
  storage.LoadService (codec := example_service_json) (fsys := example_service_fs)
    example_storage "1700000000000000000"
    (storage.SaveService (codec := example_service_json) (fsys := example_service_fs)
       example_storage metrics_service []).2
  = inl metrics_service.
Proof.
  refine (proj2 (X30_SaveService_then_LoadService (codec := example_service_json)
                   (fsys := example_service_fs) example_storage metrics_service [] _ _) _).
  - reflexivity.
  - by_running.
Defined.
